(** * quran-json: the download pipeline of [quran-api.cjs]

    A shallow embedding of the command-line tool that fetches the five
    per-chapter fragments of the Quran.com API, merges them by position into
    one record per ayah and writes one JSON document per surah.

    - JSON data is the type [value]; a JavaScript object is a finite map from
      property names to values, an array is a list.
    - Code that can throw returns a [result]; code that also talks to the
      network, the console, the clock or the file system is a function of the
      [World] it runs in.
    - JSON numbers are modelled by integers, which is what every number the
      tool branches on (ids, lengths, resource ids) is.
    - The definitions come first, in the order of the source; the
      properties follow. *)

From Stdlib Require Import ZArith String Ascii List Bool Lia Sorted.
From stdpp Require Import base option list gmap strings pretty.
Import ListNotations.

Set Warnings "-register-all".

(* ====================================================================== *)
(** ** Strings *)
(* ====================================================================== *)

(** A string stands for its sequence of code units.  The tool inspects
    ASCII only: it compares with ASCII literals and its regular expressions
    name the ASCII letters, digits and the hyphen; every other unit is a
    non-alphanumeric for them and is left alone by [toLowerCase] here.  (The
    language lowers two letters outside ASCII, the Kelvin sign and the
    dotted capital I, onto ASCII letters; names with these two are not
    covered.)  Arabic text is only copied. *)
Module JsString.

Definition in_range (lo hi : nat) (c : ascii) : bool :=
  let n := nat_of_ascii c in (lo <=? n)%nat && (n <=? hi)%nat.

Definition is_upper : ascii -> bool := in_range 65 90.
Definition is_lower : ascii -> bool := in_range 97 122.
Definition is_digit : ascii -> bool := in_range 48 57.

Definition hyphen : ascii := "-"%char.
Definition is_hyphen (c : ascii) : bool := Ascii.eqb c hyphen.

Definition lower_char (c : ascii) : ascii :=
  if is_upper c then ascii_of_nat (nat_of_ascii c + 32) else c.

(** [s.toLowerCase()] *)
Fixpoint toLowerCase (s : string) : string :=
  match s with
  | EmptyString => EmptyString
  | String c rest => String (lower_char c) (toLowerCase rest)
  end.

(** [s.replace(/[^a-z0-9]/g, '-')] *)
Fixpoint replace_non_alnum (s : string) : string :=
  match s with
  | EmptyString => EmptyString
  | String c rest =>
      String (if is_lower c || is_digit c then c else hyphen)
             (replace_non_alnum rest)
  end.

(** [s.replace(/-+/g, '-')]: of every maximal run of hyphens one is kept
    (here the last one; the units of a run are all the same). *)
Fixpoint collapse_hyphens (s : string) : string :=
  match s with
  | EmptyString => EmptyString
  | String c rest =>
      match rest with
      | String d _ =>
          if is_hyphen c && is_hyphen d then collapse_hyphens rest
          else String c (collapse_hyphens rest)
      | EmptyString => String c EmptyString
      end
  end.

(** [s.replace(/^-|-$/g, '')]: the first alternative can only match at
    index 0 and the second only at the last index, so the replacement
    removes one hyphen at the front, if there is one, and then one hyphen
    at the end of what is left, if there is one. *)
Definition strip_first_hyphen (s : string) : string :=
  match s with
  | String c rest => if is_hyphen c then rest else s
  | EmptyString => EmptyString
  end.

Fixpoint strip_last_hyphen (s : string) : string :=
  match s with
  | EmptyString => EmptyString
  | String c rest =>
      match rest with
      | EmptyString => if is_hyphen c then EmptyString else s
      | String _ _ => String c (strip_last_hyphen rest)
      end
  end.

Definition strip_edge_hyphens (s : string) : string :=
  strip_last_hyphen (strip_first_hyphen s).

(** The body of [sanitizeFilename], on a string. *)
Definition sanitize (name : string) : string :=
  strip_edge_hyphens
    (collapse_hyphens (replace_non_alnum (toLowerCase name))).

Fixpoint repeat_char (c : ascii) (n : nat) : string :=
  match n with
  | O => EmptyString
  | S k => String c (repeat_char c k)
  end.

(** [s.padStart(n, c)] for a one-character filler. *)
Definition padStart (n : nat) (c : ascii) (s : string) : string :=
  repeat_char c (n - String.length s) +:+ s.

(** [s.startsWith(p)] *)
Definition startsWith (p s : string) : bool := String.prefix p s.

(** *** The slug of the specification

    "lower-cases, replaces every run of non-alphanumeric characters with a
    single hyphen, and trims leading/trailing hyphens". *)

Definition is_alnum (c : ascii) : bool :=
  is_upper c || is_lower c || is_digit c.

(** One pass; [in_run] tells whether the previous unit already belonged to
    a run of non-alphanumerics, whose hyphen has then been emitted. *)
Fixpoint hyphenate_runs (in_run : bool) (s : string) : string :=
  match s with
  | EmptyString => EmptyString
  | String c rest =>
      if is_alnum c then String c (hyphenate_runs false rest)
      else if in_run then hyphenate_runs true rest
      else String hyphen (hyphenate_runs true rest)
  end.

Fixpoint trim_leading_hyphens (s : string) : string :=
  match s with
  | EmptyString => EmptyString
  | String c rest => if is_hyphen c then trim_leading_hyphens rest else s
  end.

Fixpoint trim_trailing_hyphens (s : string) : string :=
  match s with
  | EmptyString => EmptyString
  | String c rest =>
      match trim_trailing_hyphens rest with
      | EmptyString => if is_hyphen c then EmptyString else String c EmptyString
      | r => String c r
      end
  end.

Definition slug (name : string) : string :=
  trim_trailing_hyphens
    (trim_leading_hyphens (hyphenate_runs false (toLowerCase name))).

(** Shapes of strings the proofs speak about. *)
Fixpoint no_upper (s : string) : bool :=
  match s with
  | EmptyString => true
  | String c rest => negb (is_upper c) && no_upper rest
  end.

(** No two hyphens side by side. *)
Fixpoint single_hyphens (s : string) : bool :=
  match s with
  | EmptyString => true
  | String c rest =>
      match rest with
      | EmptyString => true
      | String d _ => negb (is_hyphen c && is_hyphen d) && single_hyphens rest
      end
  end.

Definition starts_with_hyphen (s : string) : bool :=
  match s with
  | String c _ => is_hyphen c
  | EmptyString => false
  end.

End JsString.

(* ====================================================================== *)
(** ** JSON values and the JavaScript operators the tool applies to them *)
(* ====================================================================== *)

(** What [JSON.parse] returns, plus [undefined], which reading an absent
    property yields and which the tool copies into its records. *)
Inductive value : Type :=
| VUndef
| VNull
| VBool (b : bool)
| VNum (n : Z)
| VStr (s : string)
| VArr (items : list value)
| VObj (fields : gmap string value).

(** The exceptions of the tool: the TypeErrors of the language, whose
    wording is the engine's and is only indicated here, and the Errors the
    tool creates itself. *)
Inductive js_error : Type :=
| TypeError (msg : string)
| Error (msg : string).

(** [error.message] *)
Definition message (e : js_error) : string :=
  match e with TypeError m | Error m => m end.

(** The outcome of code that may throw. *)
Inductive result (A : Type) : Type :=
| Ok (a : A)
| Throw (e : js_error).
Arguments Ok {A} a.
Arguments Throw {A} e.

Definition rbind {A B : Type} (r : result A) (k : A -> result B) : result B :=
  match r with
  | Ok a => k a
  | Throw e => Throw e
  end.

Notation "'let!' x ':=' r 'in' k" := (rbind r (fun x => k))
  (at level 10, x name, r at level 100, k at level 200).

Definition is_ok {A : Type} (r : result A) : bool :=
  match r with Ok _ => true | Throw _ => false end.

(** Truthiness, [a || b] and the test for [null]/[undefined]. *)
Definition truthy (v : value) : bool :=
  match v with
  | VUndef | VNull => false
  | VBool b => b
  | VNum n => negb (n =? 0)%Z
  | VStr s => negb (String.eqb s "")
  | VArr _ | VObj _ => true
  end.

Definition js_or (a b : value) : value := if truthy a then a else b.

Definition nullish (v : value) : bool :=
  match v with VUndef | VNull => true | _ => false end.

(** [v.name] for the property names the tool reads (none of which lives on
    a prototype, [length] apart): [None] stands for the TypeError that
    reading a property of [null] or [undefined] raises. *)
Definition member (v : value) (name : string) : option value :=
  match v with
  | VUndef | VNull => None
  | VObj fields => Some (default VUndef (fields !! name))
  | VArr items =>
      Some (if String.eqb name "length" then VNum (Z.of_nat (length items))
            else VUndef)
  | VStr s =>
      Some (if String.eqb name "length" then VNum (Z.of_nat (String.length s))
            else VUndef)
  | VBool _ | VNum _ => Some VUndef
  end.

Definition cannot_read (name : string) : js_error :=
  TypeError ("Cannot read properties of null or undefined (reading '"
             +:+ name +:+ "')").

(** [v.name] *)
Definition get_prop (v : value) (name : string) : result value :=
  match member v name with
  | Some x => Ok x
  | None => Throw (cannot_read name)
  end.

(** [v?.name] *)
Definition opt_prop (v : value) (name : string) : value :=
  default VUndef (member v name).

(** [v[i]] for a number [i]: an element of an array, a unit of a string,
    the property named by the decimal numeral of an object. *)
Definition get_item (v : value) (i : nat) : result value :=
  match v with
  | VUndef | VNull => Throw (cannot_read (pretty i))
  | VArr items => Ok (default VUndef (items !! i))
  | VStr s =>
      Ok (match String.get i s with
          | Some c => VStr (String c EmptyString)
          | None => VUndef
          end)
  | VObj fields => Ok (default VUndef (fields !! pretty i))
  | VBool _ | VNum _ => Ok VUndef
  end.

(** [v === 'lit'] and [v === n] *)
Definition is_string (lit : string) (v : value) : bool :=
  match v with VStr s => String.eqb s lit | _ => false end.

Definition is_number (n : Z) (v : value) : bool :=
  match v with VNum m => (m =? n)%Z | _ => false end.

(** Array methods with a callback that may throw.  The callback runs on the
    elements from left to right and the first exception ends the call. *)
Fixpoint filterM {A : Type} (p : A -> result bool) (l : list A)
  : result (list A) :=
  match l with
  | [] => Ok []
  | x :: rest =>
      let! keep := p x in
      let! kept := filterM p rest in
      Ok (if keep then x :: kept else kept)
  end.

Fixpoint mapM {A B : Type} (f : A -> result B) (l : list A)
  : result (list B) :=
  match l with
  | [] => Ok []
  | x :: rest =>
      let! y := f x in
      let! ys := mapM f rest in
      Ok (y :: ys)
  end.

(** [find] stops at the first element the callback accepts. *)
Fixpoint findM {A : Type} (p : A -> result bool) (l : list A)
  : result (option A) :=
  match l with
  | [] => Ok None
  | x :: rest =>
      let! hit := p x in
      if hit then Ok (Some x) else findM p rest
  end.

Definition not_a_function (what : string) : js_error :=
  TypeError (what +:+ " is not a function").

(** [v.filter(p)] and [v.find(p)]: only an array has these methods. *)
Definition js_filter (v : value) (p : value -> result bool)
  : result (list value) :=
  match v with
  | VArr items => filterM p items
  | VUndef | VNull => Throw (cannot_read "filter")
  | _ => Throw (not_a_function "filter")
  end.

Definition js_find (v : value) (p : value -> result bool) : result value :=
  match v with
  | VArr items => let! hit := findM p items in Ok (default VUndef hit)
  | VUndef | VNull => Throw (cannot_read "find")
  | _ => Throw (not_a_function "find")
  end.

(** [sanitizeFilename(name)]: [name.toLowerCase] exists on strings only. *)
Definition sanitizeFilename (name : value) : result string :=
  match name with
  | VStr s => Ok (JsString.sanitize s)
  | VUndef | VNull => Throw (cannot_read "toLowerCase")
  | _ => Throw (not_a_function "name.toLowerCase")
  end.

(** [String(v)], which is also what a template literal applies.  An array
    is joined with commas, [null] and [undefined] elements giving the empty
    string.  An object is printed by the inherited [toString] unless a
    property of its own hides that method: as JSON holds no functions, the
    conversion then finds nothing to call and raises a TypeError. *)
Definition no_primitive : js_error :=
  TypeError "Cannot convert object to primitive value".

Fixpoint to_string (v : value) : result string :=
  match v with
  | VUndef => Ok "undefined"
  | VNull => Ok "null"
  | VBool true => Ok "true"
  | VBool false => Ok "false"
  | VNum n => Ok (pretty n)
  | VStr s => Ok s
  | VObj fields =>
      match fields !! "toString" with
      | Some _ => Throw no_primitive
      | None => Ok "[object Object]"
      end
  | VArr items =>
      (fix join (l : list value) : result string :=
         match l with
         | [] => Ok ""
         | x :: rest =>
             let! sx := match x with
                        | VUndef | VNull => Ok ""
                        | _ => to_string x
                        end in
             match rest with
             | [] => Ok sx
             | _ :: _ => let! sr := join rest in Ok (sx +:+ "," +:+ sr)
             end
         end) items
  end%string.

(** ** The merge of the five fragments (lines 214-327 of the tool) *)

Module TRANSLATION_IDS.
Definition indonesian : Z := 33.
Definition english : Z := 20.
End TRANSLATION_IDS.

Record Translation : Type := {
  text : value;
  language : string
}.

Record WordSegment : Type := {
  position : value;
  text_code : value;
  audio_url : value;
  translation : Translation;
  transliteration : value
}.

Record Ayah : Type := {
  ayah_id : value;
  verse_number : value;
  verse_key : value;
  juz_number : value;
  hizb_number : value;
  rub_el_hizb_number : value;
  manzil_number : value;
  ruku_number : value;
  page_number : value;
  sajdah_number : value;
  text_arabic_simple : value;
  text_arabic_uthmani : value;
  text_arabic_tajweed : value;
  words_en : list WordSegment;
  words_id : list WordSegment;
  translations_en : value;
  translations_id : value
}.

Record Meta : Type := {
  source : string;
  base_url : string;
  downloaded_at : string;
  translation_ids : Z * Z
}.

Record Surah : Type := {
  surah_id : value;
  name_simple : value;
  name_complex : value;
  name_arabic : value;
  translated_name : value;
  revelation_place : value;
  revelation_order : value;
  bismillah_pre : value;
  verses_count : value;
  pages : value
}.

Record Stats : Type := {
  total_ayahs : Z;
  total_words_en : Z;
  total_words_id : Z
}.

Record SurahDocument : Type := {
  meta : Meta;
  surah : Surah;
  ayahs : list Ayah;
  stats : Stats
}.

(** The five parsed responses, in the order they are fetched. *)
Record Fragments : Type := {
  uthmaniData : value;
  imlaeiData : value;
  tajweedData : value;
  versesEnData : value;
  versesIdData : value
}.

(** [w => w.char_type_name === 'word'] *)
Definition is_word (w : value) : result bool :=
  let! tag := get_prop w "char_type_name" in
  Ok (is_string "word" tag).

(** [a || b] where the right operand is a property read, which only happens
    when the left operand is falsy. *)
Definition or_else (a : value) (b : result value) : result value :=
  if truthy a then Ok a else b.

(** The callback of [map] for [words.en]. *)
Definition word_en (w : value) : result WordSegment :=
  let! pos := get_prop w "position" in
  let! code_v1 := get_prop w "code_v1" in
  let! code := or_else code_v1 (get_prop w "text") in
  let! audio := get_prop w "audio_url" in
  let! tr := get_prop w "translation" in
  let! tl := get_prop w "transliteration" in
  Ok {| position := pos;
        text_code := code;
        audio_url := audio;
        translation := {| text := js_or (opt_prop tr "text") (VStr "");
                          language := "en" |};
        transliteration := js_or (opt_prop tl "text") (VStr "") |}.

(** [w.translation?.language_name === 'indonesian' ? 'id' : 'en'] *)
Definition language_tag (tr : value) : string :=
  if is_string "indonesian" (opt_prop tr "language_name") then "id" else "en".

(** The callback of [map] for [words.id]. *)
Definition word_id (w : value) : result WordSegment :=
  let! pos := get_prop w "position" in
  let! code_v1 := get_prop w "code_v1" in
  let! code := or_else code_v1 (get_prop w "text") in
  let! audio := get_prop w "audio_url" in
  let! tr := get_prop w "translation" in
  let! tl := get_prop w "transliteration" in
  Ok {| position := pos;
        text_code := code;
        audio_url := audio;
        translation := {| text := js_or (opt_prop tr "text") (VStr "");
                          language := language_tag tr |};
        transliteration := js_or (opt_prop tl "text") (VStr "") |}.

(** [(verse.words || []).filter(...).map(...)] *)
Definition build_words (segment : value -> result WordSegment) (verse : value)
  : result (list WordSegment) :=
  let! ws := get_prop verse "words" in
  let! kept := js_filter (js_or ws (VArr [])) is_word in
  mapM segment kept.

(** [t => t.resource_id === rid] *)
Definition has_resource (rid : Z) (t : value) : result bool :=
  let! r := get_prop t "resource_id" in
  Ok (is_number rid r).

(** [data.verses || []] *)
Definition verses_of (data : value) : result value :=
  let! vs := get_prop data "verses" in
  Ok (js_or vs (VArr [])).

(** The body of the loop at index [i] (lines 223-291). *)
Definition build_ayah
  (versesEn versesId uthmaniVerses imlaeiVerses tajweedVerses : value)
  (i : nat) : result Ayah :=
  let! verseEn := get_item versesEn i in
  let! entryId := get_item versesId i in
  let verseId := js_or entryId verseEn in
  let! uthmani := get_item uthmaniVerses i in
  let! imlaei := get_item imlaeiVerses i in
  let! tajweed := get_item tajweedVerses i in
  let! wordsEn := build_words word_en verseEn in
  let! wordsId := build_words word_id verseId in
  let! trs := get_prop verseEn "translations" in
  let translationsEn := js_or trs (VArr []) in
  let! translationEn :=
    js_find translationsEn (has_resource TRANSLATION_IDS.english) in
  let! translationId :=
    js_find translationsEn (has_resource TRANSLATION_IDS.indonesian) in
  let! a_id := get_prop verseEn "id" in
  let! a_number := get_prop verseEn "verse_number" in
  let! a_key := get_prop verseEn "verse_key" in
  let! a_juz := get_prop verseEn "juz_number" in
  let! a_hizb := get_prop verseEn "hizb_number" in
  let! a_rub := get_prop verseEn "rub_el_hizb_number" in
  let! a_manzil := get_prop verseEn "manzil_number" in
  let! a_ruku := get_prop verseEn "ruku_number" in
  let! a_page := get_prop verseEn "page_number" in
  let! a_sajdah := get_prop verseEn "sajdah_number" in
  Ok {| ayah_id := a_id;
        verse_number := a_number;
        verse_key := a_key;
        juz_number := a_juz;
        hizb_number := a_hizb;
        rub_el_hizb_number := a_rub;
        manzil_number := a_manzil;
        ruku_number := a_ruku;
        page_number := a_page;
        sajdah_number := a_sajdah;
        text_arabic_simple := js_or (opt_prop imlaei "text_imlaei") (VStr "");
        text_arabic_uthmani := js_or (opt_prop uthmani "text_uthmani") (VStr "");
        text_arabic_tajweed :=
          js_or (opt_prop tajweed "text_uthmani_tajweed") (VStr "");
        words_en := wordsEn;
        words_id := wordsId;
        translations_en := js_or (opt_prop translationEn "text") (VStr "");
        translations_id := js_or (opt_prop translationId "text") (VStr "") |}.

Section Aggregator.

(** The conversion of a string to a number belongs to the language; [None]
    is NaN. *)
Variable string_to_number : string -> option Z.

(** [ToNumber], which the relational operators apply to an operand that is
    compared with a number. *)
Definition to_number (v : value) : result (option Z) :=
  match v with
  | VUndef => Ok None
  | VNull => Ok (Some 0%Z)
  | VBool b => Ok (Some (if b then 1 else 0)%Z)
  | VNum n => Ok (Some n)
  | VStr s => Ok (string_to_number s)
  | VArr _ | VObj _ => let! s := to_string v in Ok (string_to_number s)
  end.

(** [v >= n] and [v <= n] for a number [n]: a comparison with NaN is
    false. *)
Definition js_ge (v : value) (n : Z) : result bool :=
  let! m := to_number v in
  Ok (match m with Some z => (n <=? z)%Z | None => false end).

Definition js_le (v : value) (n : Z) : result bool :=
  let! m := to_number v in
  Ok (match m with Some z => (z <=? n)%Z | None => false end).

(** [for (let i = 0; i < versesEn.length; i++) { ...; ayahs.push(...) }],
    with [count] the number of indices that pass the test. *)
Fixpoint ayah_loop
  (versesEn versesId uthmaniVerses imlaeiVerses tajweedVerses : value)
  (count i : nat) (ayahs : list Ayah) : result (list Ayah) :=
  match count with
  | O => Ok ayahs
  | S rest =>
      let! a := build_ayah versesEn versesId uthmaniVerses imlaeiVerses
                           tajweedVerses i in
      ayah_loop versesEn versesId uthmaniVerses imlaeiVerses tajweedVerses
                rest (S i) (ayahs ++ [a])
  end.

(** The test [i < versesEn.length] reads the same length at every turn, so
    it passes for the indices below that length and for no other; it throws,
    at the first turn, when the length does not convert to a number. *)
Definition loop_count (versesEn : value) : result nat :=
  let! len := get_prop versesEn "length" in
  let! n := to_number len in
  Ok (match n with Some z => Z.to_nat z | None => O end).

(** Lines 214-292: the ayahs array. *)
Definition buildAyahs (f : Fragments) : result (list Ayah) :=
  let! versesEn := verses_of (versesEnData f) in
  let! versesId := verses_of (versesIdData f) in
  let! uthmaniVerses := verses_of (uthmaniData f) in
  let! imlaeiVerses := verses_of (imlaeiData f) in
  let! tajweedVerses := verses_of (tajweedData f) in
  let! count := loop_count versesEn in
  ayah_loop versesEn versesId uthmaniVerses imlaeiVerses tajweedVerses
            count O [].

(** [ayahs.reduce((sum, a) => sum + a.words.<lang>.length, 0)] *)
Definition count_words (lang : Ayah -> list WordSegment) (l : list Ayah) : Z :=
  fold_left (fun sum a => (sum + Z.of_nat (length (lang a)))%Z) l 0%Z.

(** Lines 294-327: the document, stamped with the time [now]. *)
Definition buildDocument (baseUrl : string) (chapter : value) (now : string)
  (l : list Ayah) : result SurahDocument :=
  let! c_id := get_prop chapter "id" in
  let! c_simple := get_prop chapter "name_simple" in
  let! c_complex := get_prop chapter "name_complex" in
  let! c_arabic := get_prop chapter "name_arabic" in
  let! c_translated := get_prop chapter "translated_name" in
  let! c_place := get_prop chapter "revelation_place" in
  let! c_order := get_prop chapter "revelation_order" in
  let! c_bismillah := get_prop chapter "bismillah_pre" in
  let! c_count := get_prop chapter "verses_count" in
  let! c_pages := get_prop chapter "pages" in
  Ok {| meta := {| source := "Quran.com API v4";
                   base_url := baseUrl;
                   downloaded_at := now;
                   translation_ids := (TRANSLATION_IDS.indonesian,
                                       TRANSLATION_IDS.english) |};
        surah := {| surah_id := c_id;
                    name_simple := c_simple;
                    name_complex := c_complex;
                    name_arabic := c_arabic;
                    translated_name := c_translated;
                    revelation_place := c_place;
                    revelation_order := c_order;
                    bismillah_pre := c_bismillah;
                    verses_count := c_count;
                    pages := c_pages |};
        ayahs := l;
        stats := {| total_ayahs := Z.of_nat (length l);
                    total_words_en := count_words words_en l;
                    total_words_id := count_words words_id l |} |}.

End Aggregator.

(* ====================================================================== *)
(** ** The world the tool runs in *)
(* ====================================================================== *)

Inductive protocol : Type := Http | Https.

(** What a GET request comes to: the module refuses the URL, so that [get]
    itself throws a TypeError inside the executor of the promise (a scheme
    that is not the module's, a URL that is none); or the request emits
    ['error']; or a response arrives and emits its body in chunks and then
    ['end'].  The status code is part of the response. *)
Inductive exchange : Type :=
| Refused (msg : string)
| RequestError (msg : string)
| Response (status : Z) (chunks : list string).

(** The state the tool changes: the number of calls of [get] so far, the
    milliseconds slept, the files written (oldest first, as path and
    content) and the lines printed (oldest first). *)
Record World : Type := {
  requests : nat;
  elapsed : nat;
  files : list (string * string);
  console : list string
}.

(** What the tool does not decide: the remote side, the built-in JSON
    codec, the clock and the file system. *)
Record Env : Type := {
  (** the outcome of the n-th call of [get] of the run, on a module and a
      URL *)
  http_get : nat -> protocol -> string -> exchange;
  (** [JSON.parse]: the value, or the message of the SyntaxError *)
  JSON_parse : string -> value + string;
  (** [JSON.stringify(doc, null, 2)] *)
  JSON_stringify : SurahDocument -> string;
  (** the numeric value of a string, [None] for NaN *)
  string_to_number : string -> option Z;
  (** [new Date().toISOString()] after so many requests and milliseconds *)
  toISOString : nat -> nat -> string;
  (** [path.join(dir, name)] *)
  path_join : string -> string -> string;
  (** the exception [fs.writeFileSync] raises for a path, if it does, given
      the files written so far; a write that throws is taken to leave no
      file *)
  write_failure : list (string * string) -> string -> option js_error;
  (** the text of a number beyond 2^53, where a number of the language is
      the nearest double: its shortest digits, in exponent form from 10^21
      on *)
  large_number_text : Z -> string
}.

(** An asynchronous or effectful computation: it ends with a value or with
    an exception (a rejected promise), in a new world. *)
Definition M (A : Type) : Type := World -> result A * World.

Definition ret {A : Type} (a : A) : M A := fun w => (Ok a, w).

Definition throw {A : Type} (e : js_error) : M A := fun w => (Throw e, w).

Definition bind {A B : Type} (m : M A) (k : A -> M B) : M B :=
  fun w =>
    match m w with
    | (Ok a, w') => k a w'
    | (Throw e, w') => (Throw e, w')
    end.

Notation "'let*' x ':=' m 'in' k" := (bind m (fun x => k))
  (at level 10, x name, m at level 100, k at level 200).

Notation "m ';;' k" := (bind m (fun _ => k))
  (at level 100, k at level 200, right associativity).

(** Pure code that may throw, run inside a computation. *)
Definition lift {A : Type} (r : result A) : M A := fun w => (r, w).

(** [try { body } catch (error) { handler }] *)
Definition try_catch {A : Type} (body : M A) (handler : js_error -> M A)
  : M A :=
  fun w =>
    match body w with
    | (Ok a, w') => (Ok a, w')
    | (Throw e, w') => handler e w'
    end.

(** [for (const x of l) { body }] *)
Fixpoint for_each {A : Type} (l : list A) (body : A -> M unit) : M unit :=
  match l with
  | [] => ret tt
  | x :: rest => body x ;; for_each rest body
  end.

Definition sent (w : World) : World :=
  {| requests := S (requests w); elapsed := elapsed w;
     files := files w; console := console w |}.

Definition slept (ms : nat) (w : World) : World :=
  {| requests := requests w; elapsed := elapsed w + ms;
     files := files w; console := console w |}.

Definition printed (line : string) (w : World) : World :=
  {| requests := requests w; elapsed := elapsed w;
     files := files w; console := console w ++ [line] |}.

Definition written (path content : string) (w : World) : World :=
  {| requests := requests w; elapsed := elapsed w;
     files := files w ++ [(path, content)]; console := console w |}.

(** [console.log(line)] *)
Definition console_log (line : string) : M unit :=
  fun w => (Ok tt, printed line w).

(** [sleep(ms)] *)
Definition sleep (ms : nat) : M unit := fun w => (Ok tt, slept ms w).

Module COLORS.
Inductive name : Type :=
| reset | bright | dim | red | green | yellow | blue | magenta | cyan | white.

Definition esc : string := String (ascii_of_nat 27) "[".

Definition code (c : name) : string :=
  match c with
  | reset => esc +:+ "0m"
  | bright => esc +:+ "1m"
  | dim => esc +:+ "2m"
  | red => esc +:+ "31m"
  | green => esc +:+ "32m"
  | yellow => esc +:+ "33m"
  | blue => esc +:+ "34m"
  | magenta => esc +:+ "35m"
  | cyan => esc +:+ "36m"
  | white => esc +:+ "37m"
  end.
End COLORS.

Definition colorLog (color : COLORS.name) (msg : string) : M unit :=
  console_log (COLORS.code color +:+ msg +:+ COLORS.code COLORS.reset).

Fixpoint repeat_string (s : string) (n : nat) : string :=
  match n with
  | O => ""
  | S k => s +:+ repeat_string s k
  end.

Definition printHeader (title : string) : M unit :=
  let line := repeat_string "═" 60 in
  console_log "" ;;
  colorLog COLORS.cyan line ;;
  colorLog COLORS.cyan ("  " +:+ title) ;;
  colorLog COLORS.cyan line.

Definition newline : string := String (ascii_of_nat 10) "".

Section Tool.

Variable E : Env.

(** [url.startsWith('https') ? https : http] *)
Definition protocol_of (url : string) : protocol :=
  if JsString.startsWith "https" url then Https else Http.

(** [data += chunk] for every chunk, from [data = ''] *)
Definition accumulate (chunks : list string) : string :=
  fold_left (fun data chunk => data +:+ chunk) chunks ""%string.

(** How the promise of [fetchJSON] settles for an exchange: an exception
    of [get] inside the executor rejects the promise with that exception,
    as it is; the ['error'] listener rejects; the ['end'] listener parses
    the accumulated body and resolves with the value or rejects with the
    parse error.  Nothing reads the status code. *)
Definition settle (url : string) (x : exchange) : result value :=
  match x with
  | Refused msg => Throw (TypeError msg)
  | RequestError msg =>
      Throw (Error ("HTTP request failed for " +:+ url +:+ ": " +:+ msg))
  | Response _ chunks =>
      match JSON_parse E (accumulate chunks) with
      | inl json => Ok json
      | inr msg =>
          Throw (Error ("Failed to parse JSON from " +:+ url +:+ ": " +:+ msg))
      end
  end.

Definition fetchJSON (url : string) : M value :=
  fun w => (settle url (http_get E (requests w) (protocol_of url) url), sent w).

Definition fetchChapters (baseUrl : string) : M value :=
  let url := baseUrl +:+ "/chapters" in
  colorLog COLORS.dim "  → Fetching chapters list..." ;;
  fetchJSON url.

(** [translationIds.join(',')] *)
Fixpoint join_ids (ids : list Z) : string :=
  match ids with
  | [] => ""
  | [n] => pretty n
  | n :: rest => pretty n +:+ "," +:+ join_ids rest
  end.

Definition fetchVersesWithWords (baseUrl : string) (chapterId : value)
  (wordLang : string) (translationIds : list Z) : M value :=
  let translations := join_ids translationIds in
  let* cid := lift (to_string chapterId) in
  fetchJSON (baseUrl +:+ "/verses/by_chapter/" +:+ cid +:+ "?language="
             +:+ wordLang
             +:+ "&words=true&word_fields=text_uthmani,translation,transliteration&translations="
             +:+ translations +:+ "&per_page=300").

Definition fetchUthmaniText (baseUrl : string) (chapterId : value) : M value :=
  let* cid := lift (to_string chapterId) in
  fetchJSON (baseUrl +:+ "/quran/verses/uthmani?chapter_number=" +:+ cid).

Definition fetchImlaeiText (baseUrl : string) (chapterId : value) : M value :=
  let* cid := lift (to_string chapterId) in
  fetchJSON (baseUrl +:+ "/quran/verses/imlaei?chapter_number=" +:+ cid).

Definition fetchUthmaniTajweedText (baseUrl : string) (chapterId : value)
  : M value :=
  let* cid := lift (to_string chapterId) in
  fetchJSON (baseUrl +:+ "/quran/verses/uthmani_tajweed?chapter_number="
             +:+ cid).

(** Lines 181-212: the five requests, one after the other. *)
Definition fetchFragments (baseUrl : string) (chapter : value) : M Fragments :=
  let* chapterId := lift (get_prop chapter "id") in
  colorLog COLORS.dim "  → Fetching Arabic text (Uthmani)..." ;;
  let* uthmani := fetchUthmaniText baseUrl chapterId in
  sleep 100 ;;
  colorLog COLORS.dim "  → Fetching Arabic text (Imlaei/Simple)..." ;;
  let* imlaei := fetchImlaeiText baseUrl chapterId in
  sleep 100 ;;
  colorLog COLORS.dim "  → Fetching Arabic text (Uthmani Tajweed)..." ;;
  let* tajweed := fetchUthmaniTajweedText baseUrl chapterId in
  sleep 100 ;;
  colorLog COLORS.dim "  → Fetching verses with English word translations..." ;;
  let* versesEn :=
    fetchVersesWithWords baseUrl chapterId "en"
      [TRANSLATION_IDS.english; TRANSLATION_IDS.indonesian] in
  sleep 100 ;;
  colorLog COLORS.dim
    "  → Fetching verses with Indonesian word translations..." ;;
  let* versesId :=
    fetchVersesWithWords baseUrl chapterId "id"
      [TRANSLATION_IDS.english; TRANSLATION_IDS.indonesian] in
  sleep 100 ;;
  ret {| uthmaniData := uthmani; imlaeiData := imlaei;
         tajweedData := tajweed; versesEnData := versesEn;
         versesIdData := versesId |}.

(** [new Date().toISOString()] *)
Definition now : M string :=
  fun w => (Ok (toISOString E (requests w) (elapsed w)), w).

Definition buildSurahData (baseUrl : string) (chapter : value)
  : M SurahDocument :=
  let* fragments := fetchFragments baseUrl chapter in
  let* l := lift (buildAyahs (string_to_number E) fragments) in
  let* stamp := now in
  lift (buildDocument baseUrl chapter stamp l).

(** [fs.writeFileSync(path, content, 'utf8')] *)
Definition writeFileSync (path content : string) : M unit :=
  fun w =>
    match write_failure E (files w) path with
    | Some e => (Throw e, w)
    | None => (Ok tt, written path content w)
    end.

(** The name of a chapter's file (lines 352-353 and 385-386). *)
Definition output_filename (chapter : value) : result string :=
  let! c_id := get_prop chapter "id" in
  let! s := to_string c_id in
  let paddedId := JsString.padStart 3 "0" s in
  let! name := get_prop chapter "name_simple" in
  let! slug := sanitizeFilename name in
  Ok (paddedId +:+ "-" +:+ slug +:+ ".json").

(** [chapter.name] inside a template literal *)
Definition shown (chapter : value) (name : string) : result string :=
  let! v := get_prop chapter name in
  to_string v.

(** A number of the command line inside a template literal: the decimal
    numeral of an integer a double holds exactly, the text of the nearest
    double beyond. *)
Definition number_text (n : Z) : string :=
  if (Z.abs n <=? 2 ^ 53)%Z then pretty n else large_number_text E n.

Definition downloadSurah (baseUrl outputDir : string) (surahId : Z)
  : M SurahDocument :=
  let* chaptersData := fetchChapters baseUrl in
  let* listing := lift (get_prop chaptersData "chapters") in
  let* chapter :=
    lift (js_find listing
            (fun c => let! c_id := get_prop c "id" in
                      Ok (is_number surahId c_id))) in
  if negb (truthy chapter) then
    throw (Error ("Surah with ID " +:+ number_text surahId +:+ " not found"))
  else
    let* simple := lift (shown chapter "name_simple") in
    let* arabic := lift (shown chapter "name_arabic") in
    printHeader ("Downloading: " +:+ simple +:+ " (" +:+ arabic +:+ ")") ;;
    let* c_id := lift (shown chapter "id") in
    let* c_count := lift (shown chapter "verses_count") in
    let* c_place := lift (shown chapter "revelation_place") in
    console_log ("  Surah #" +:+ c_id +:+ " | " +:+ c_count +:+ " verses | "
                 +:+ c_place) ;;
    console_log "" ;;
    let* surahData := buildSurahData baseUrl chapter in
    let* filename := lift (output_filename chapter) in
    let filepath := path_join E outputDir filename in
    writeFileSync filepath (JSON_stringify E surahData) ;;
    colorLog COLORS.green ("  ✓ Saved to: " +:+ filepath) ;;
    console_log ("    → " +:+ pretty (total_ayahs (stats surahData))
                 +:+ " ayahs") ;;
    console_log ("    → " +:+ pretty (total_words_en (stats surahData))
                 +:+ " words (EN)") ;;
    console_log ("    → " +:+ pretty (total_words_id (stats surahData))
                 +:+ " words (ID)") ;;
    ret surahData.

(** [c => c.id >= startFrom && c.id <= endAt] *)
Definition in_interval (startFrom endAt : Z) (c : value) : result bool :=
  let! c_id := get_prop c "id" in
  let! above := js_ge (string_to_number E) c_id startFrom in
  if above then
    let! c_id' := get_prop c "id" in
    js_le (string_to_number E) c_id' endAt
  else Ok false.

(** The statements inside [try] for one chapter (lines 380-394). *)
Definition download_chapter (baseUrl outputDir : string) (chapter : value)
  : M unit :=
  let* c_id := lift (shown chapter "id") in
  let* simple := lift (shown chapter "name_simple") in
  let* arabic := lift (shown chapter "name_arabic") in
  colorLog COLORS.blue (newline +:+ "[" +:+ c_id +:+ "/114] " +:+ simple
                        +:+ " (" +:+ arabic +:+ ")") ;;
  let* surahData := buildSurahData baseUrl chapter in
  let* filename := lift (output_filename chapter) in
  let filepath := path_join E outputDir filename in
  writeFileSync filepath (JSON_stringify E surahData) ;;
  colorLog COLORS.green ("  ✓ " +:+ filename +:+ " ("
                         +:+ pretty (total_ayahs (stats surahData))
                         +:+ " ayahs)") ;;
  sleep 500.

(** [catch (error) { colorLog('red', ...) }] *)
Definition report (error : js_error) : M unit :=
  colorLog COLORS.red ("  ✗ Error: " +:+ message error).

(** One turn of the loop of [downloadAllSurahs]. *)
Definition turn (baseUrl outputDir : string) (chapter : value) : M unit :=
  try_catch (download_chapter baseUrl outputDir chapter) report.

Definition downloadAllSurahs (baseUrl outputDir : string)
  (startFrom endAt : Z) : M unit :=
  let* chaptersData := fetchChapters baseUrl in
  let* listing := lift (get_prop chaptersData "chapters") in
  let* chapters := lift (js_filter listing (in_interval startFrom endAt)) in
  printHeader ("Downloading " +:+ pretty (length chapters) +:+ " Surahs") ;;
  console_log ("  From: Surah " +:+ number_text startFrom +:+ " to Surah "
               +:+ number_text endAt) ;;
  console_log ("  Output: " +:+ outputDir) ;;
  console_log "" ;;
  for_each chapters (turn baseUrl outputDir) ;;
  colorLog COLORS.green (newline +:+ "✓ Download complete!").

End Tool.

(** The numeral the specification gives a chapter id: three decimal digits,
    with leading zeros. *)
Definition digit_char (d : Z) : ascii := ascii_of_nat (48 + Z.to_nat d).

Definition three_digits (n : Z) : string :=
  String (digit_char (n / 100))
    (String (digit_char (n / 10 mod 10))
       (String (digit_char (n mod 10)) EmptyString)).

(** The file name the specification gives a chapter. *)
Definition spec_filename (n : Z) (name : string) : string :=
  three_digits n +:+ "-" +:+ JsString.slug name +:+ ".json".


(* ====================================================================== *)
(** ** Vocabulary of the statements *)
(* ====================================================================== *)

(** A token carries the type tag "word". *)
Definition tagged (w : value) : bool :=
  is_string "word" (opt_prop w "char_type_name").

(** The tokens of a verse: its [words] array, none when the field is absent
    or falsy. *)
Definition word_tokens (verse : value) : list value :=
  match js_or (opt_prop verse "words") (VArr []) with
  | VArr tokens => tokens
  | _ => []
  end.

(** The translation list of a verse, empty when the field is absent or
    falsy. *)
Definition translation_entries (verse : value) : list value :=
  match js_or (opt_prop verse "translations") (VArr []) with
  | VArr entries => entries
  | _ => []
  end.

(** The first entry of a translation list with a given resource id. *)
Definition first_with_resource (rid : Z) (entries : list value)
  : option value :=
  List.find (fun t => is_number rid (opt_prop t "resource_id")) entries.

(** [found?.text || ''] for the first entry with a resource id. *)
Definition translation_text (rid : Z) (verse : value) : value :=
  js_or (opt_prop (default VUndef
                     (first_with_resource rid (translation_entries verse)))
                  "text")
        (VStr "").

(** The record of one index: the identity and position fields of the primary
    verse, the three Arabic texts, the two word lists and the two
    translations found in the primary verse. *)
Definition merged_ayah (verseEn uthmani imlaei tajweed : value)
  (wordsEn wordsId : list WordSegment) : Ayah :=
  {| ayah_id := opt_prop verseEn "id";
     verse_number := opt_prop verseEn "verse_number";
     verse_key := opt_prop verseEn "verse_key";
     juz_number := opt_prop verseEn "juz_number";
     hizb_number := opt_prop verseEn "hizb_number";
     rub_el_hizb_number := opt_prop verseEn "rub_el_hizb_number";
     manzil_number := opt_prop verseEn "manzil_number";
     ruku_number := opt_prop verseEn "ruku_number";
     page_number := opt_prop verseEn "page_number";
     sajdah_number := opt_prop verseEn "sajdah_number";
     text_arabic_simple := js_or (opt_prop imlaei "text_imlaei") (VStr "");
     text_arabic_uthmani := js_or (opt_prop uthmani "text_uthmani") (VStr "");
     text_arabic_tajweed :=
       js_or (opt_prop tajweed "text_uthmani_tajweed") (VStr "");
     words_en := wordsEn;
     words_id := wordsId;
     translations_en := translation_text TRANSLATION_IDS.english verseEn;
     translations_id := translation_text TRANSLATION_IDS.indonesian verseEn |}.


(** The language metadata of a token: [w.translation?.language_name]. *)
Definition language_name_of (w : value) : value :=
  opt_prop (opt_prop w "translation") "language_name".

(** The key the specification gives the verse at position [i] (counted
    from 0) of chapter [c]. *)
Definition canonical_key (c : Z) (i : nat) : value :=
  VStr (pretty c +:+ ":" +:+ pretty (S i)).

(** A computation that leaves the files alone, however it ends. *)
Definition keeps_files {A : Type} (m : M A) : Prop :=
  forall w, files (snd (m w)) = files w.

(** The line [report] prints. *)
Definition report_line (e : js_error) : string :=
  COLORS.code COLORS.red +:+ ("  ✗ Error: " +:+ message e)
  +:+ COLORS.code COLORS.reset.

(** A message in a colour, and the four lines of a heading. *)
Definition tinted (color : COLORS.name) (msg : string) : string :=
  COLORS.code color +:+ msg +:+ COLORS.code COLORS.reset.

Definition heading (title : string) : list string :=
  let line := repeat_string "═" 60 in
  [""; tinted COLORS.cyan line; tinted COLORS.cyan ("  " +:+ title);
   tinted COLORS.cyan line].

(** The world after some more lines on the console. *)
Definition logged (lines : list string) (w : World) : World :=
  {| requests := requests w; elapsed := elapsed w; files := files w;
     console := console w ++ lines |}.

(** A computation only adds lines to the console, however it ends. *)
Definition adds_lines {A : Type} (m : M A) : Prop :=
  forall w, exists more, console (snd (m w)) = console w ++ more.

(** The world in which the first chapter of a ranged download has its
    turn: the world [w1] after the listing, with the heading and the three
    lines about the range on the console (lines 373-376). *)
Definition batch_start (E : Env) (outputDir : string) (startFrom endAt : Z)
  (chapters : list value) (w1 : World) : World :=
  printed ""
    (printed ("  Output: " +:+ outputDir)
       (printed ("  From: Surah " +:+ number_text E startFrom +:+ " to Surah "
                 +:+ number_text E endAt)
          (logged (heading ("Downloading " +:+ pretty (length chapters)
                            +:+ " Surahs")) w1))).

(** The last line of a ranged download. *)
Definition closing_line : string :=
  tinted COLORS.green (newline +:+ "✓ Download complete!").

(** A batch over a list of chapters, turn by turn, from the world in which
    the first turn starts to the world the last turn leaves: every chapter
    of the list has its turn, in the order of the list, whether the
    chapters before it were saved or failed, and starts it in the world the
    turn before it left; after a failure that is the world of the failure
    with the report on the console.  The last two indices list the
    chapters whose statements ran to the end and the exceptions of the
    others. *)
Inductive Batch (E : Env) (baseUrl outputDir : string)
  : list value -> World -> World -> list value -> list js_error -> Prop :=
| batch_end w : Batch E baseUrl outputDir [] w w [] []
| batch_saved c rest w w1 w' saved failed :
    download_chapter E baseUrl outputDir c w = (Ok tt, w1) ->
    Batch E baseUrl outputDir rest w1 w' saved failed ->
    Batch E baseUrl outputDir (c :: rest) w w' (c :: saved) failed
| batch_failed c rest w e w1 w' saved failed :
    download_chapter E baseUrl outputDir c w = (Throw e, w1) ->
    Batch E baseUrl outputDir rest (printed (report_line e) w1) w' saved
          failed ->
    Batch E baseUrl outputDir (c :: rest) w w' saved (e :: failed).

(** The line that opens the turn of a chapter in a batch (line 381). *)
Definition turn_line (c_id simple arabic : string) : string :=
  tinted COLORS.blue (newline +:+ "[" +:+ c_id +:+ "/114] " +:+ simple
                      +:+ " (" +:+ arabic +:+ ")").

(** The world in which a single download builds its document: the world
    [w1] after the listing, with the heading and the two lines about the
    chapter on the console (lines 345-347). *)
Definition single_start (simple arabic c_id c_count c_place : string)
  (w1 : World) : World :=
  printed ""
    (printed ("  Surah #" +:+ c_id +:+ " | " +:+ c_count +:+ " verses | "
              +:+ c_place)
       (logged (heading ("Downloading: " +:+ simple +:+ " (" +:+ arabic
                         +:+ ")")) w1)).

(** The file a saved chapter leaves: its name is the chapter's, its content
    a document that [buildSurahData] returned for the chapter. *)
Definition file_of (E : Env) (baseUrl outputDir : string) (c : value)
  (file : string * string) : Prop :=
  exists doc name w0 w1,
    buildSurahData E baseUrl c w0 = (Ok doc, w1) /\
    output_filename c = Ok name /\
    file = (path_join E outputDir name, JSON_stringify E doc).

(** One chapter comes before another by id. *)
Definition id_before (c1 c2 : value) : Prop :=
  exists n1 n2,
    member c1 "id" = Some (VNum n1) /\ member c2 "id" = Some (VNum n2) /\
    (n1 < n2)%Z.

(** The verse-array field of a response is absent, or the array has no entry
    at index [i]. *)
Definition lacks (data : value) (i : nat) : Prop :=
  member data "verses" = Some VUndef \/
  exists entries,
    member data "verses" = Some (VArr entries) /\ length entries <= i.

(** The [words] of a verse are absent (or falsy), or an array without
    [null]; likewise its [translations]. *)
Definition words_ready (verse : value) : Prop :=
  exists tokens,
    js_or (opt_prop verse "words") (VArr []) = VArr tokens /\
    Forall (fun w => nullish w = false) tokens.

Definition translations_ready (verse : value) : Prop :=
  exists entries,
    js_or (opt_prop verse "translations") (VArr []) = VArr entries /\
    Forall (fun e => nullish e = false) entries.

(** A verse of the primary array as the tool expects it. *)
Definition primary_verse (verse : value) : Prop :=
  nullish verse = false /\ words_ready verse /\ translations_ready verse.

(** The entries of the Indonesian response that are used have usable
    words. *)
Definition secondary_ready (data : value) : Prop :=
  forall vs i entry,
    verses_of data = Ok vs -> get_item vs i = Ok entry ->
    truthy entry = true -> words_ready entry.

(** The addresses of the five requests for a chapter, [n] being the chapter
    id as a template literal prints it. *)
Definition uthmani_url (baseUrl n : string) : string :=
  baseUrl +:+ "/quran/verses/uthmani?chapter_number=" +:+ n.

Definition imlaei_url (baseUrl n : string) : string :=
  baseUrl +:+ "/quran/verses/imlaei?chapter_number=" +:+ n.

Definition tajweed_url (baseUrl n : string) : string :=
  baseUrl +:+ "/quran/verses/uthmani_tajweed?chapter_number=" +:+ n.

Definition verses_url (baseUrl n lang : string) : string :=
  baseUrl +:+ "/verses/by_chapter/" +:+ n +:+ "?language=" +:+ lang
  +:+ "&words=true&word_fields=text_uthmani,translation,transliteration&translations="
  +:+ "20,33" +:+ "&per_page=300".

(** The answer to the request number [k] of a run when it goes to [url]. *)
Definition answer (E : Env) (k : nat) (url : string) : result value :=
  settle E url (http_get E k (protocol_of url) url).

(** What the five requests for a chapter come to, the first being the
    request number [k] of the run: the fragments, or the exception of the
    first request that fails. *)
Definition fragments_of_answers (E : Env) (baseUrl n : string) (k : nat)
  : result Fragments :=
  let! uthmani := answer E k (uthmani_url baseUrl n) in
  let! imlaei := answer E (k + 1) (imlaei_url baseUrl n) in
  let! tajweed := answer E (k + 2) (tajweed_url baseUrl n) in
  let! versesEn := answer E (k + 3) (verses_url baseUrl n "en") in
  let! versesId := answer E (k + 4) (verses_url baseUrl n "id") in
  Ok {| uthmaniData := uthmani; imlaeiData := imlaei;
        tajweedData := tajweed; versesEnData := versesEn;
        versesIdData := versesId |}.

(* ====================================================================== *)
(** ** Sample data *)
(* ====================================================================== *)

(** An object from its properties. *)
Definition obj (properties : list (string * value)) : value :=
  VObj (list_to_map properties).

Definition sample_token (tag : string) (pos : Z) (code meaning lang : string)
  : value :=
  obj [("char_type_name", VStr tag); ("position", VNum pos);
       ("code_v1", VStr code); ("audio_url", VNull);
       ("translation",
        obj [("text", VStr meaning); ("language_name", VStr lang)]);
       ("transliteration", obj [("text", VStr code)])].

Definition sample_verse (key : string) (tokens : list value) : value :=
  obj [("id", VNum 1); ("verse_number", VNum 1); ("verse_key", VStr key);
       ("juz_number", VNum 1); ("hizb_number", VNum 1);
       ("rub_el_hizb_number", VNum 1); ("manzil_number", VNum 1);
       ("ruku_number", VNum 1); ("page_number", VNum 1);
       ("sajdah_number", VNull);
       ("words", VArr tokens);
       ("translations",
        VArr [obj [("resource_id", VNum 20);
                   ("text", VStr "In the name of Allah")];
              obj [("resource_id", VNum 33);
                   ("text", VStr "Dengan nama Allah")]])].

(** A verse as requested in English: two words and an end marker. *)
Definition sample_verse_en : value :=
  sample_verse "1:1"
    [sample_token "word" 1 "bismi" "In (the) name" "english";
     sample_token "word" 2 "allahi" "(of) Allah" "english";
     sample_token "end" 3 "(1)" "(1)" "english"].

(** The same verse as requested in Indonesian; the second word came back
    in English. *)
Definition sample_verse_id : value :=
  sample_verse "1:1"
    [sample_token "word" 1 "bismi" "dengan nama" "indonesian";
     sample_token "word" 2 "allahi" "(of) Allah" "english";
     sample_token "end" 3 "(1)" "(1)" "indonesian"].

Definition sample_chapter : value :=
  obj [("id", VNum 1); ("name_simple", VStr "Al-Fatihah");
       ("name_arabic", VStr "al-fatiha"); ("verses_count", VNum 7);
       ("revelation_place", VStr "makkah")].

(** *** A small remote side *)

Definition dq : string := String (ascii_of_nat 34) "".

(** A JSON string literal and a property with its value. *)
Definition quoted (s : string) : string := dq +:+ s +:+ dq.
Definition property (name body : string) : string := quoted name +:+ ":" +:+ body.

Definition chapter_json (n name : string) : string :=
  "{" +:+ property "id" n +:+ "," +:+ property "name_simple" (quoted name)
  +:+ "}".

Definition chapter_value (n : Z) (name : string) : value :=
  obj [("id", VNum n); ("name_simple", VStr name)].

(** The chapter listing, with the chapters in a given order. *)
Definition listing_json (chapters : list string) : string :=
  "{" +:+ property "chapters" ("[" +:+ String.concat "," chapters +:+ "]")
  +:+ "}".

Definition listing_123_json : string :=
  listing_json [chapter_json "1" "Al-Fatihah"; chapter_json "2" "Al-Baqarah";
                chapter_json "3" "Ali 'Imran"].

Definition listing_123 : value :=
  obj [("chapters", VArr [chapter_value 1 "Al-Fatihah";
                          chapter_value 2 "Al-Baqarah";
                          chapter_value 3 "Ali 'Imran"])].

(** A listing that is not in the order of the ids. *)
Definition listing_31_json : string :=
  listing_json [chapter_json "3" "Ali 'Imran"; chapter_json "1" "Al-Fatihah"].

Definition listing_31 : value :=
  obj [("chapters", VArr [chapter_value 3 "Ali 'Imran";
                          chapter_value 1 "Al-Fatihah"])].

Definition keyed_verse_json (key : string) : string :=
  "{" +:+ property "verse_key" (quoted key) +:+ "}".

Definition keyed_verse (key : string) : value :=
  obj [("verse_key", VStr key)].

Definition verses_json (verses : list string) : string :=
  "{" +:+ property "verses" ("[" +:+ String.concat "," verses +:+ "]")
  +:+ "}".

(** Chapter 1 as requested in English: two verses.  As requested in
    Indonesian: one verse only. *)
Definition en_1_json : string :=
  verses_json [keyed_verse_json "1:1"; keyed_verse_json "1:2"].
Definition en_1 : value :=
  obj [("verses", VArr [keyed_verse "1:1"; keyed_verse "1:2"])].
Definition id_1_json : string := verses_json [keyed_verse_json "1:1"].
Definition id_1 : value := obj [("verses", VArr [keyed_verse "1:1"])].

(** Chapter 3 as requested in English: the remote side answers with a verse
    of another chapter. *)
Definition en_3_json : string := verses_json [keyed_verse_json "2:255"].
Definition en_3 : value := obj [("verses", VArr [keyed_verse "2:255"])].

(** The bodies the sample parser knows, with their values. *)
Definition known_bodies : list (string * value) :=
  [("{}", VObj ∅); ("null", VNull);
   (listing_123_json, listing_123); (listing_31_json, listing_31);
   (en_1_json, en_1); (id_1_json, id_1); (en_3_json, en_3)].

Definition sample_parse (body : string) : value + string :=
  match List.find (fun kv => String.eqb (fst kv) body) known_bodies with
  | Some kv => inl (snd kv)
  | None => inr "Unexpected token in JSON"%string
  end.

Definition sample_base : string := "https://api.test/v4".

Definition words_url (n lang : string) : string :=
  sample_base +:+ "/verses/by_chapter/" +:+ n +:+ "?language=" +:+ lang
  +:+ "&words=true&word_fields=text_uthmani,translation,transliteration&translations=20,33&per_page=300".

(** The listing comes in two chunks; chapter 2 answers the English request
    with an error page and status 502; every other request made through
    [https] is answered with status 404 and an empty object as the body.
    The module [http] refuses a URL whose scheme is [HTTPS:], as Node does
    (the scheme of a URL is read without regard to case), and finds nobody
    listening for any other. *)
Definition sample_http (listing : string) (n : nat) (p : protocol)
  (url : string) : exchange :=
  if String.eqb url (sample_base +:+ "/chapters") then
    Response 200 [substring 0 10 listing;
                  substring 10 (String.length listing - 10) listing]
  else if String.eqb url (words_url "1" "en") then Response 200 [en_1_json]
  else if String.eqb url (words_url "1" "id") then Response 200 [id_1_json]
  else if String.eqb url (words_url "2" "en") then
    Response 502 ["<html>"; "Bad Gateway"; "</html>"]
  else if String.eqb url (words_url "3" "en") then Response 200 [en_3_json]
  else match p with
       | Https => Response 404 ["{}"]
       | Http =>
           if JsString.startsWith "HTTPS:" url
           then Refused ("Protocol " +:+ quoted "https:"
                         +:+ " not supported. Expected " +:+ quoted "http:")
           else RequestError "connect ECONNREFUSED"
       end.

(** Strings of decimal digits are numbers; the sample needs no more. *)
Fixpoint digits_value (acc : Z) (s : string) : option Z :=
  match s with
  | EmptyString => Some acc
  | String c rest =>
      if JsString.is_digit c
      then digits_value (10 * acc + Z.of_nat (nat_of_ascii c - 48)) rest
      else None
  end.

(** The sample environment; no run of the samples prints a number beyond
    2^53, and the text for those is a placeholder. *)
Definition sample_env (listing : string) : Env :=
  {| http_get := sample_http listing;
     JSON_parse := sample_parse;
     JSON_stringify :=
       fun doc => "{ayahs:" +:+ pretty (total_ayahs (stats doc)) +:+ "}";
     string_to_number :=
       fun s => match s with EmptyString => Some 0%Z | _ => digits_value 0 s end;
     toISOString := fun _ _ => "2025-12-09T00:00:00.000Z"%string;
     path_join := fun dir name => dir +:+ "/" +:+ name;
     write_failure := fun _ _ => None;
     large_number_text := fun _ => "1e+21"%string |}.

Definition start : World :=
  {| requests := 0; elapsed := 0; files := []; console := [] |}.

(** The five responses to the requests for chapter 1 of the sample: the
    three Arabic ones have no verse array, the Indonesian one is a verse
    short. *)
Definition sample_fragments : Fragments :=
  {| uthmaniData := VObj ∅; imlaeiData := VObj ∅; tajweedData := VObj ∅;
     versesEnData := en_1; versesIdData := id_1 |}.

(* ====================================================================== *)
(** ** Further vocabulary *)
(* ====================================================================== *)

(** The units a sanitized name is made of. *)
Definition slug_unit (c : ascii) : bool :=
  JsString.is_lower c || JsString.is_digit c || JsString.is_hyphen c.

Fixpoint all_units (p : ascii -> bool) (s : string) : bool :=
  match s with
  | EmptyString => true
  | String c rest => p c && all_units p rest
  end.

Fixpoint ends_with_hyphen (s : string) : bool :=
  match s with
  | EmptyString => false
  | String c rest =>
      match rest with
      | EmptyString => JsString.is_hyphen c
      | String _ _ => ends_with_hyphen rest
      end
  end.

(** Lower-case letters, digits and hyphens, no hyphen at either end and no
    two hyphens side by side. *)
Definition slug_shaped (s : string) : bool :=
  all_units slug_unit s && JsString.single_hyphens s
  && negb (JsString.starts_with_hyphen s) && negb (ends_with_hyphen s).

(** A computation sends at most [n] requests and sleeps at most [t]
    milliseconds, never takes any back, and sends and sleeps exactly that
    much when it ends without an exception. *)
Definition costs {A : Type} (n t : nat) (m : M A) : Prop :=
  forall w,
    requests w <= requests (snd (m w)) <= requests w + n /\
    elapsed w <= elapsed (snd (m w)) <= elapsed w + t /\
    (is_ok (fst (m w)) = true ->
     requests (snd (m w)) = requests w + n /\
     elapsed (snd (m w)) = elapsed w + t).

(** All the word segments of a list of ayahs, for one of the two
    languages. *)
Definition all_words (lang : Ayah -> list WordSegment) (l : list Ayah)
  : list WordSegment :=
  concat (map lang l).

(** *** Further sample data *)

(** A remote side that answers every request with one [null] verse. *)
Definition null_verse_json : string :=
  "{" +:+ property "verses" "[null]" +:+ "}".

Definition null_verse_env : Env :=
  {| http_get := fun _ _ _ => Response 200 [null_verse_json];
     JSON_parse :=
       fun body =>
         if String.eqb body null_verse_json
         then inl (obj [("verses", VArr [VNull])])
         else inr "Unexpected token in JSON"%string;
     JSON_stringify := JSON_stringify (sample_env "");
     string_to_number := string_to_number (sample_env "");
     toISOString := toISOString (sample_env "");
     path_join := path_join (sample_env "");
     write_failure := fun _ _ => None;
     large_number_text := large_number_text (sample_env "") |}.

(** Fragments whose Uthmani array lacks the first verse of the chapter. *)
Definition shifted_fragments : Fragments :=
  {| uthmaniData :=
       obj [("verses",
             VArr [obj [("verse_key", VStr "1:2");
                        ("text_uthmani", VStr "text of 1:2")]])];
     imlaeiData := VObj ∅; tajweedData := VObj ∅;
     versesEnData := en_1; versesIdData := id_1 |}.

(* ====================================================================== *)
(** ** The command line (lines 571-637) *)
(* ====================================================================== *)

(** Outside ASCII a unit is a byte of the UTF-8 form of the text, as in the
    literals of this file.  The white space [parseInt] skips: the ASCII
    controls 9 to 13 and the space; U+00A0; U+1680; U+2000 to U+200A,
    U+2028, U+2029 and U+202F; U+205F; U+3000; U+FEFF. *)
Definition ascii_space (a : ascii) : bool :=
  let n := nat_of_ascii a in
  ((9 <=? n)%nat && (n <=? 13)%nat) || (n =? 32)%nat.

Definition two_byte_space (a b : ascii) : bool :=
  (nat_of_ascii a =? 194)%nat && (nat_of_ascii b =? 160)%nat.

Definition three_byte_space (a b c : ascii) : bool :=
  let x := nat_of_ascii a in
  let y := nat_of_ascii b in
  let z := nat_of_ascii c in
  ((x =? 225)%nat && (y =? 154)%nat && (z =? 128)%nat)
  || ((x =? 226)%nat && (y =? 128)%nat
      && (((128 <=? z)%nat && (z <=? 138)%nat) || (z =? 168)%nat
          || (z =? 169)%nat || (z =? 175)%nat))
  || ((x =? 226)%nat && (y =? 129)%nat && (z =? 159)%nat)
  || ((x =? 227)%nat && (y =? 128)%nat && (z =? 128)%nat)
  || ((x =? 239)%nat && (y =? 187)%nat && (z =? 191)%nat).

Fixpoint trim_start (s : string) : string :=
  match s with
  | EmptyString => s
  | String a r1 =>
      if ascii_space a then trim_start r1
      else match r1 with
           | EmptyString => s
           | String b r2 =>
               if two_byte_space a b then trim_start r2
               else match r2 with
                    | EmptyString => s
                    | String c r3 =>
                        if three_byte_space a b c then trim_start r3 else s
                    end
           end
  end.

Definition digit_value (c : ascii) : Z := Z.of_nat (nat_of_ascii c - 48).

(** The number the leading digits of a string spell, read after [acc]. *)
Fixpoint read_digits (acc : Z) (s : string) : Z :=
  match s with
  | EmptyString => acc
  | String c rest =>
      if JsString.is_digit c then read_digits (10 * acc + digit_value c) rest
      else acc
  end.

(** Whether a string begins with a digit. *)
Definition digit_first (s : string) : bool :=
  match s with
  | EmptyString => false
  | String c _ => JsString.is_digit c
  end.

(** [None] is NaN: there is no digit to read. *)
Definition leading_number (s : string) : option Z :=
  match s with
  | EmptyString => None
  | String c _ => if JsString.is_digit c then Some (read_digits 0 s) else None
  end.

(** [parseInt(s, 10)]: white space, a sign, then digits; what follows the
    digits is ignored.  The number is exact here; the language rounds a
    numeral beyond 2^53 to the nearest number it has. *)
Definition parseInt (s : string) : option Z :=
  match trim_start s with
  | EmptyString => None
  | String c rest =>
      if Ascii.eqb c "-" then option_map Z.opp (leading_number rest)
      else if Ascii.eqb c "+" then leading_number rest
      else leading_number (String c rest)
  end.

(** [parseInt(args[++i], 10)], the argument being [undefined] when the
    option is the last word. *)
Definition parseInt_arg (arg : option string) : option Z :=
  parseInt (default "undefined"%string arg).

(** [s.indexOf(p)], [s.includes(p)] and [s.substring(n)]. *)
Fixpoint indexOf (p s : string) : option nat :=
  if String.prefix p s then Some 0
  else match s with
       | EmptyString => None
       | String _ rest => option_map S (indexOf p rest)
       end.

Definition includes (p s : string) : bool :=
  match indexOf p s with Some _ => true | None => false end.

Fixpoint substring_from (n : nat) (s : string) : string :=
  match n, s with
  | O, _ => s
  | S k, String _ rest => substring_from k rest
  | S _, EmptyString => EmptyString
  end.

(** [s.substring(s.indexOf(p))] *)
Definition from_first (p s : string) : string :=
  match indexOf p s with
  | Some n => substring_from n s
  | None => s
  end.

(** The repair of a path that the shell has turned into a Windows path
    (lines 609-620). *)
Definition repair_path (pathValue : string) : string :=
  if includes ":/" pathValue && includes "/chapters" pathValue
  then from_first "/chapters" pathValue
  else if includes ":/" pathValue && includes "/verses" pathValue
  then from_first "/verses" pathValue
  else if includes ":/" pathValue && includes "/quran" pathValue
  then from_first "/quran" pathValue
  else if includes ":/" pathValue && includes "/resources" pathValue
  then from_first "/resources" pathValue
  else pathValue.

(** [s.split(c)] for a separator of one unit. *)
Fixpoint split_on (sep : ascii) (s : string) : list string :=
  match s with
  | EmptyString => [EmptyString]
  | String c rest =>
      if Ascii.eqb c sep then EmptyString :: split_on sep rest
      else match split_on sep rest with
           | piece :: pieces => String c piece :: pieces
           | [] => [String c EmptyString]
           end
  end.

(** The properties of [parsed.params], in the order of their creation.
    [obj[key] = value] on a plain object: the name [__proto__] is the
    accessor of the prototype, which ignores a string; an existing property
    keeps its place. *)
Fixpoint assign (key value : string) (props : list (string * string))
  : list (string * string) :=
  match props with
  | [] => [(key, value)]
  | (k, v) :: rest =>
      if String.eqb k key then (k, value) :: rest
      else (k, v) :: assign key value rest
  end.

Definition set_property (key value : string) (props : list (string * string))
  : list (string * string) :=
  if String.eqb key "__proto__" then props else assign key value props.

(** Lines 622-626: [const [key, value] = paramValue.split('=')] and the
    assignment of [value || ''] when the key is not empty. *)
Definition add_param (paramValue : option string)
  (props : list (string * string)) : result (list (string * string)) :=
  match paramValue with
  | None => Throw (cannot_read "split")
  | Some s =>
      let pieces := split_on "=" s in
      let key := hd EmptyString pieces in
      let value := default EmptyString (pieces !! 1) in
      Ok (if String.eqb key "" then props else set_property key value props)
  end.

(** The record [parsed].  A text is [null], [undefined] or a string; a
    number is an integer or NaN ([None]); [surah] starts as [null]. *)
Record Parsed : Type := {
  parsed_command : value;
  parsed_baseUrl : value;
  parsed_output : value;
  parsed_surah : option (option Z);
  parsed_all : bool;
  parsed_from : option Z;
  parsed_to : option Z;
  parsed_path : value;
  parsed_params : list (string * string);
  parsed_language : value
}.

Definition DEFAULT_BASE_URL : string := "https://api.quran.com/api/v4".

Definition parsed_defaults : Parsed :=
  {| parsed_command := VNull;
     parsed_baseUrl := VStr DEFAULT_BASE_URL;
     parsed_output := VStr "./data";
     parsed_surah := None;
     parsed_all := false;
     parsed_from := Some 1%Z;
     parsed_to := Some 114%Z;
     parsed_path := VNull;
     parsed_params := [];
     parsed_language := VStr "" |}.

Definition with_command (v : value) (p : Parsed) : Parsed :=
  {| parsed_command := v; parsed_baseUrl := parsed_baseUrl p;
     parsed_output := parsed_output p; parsed_surah := parsed_surah p;
     parsed_all := parsed_all p; parsed_from := parsed_from p;
     parsed_to := parsed_to p; parsed_path := parsed_path p;
     parsed_params := parsed_params p;
     parsed_language := parsed_language p |}.

Definition with_baseUrl (v : value) (p : Parsed) : Parsed :=
  {| parsed_command := parsed_command p; parsed_baseUrl := v;
     parsed_output := parsed_output p; parsed_surah := parsed_surah p;
     parsed_all := parsed_all p; parsed_from := parsed_from p;
     parsed_to := parsed_to p; parsed_path := parsed_path p;
     parsed_params := parsed_params p;
     parsed_language := parsed_language p |}.

Definition with_output (v : value) (p : Parsed) : Parsed :=
  {| parsed_command := parsed_command p; parsed_baseUrl := parsed_baseUrl p;
     parsed_output := v; parsed_surah := parsed_surah p;
     parsed_all := parsed_all p; parsed_from := parsed_from p;
     parsed_to := parsed_to p; parsed_path := parsed_path p;
     parsed_params := parsed_params p;
     parsed_language := parsed_language p |}.

Definition with_surah (n : option Z) (p : Parsed) : Parsed :=
  {| parsed_command := parsed_command p; parsed_baseUrl := parsed_baseUrl p;
     parsed_output := parsed_output p; parsed_surah := Some n;
     parsed_all := parsed_all p; parsed_from := parsed_from p;
     parsed_to := parsed_to p; parsed_path := parsed_path p;
     parsed_params := parsed_params p;
     parsed_language := parsed_language p |}.

Definition with_all (p : Parsed) : Parsed :=
  {| parsed_command := parsed_command p; parsed_baseUrl := parsed_baseUrl p;
     parsed_output := parsed_output p; parsed_surah := parsed_surah p;
     parsed_all := true; parsed_from := parsed_from p;
     parsed_to := parsed_to p; parsed_path := parsed_path p;
     parsed_params := parsed_params p;
     parsed_language := parsed_language p |}.

Definition with_from (n : option Z) (p : Parsed) : Parsed :=
  {| parsed_command := parsed_command p; parsed_baseUrl := parsed_baseUrl p;
     parsed_output := parsed_output p; parsed_surah := parsed_surah p;
     parsed_all := parsed_all p; parsed_from := n;
     parsed_to := parsed_to p; parsed_path := parsed_path p;
     parsed_params := parsed_params p;
     parsed_language := parsed_language p |}.

Definition with_to (n : option Z) (p : Parsed) : Parsed :=
  {| parsed_command := parsed_command p; parsed_baseUrl := parsed_baseUrl p;
     parsed_output := parsed_output p; parsed_surah := parsed_surah p;
     parsed_all := parsed_all p; parsed_from := parsed_from p;
     parsed_to := n; parsed_path := parsed_path p;
     parsed_params := parsed_params p;
     parsed_language := parsed_language p |}.

Definition with_path (v : value) (p : Parsed) : Parsed :=
  {| parsed_command := parsed_command p; parsed_baseUrl := parsed_baseUrl p;
     parsed_output := parsed_output p; parsed_surah := parsed_surah p;
     parsed_all := parsed_all p; parsed_from := parsed_from p;
     parsed_to := parsed_to p; parsed_path := v;
     parsed_params := parsed_params p;
     parsed_language := parsed_language p |}.

Definition with_params (ps : list (string * string)) (p : Parsed) : Parsed :=
  {| parsed_command := parsed_command p; parsed_baseUrl := parsed_baseUrl p;
     parsed_output := parsed_output p; parsed_surah := parsed_surah p;
     parsed_all := parsed_all p; parsed_from := parsed_from p;
     parsed_to := parsed_to p; parsed_path := parsed_path p;
     parsed_params := ps;
     parsed_language := parsed_language p |}.

Definition with_language (v : value) (p : Parsed) : Parsed :=
  {| parsed_command := parsed_command p; parsed_baseUrl := parsed_baseUrl p;
     parsed_output := parsed_output p; parsed_surah := parsed_surah p;
     parsed_all := parsed_all p; parsed_from := parsed_from p;
     parsed_to := parsed_to p; parsed_path := parsed_path p;
     parsed_params := parsed_params p;
     parsed_language := v |}.

(** [args[++i]] as a text: the next word, or [undefined]. *)
Definition word_or_undefined (next : option string) : value :=
  match next with Some s => VStr s | None => VUndef end.

(** The path after [--path]: repaired when it is a string ([pathValue &&
    ...] is false for [undefined], and the empty string includes
    nothing). *)
Definition path_argument (next : option string) : value :=
  match next with Some s => VStr (repair_path s) | None => VUndef end.

(** The loop of lines 593-634 over the words that are left.  An option that
    takes a value takes the next word, whatever it is, and the loop goes on
    after that word; a word that is no option is skipped. *)
Fixpoint parse_options (args : list string) (parsed : Parsed)
  : result Parsed :=
  match args with
  | [] => Ok parsed
  | arg :: rest =>
      if String.eqb arg "--base-url" then
        match rest with
        | [] => Ok (with_baseUrl VUndef parsed)
        | v :: rest' => parse_options rest' (with_baseUrl (VStr v) parsed)
        end
      else if String.eqb arg "--output" || String.eqb arg "-o" then
        match rest with
        | [] => Ok (with_output VUndef parsed)
        | v :: rest' => parse_options rest' (with_output (VStr v) parsed)
        end
      else if String.eqb arg "--surah" || String.eqb arg "-s" then
        match rest with
        | [] => Ok (with_surah (parseInt_arg None) parsed)
        | v :: rest' =>
            parse_options rest' (with_surah (parseInt_arg (Some v)) parsed)
        end
      else if String.eqb arg "--all" then parse_options rest (with_all parsed)
      else if String.eqb arg "--from" then
        match rest with
        | [] => Ok (with_from (parseInt_arg None) parsed)
        | v :: rest' =>
            parse_options rest' (with_from (parseInt_arg (Some v)) parsed)
        end
      else if String.eqb arg "--to" then
        match rest with
        | [] => Ok (with_to (parseInt_arg None) parsed)
        | v :: rest' =>
            parse_options rest' (with_to (parseInt_arg (Some v)) parsed)
        end
      else if String.eqb arg "--path" then
        match rest with
        | [] => Ok (with_path (path_argument None) parsed)
        | v :: rest' =>
            parse_options rest' (with_path (path_argument (Some v)) parsed)
        end
      else if String.eqb arg "--param" then
        match rest with
        | [] =>
            let! ps := add_param None (parsed_params parsed) in
            Ok (with_params ps parsed)
        | v :: rest' =>
            let! ps := add_param (Some v) (parsed_params parsed) in
            parse_options rest' (with_params ps parsed)
        end
      else if String.eqb arg "--language" then
        match rest with
        | [] => Ok (with_language VUndef parsed)
        | v :: rest' => parse_options rest' (with_language (VStr v) parsed)
        end
      else if String.eqb arg "--help" || String.eqb arg "-h" then
        parse_options rest (with_command (VStr "help") parsed)
      else parse_options rest parsed
  end.

(** [parseArgs(args)]: the first word is the command unless it is empty or
    starts with a hyphen. *)
Definition parseArgs (args : list string) : result Parsed :=
  match args with
  | first :: rest =>
      if negb (String.eqb first "") && negb (JsString.startsWith "-" first)
      then parse_options rest (with_command (VStr first) parsed_defaults)
      else parse_options args parsed_defaults
  | [] => parse_options [] parsed_defaults
  end.

(* ====================================================================== *)
(** ** The other commands (lines 406-483) *)
(* ====================================================================== *)

(** The receiver of a method that only strings have ([padEnd],
    [toLowerCase], [replace]): JSON data holds no function, so on any other
    value the call is a TypeError. *)
Definition string_receiver (method : string) (v : value) : result string :=
  match v with
  | VStr s => Ok s
  | VUndef | VNull => Throw (cannot_read method)
  | _ => Throw (not_a_function method)
  end.

Definition not_iterable : js_error := TypeError "value is not iterable".

(** What [for (const x of v)] runs through: the elements of an array, the
    units of a string; other JSON values are not iterable. *)
Fixpoint units (s : string) : list value :=
  match s with
  | EmptyString => []
  | String c rest => VStr (String c EmptyString) :: units rest
  end.

Definition iterate (v : value) : result (list value) :=
  match v with
  | VArr items => Ok items
  | VStr s => Ok (units s)
  | _ => Throw not_iterable
  end.

(** [encodeURIComponent]: the unreserved characters stay, every other byte
    of the UTF-8 form of the text is escaped. *)
Definition is_unreserved (c : ascii) : bool :=
  JsString.is_upper c || JsString.is_lower c || JsString.is_digit c
  || Ascii.eqb c "-" || Ascii.eqb c "_" || Ascii.eqb c "." || Ascii.eqb c "!"
  || Ascii.eqb c "~" || Ascii.eqb c "*" || Ascii.eqb c "'" || Ascii.eqb c "("
  || Ascii.eqb c ")".

Definition hex_digit (n : nat) : ascii :=
  if (n <? 10)%nat then ascii_of_nat (48 + n) else ascii_of_nat (55 + n).

Definition escaped (byte : nat) : string :=
  String "%" (String (hex_digit (byte / 16))
                     (String (hex_digit (byte mod 16)) EmptyString)).

Definition encode_unit (c : ascii) : string :=
  if is_unreserved c then String c EmptyString else escaped (nat_of_ascii c).

Fixpoint encodeURIComponent (s : string) : string :=
  match s with
  | EmptyString => EmptyString
  | String c rest => encode_unit c +:+ encodeURIComponent rest
  end.

(** [Object.entries]: the properties whose name is an array index come
    first, in ascending order, then the others in the order of their
    creation. *)
Definition array_index (key : string) : option N :=
  match key with
  | EmptyString => None
  | String _ _ =>
      if all_units JsString.is_digit key then
        let n := Z.to_N (read_digits 0 key) in
        if (n <? 4294967295)%N && String.eqb (pretty n) key then Some n
        else None
      else None
  end.

Fixpoint insert_by_index (e : N * (string * string))
  (l : list (N * (string * string))) : list (N * (string * string)) :=
  match l with
  | [] => [e]
  | x :: rest =>
      if (fst e <? fst x)%N then e :: x :: rest
      else x :: insert_by_index e rest
  end.

Definition indexed (props : list (string * string))
  : list (N * (string * string)) :=
  omap (fun kv => option_map (fun n => (n, kv)) (array_index (fst kv))) props.

Definition named (props : list (string * string)) : list (string * string) :=
  filter (fun kv => array_index (fst kv) = None) props.

Definition entries_of (props : list (string * string))
  : list (string * string) :=
  map snd (fold_right insert_by_index [] (indexed props)) ++ named props.

(** [l.join(sep)] *)
Fixpoint join_with (sep : string) (l : list string) : string :=
  match l with
  | [] => ""
  | [s] => s
  | s :: rest => s +:+ sep +:+ join_with sep rest
  end.

(** Lines 434-437: the parameters with a value, each as [key=value],
    joined with [&]. *)
Definition query_string (params : list (string * string)) : string :=
  join_with "&"
    (map (fun kv => encodeURIComponent (fst kv) +:+ "="
                    +:+ encodeURIComponent (snd kv))
         (filter (fun kv => negb (String.eqb (snd kv) ""))
                 (entries_of params))).

(** Lines 432-441. *)
Definition custom_url (baseUrl urlPath : string)
  (params : list (string * string)) : string :=
  let url := baseUrl +:+ urlPath in
  let queryParams := query_string params in
  if negb (String.eqb queryParams "")
  then url +:+ (if includes "?" url then "&" else "?") +:+ queryParams
  else url.

(** [s.replace(/\/$/, '')]: one slash at the very end is removed. *)
Fixpoint strip_slash (s : string) : string :=
  match s with
  | EmptyString => EmptyString
  | String c EmptyString => if Ascii.eqb c "/" then EmptyString else s
  | String c rest => String c (strip_slash rest)
  end.

(** A number of the command line as a template literal shows it. *)
Definition show_number (E : Env) (n : option Z) : string :=
  match n with Some z => number_text E z | None => "NaN" end.

(** The truthiness of a number: neither zero nor NaN. *)
Definition number_truthy (n : option Z) : bool :=
  match n with Some z => negb (z =? 0)%Z | None => false end.

(** [if (options.surah)]: the number to download, when [surah] is neither
    [null], NaN nor zero. *)
Definition chosen_surah (surah : option (option Z)) : option Z :=
  match surah with
  | Some (Some n) => if (n =? 0)%Z then None else Some n
  | _ => None
  end.

Section Commands.

Variable E : Env.

(** [JSON.stringify(data, null, 2)] *)
Variable stringify : value -> string.

(** The text [printHelp] prints: the template literal of lines 490-568. *)
Variable help_text : string.

(** The exception [fs.mkdirSync(dir, { recursive: true })] raises for a
    directory that does not exist, if it does. *)
Variable mkdir_failure : string -> option js_error.

(** The length of a text as the language counts it, in UTF-16 units; on
    ASCII text it is the number of units. *)
Variable text_length : string -> nat.

(** [s.toLowerCase()] of the language, which also lowers the letters
    outside ASCII. *)
Variable toLowerCase : string -> string.

(** [s.padStart(n, c)] and [s.padEnd(n, c)] for a one-character filler. *)
Definition pad_start (n : nat) (c : ascii) (s : string) : string :=
  JsString.repeat_char c (n - text_length s) +:+ s.

Definition pad_end (n : nat) (c : ascii) (s : string) : string :=
  s +:+ JsString.repeat_char c (n - text_length s).

(** One row of the table of [listSurahs] (lines 416-422). *)
Definition surah_row (ch : value) : result string :=
  let! c_id := get_prop ch "id" in
  let! shown_id := to_string c_id in
  let id := pad_start 3 " " shown_id in
  let! name_simple := get_prop ch "name_simple" in
  let! simple := string_receiver "padEnd" name_simple in
  let name := pad_end 24 " " simple in
  let! name_arabic := get_prop ch "name_arabic" in
  let! arabic_name := string_receiver "padEnd" name_arabic in
  let arabic := pad_end 16 " " arabic_name in
  let! verses_count := get_prop ch "verses_count" in
  let! shown_count := to_string verses_count in
  let verses := pad_start 3 " " shown_count in
  let! revelation_place := get_prop ch "revelation_place" in
  let! place := to_string revelation_place in
  Ok ("  " +:+ id +:+ "  " +:+ name +:+ " " +:+ arabic +:+ " " +:+ verses
      +:+ "    " +:+ place).

(** One row of the table of [listTranslations] (lines 476-478). *)
Definition translation_row (t : value) : result string :=
  let! t_id := get_prop t "id" in
  let! shown_id := to_string t_id in
  let id := pad_start 4 " " shown_id in
  let! language_name := get_prop t "language_name" in
  let! language := string_receiver "padEnd" language_name in
  let lang := pad_end 20 " " language in
  let! t_name := get_prop t "name" in
  let! name := to_string t_name in
  Ok ("  " +:+ id +:+ "  " +:+ lang +:+ " " +:+ name).

(** The callback of the filter of [listTranslations]. *)
Definition speaks (language : string) (t : value) : result bool :=
  let! language_name := get_prop t "language_name" in
  let! name := string_receiver "toLowerCase" language_name in
  Ok (includes (toLowerCase language) (toLowerCase name)).

Definition listSurahs (baseUrl : string) : M unit :=
  let* chaptersData := fetchChapters E baseUrl in
  printHeader "All Surahs (114 Chapters)" ;;
  console_log "" ;;
  console_log "  ID   Name                     Arabic           Verses  Place" ;;
  console_log "  ─────────────────────────────────────────────────────────────" ;;
  let* listing := lift (get_prop chaptersData "chapters") in
  let* chapters := lift (iterate listing) in
  for_each chapters
    (fun ch => let* row := lift (surah_row ch) in console_log row) ;;
  console_log "".

Definition fetchCustom (baseUrl urlPath : string)
  (params : list (string * string)) : M value :=
  let url := custom_url baseUrl urlPath params in
  printHeader "Custom API Request" ;;
  colorLog COLORS.dim ("  URL: " +:+ url) ;;
  console_log "" ;;
  let* data := fetchJSON E url in
  console_log (stringify data) ;;
  ret data.

Definition listTranslations (baseUrl language : string) : M unit :=
  let url := baseUrl +:+ "/resources/translations" in
  let* data := fetchJSON E url in
  printHeader "Available Translations" ;;
  let* found := lift (get_prop data "translations") in
  let* translations :=
    if negb (String.eqb language "") then
      let* kept := lift (js_filter (js_or found (VArr [])) (speaks language)) in
      console_log ("  Filtered by language: " +:+ dq +:+ language +:+ dq) ;;
      ret (VArr kept)
    else ret (js_or found (VArr [])) in
  console_log "" ;;
  console_log "  ID    Language             Name" ;;
  console_log "  ───────────────────────────────────────────────────────────" ;;
  let* items := lift (iterate translations) in
  for_each items
    (fun t => let* row := lift (translation_row t) in console_log row) ;;
  console_log "" ;;
  let* total := lift (shown translations "length") in
  colorLog COLORS.dim ("  Total: " +:+ total +:+ " translations").

Definition printHelp : M unit := console_log help_text.

(** [c.id >= startFrom && c.id <= endAt] for numbers that may be NaN, as
    those of the command line may: a comparison with NaN is false. *)
Definition at_least (v : value) (n : option Z) : result bool :=
  let! m := to_number (string_to_number E) v in
  Ok (match n with
      | Some bound =>
          match m with Some z => (bound <=? z)%Z | None => false end
      | None => false
      end).

Definition at_most (v : value) (n : option Z) : result bool :=
  let! m := to_number (string_to_number E) v in
  Ok (match n with
      | Some bound =>
          match m with Some z => (z <=? bound)%Z | None => false end
      | None => false
      end).

Definition in_bounds (startFrom endAt : option Z) (c : value) : result bool :=
  let! c_id := get_prop c "id" in
  let! above := at_least c_id startFrom in
  if above then
    let! c_id' := get_prop c "id" in
    at_most c_id' endAt
  else Ok false.

(** [downloadAllSurahs] as [main] calls it, with the numbers of the command
    line; on two integers it is [downloadAllSurahs] above. *)
Definition download_range (baseUrl outputDir : string)
  (startFrom endAt : option Z) : M unit :=
  let* chaptersData := fetchChapters E baseUrl in
  let* listing := lift (get_prop chaptersData "chapters") in
  let* chapters := lift (js_filter listing (in_bounds startFrom endAt)) in
  printHeader ("Downloading " +:+ pretty (length chapters) +:+ " Surahs") ;;
  console_log ("  From: Surah " +:+ show_number E startFrom +:+ " to Surah "
               +:+ show_number E endAt) ;;
  console_log ("  Output: " +:+ outputDir) ;;
  console_log "" ;;
  for_each chapters (turn E baseUrl outputDir) ;;
  colorLog COLORS.green (newline +:+ "✓ Download complete!").

(** [language = ''] as the default of a parameter that is [undefined]. *)
Definition language_argument (v : value) : string :=
  match v with VStr s => s | _ => "" end.

(** The [switch] of lines 662-698, on an output directory that is a
    string. *)
Definition run_command (options : Parsed) (baseUrl output : string) : M unit :=
  let command := parsed_command options in
  if is_string "help" command then printHelp
  else if is_string "list" command then listSurahs baseUrl
  else if is_string "translations" command then
    listTranslations baseUrl (language_argument (parsed_language options))
  else if is_string "download" command then
    match chosen_surah (parsed_surah options) with
    | Some surah => downloadSurah E baseUrl output surah ;; ret tt
    | None =>
        if parsed_all options || number_truthy (parsed_from options)
           || number_truthy (parsed_to options) then
          download_range baseUrl output (parsed_from options)
                         (parsed_to options)
        else
          colorLog COLORS.red "Error: Please specify --surah <id> or --all" ;;
          colorLog COLORS.dim
            ("Run " +:+ dq +:+ "node quran-api.js help" +:+ dq
             +:+ " for usage information")
    end
  else if is_string "fetch" command then
    match parsed_path options with
    | VStr urlPath =>
        if String.eqb urlPath "" then
          colorLog COLORS.red "Error: Please specify --path <api-path>" ;;
          colorLog COLORS.dim
            "Example: node quran-api.js fetch --path /chapters/1"
        else fetchCustom baseUrl urlPath (parsed_params options) ;; ret tt
    | _ =>
        colorLog COLORS.red "Error: Please specify --path <api-path>" ;;
        colorLog COLORS.dim
          "Example: node quran-api.js fetch --path /chapters/1"
    end
  else
    let* shown_command := lift (to_string command) in
    colorLog COLORS.red ("Unknown command: " +:+ shown_command) ;;
    colorLog COLORS.dim
      ("Run " +:+ dq +:+ "node quran-api.js help" +:+ dq
       +:+ " for usage information").

(** [catch (error) { colorLog('red', ...); process.exit(1) }] *)
Definition exit_with_error (error : js_error) : M nat :=
  colorLog COLORS.red (newline +:+ "✗ Error: " +:+ message error) ;;
  ret 1.

(** [main()] on the words of the command line; the value is the exit code
    of the process, an exception the rejection of the promise of [main]. *)
Definition main (args : list string) : M nat :=
  match args with
  | [] => printHelp ;; ret 0
  | _ :: _ =>
      let* options := lift (parseArgs args) in
      let* baseUrl :=
        lift (let! url := string_receiver "replace" (parsed_baseUrl options) in
              Ok (strip_slash url)) in
      match parsed_output options with
      | VStr output =>
          match mkdir_failure output with
          | Some e => throw e
          | None =>
              try_catch (run_command options baseUrl output ;; ret 0)
                        exit_with_error
          end
      | _ => throw (TypeError "The path argument must be of type string")
      end
  end.

End Commands.

(** None of the names is among the words. *)
Definition absent (names args : list string) : Prop :=
  forall x, In x names -> ~ In x args.

(** The command [parseArgs] takes from the first word. *)
Definition first_command (args : list string) : value :=
  match args with
  | first :: _ =>
      if negb (String.eqb first "") && negb (JsString.startsWith "-" first)
      then VStr first else VNull
  | [] => VNull
  end.

(** The fields an option does not name are left as they are. *)
Definition kept (args : list string) (p p' : Parsed) : Prop :=
  (absent ["--base-url"] args -> parsed_baseUrl p' = parsed_baseUrl p) /\
  (absent ["--output"; "-o"] args -> parsed_output p' = parsed_output p) /\
  (absent ["--surah"; "-s"] args -> parsed_surah p' = parsed_surah p) /\
  (absent ["--all"] args -> parsed_all p' = parsed_all p) /\
  (absent ["--from"] args -> parsed_from p' = parsed_from p) /\
  (absent ["--to"] args -> parsed_to p' = parsed_to p) /\
  (absent ["--path"] args -> parsed_path p' = parsed_path p) /\
  (absent ["--param"] args -> parsed_params p' = parsed_params p) /\
  (absent ["--language"] args -> parsed_language p' = parsed_language p) /\
  (absent ["--help"; "-h"] args -> parsed_command p' = parsed_command p).

(** A text without the sign [=]. *)
Definition no_equals (s : string) : bool :=
  all_units (fun c => negb (Ascii.eqb c "=")) s.

(** How often a unit occurs in a text. *)
Fixpoint count_unit (c : ascii) (s : string) : nat :=
  match s with
  | EmptyString => 0
  | String x rest => (if Ascii.eqb x c then 1 else 0) + count_unit c rest
  end.

(** The units of a query string: what [encodeURIComponent] leaves or
    writes, and the two separators. *)
Definition escape_unit (c : ascii) : bool :=
  is_unreserved c || Ascii.eqb c "%".

Definition query_unit (c : ascii) : bool :=
  escape_unit c || Ascii.eqb c "=" || Ascii.eqb c "&".

(** The parameters that have a value. *)
Definition with_value (params : list (string * string))
  : list (string * string) :=
  filter (fun kv => negb (String.eqb (snd kv) "")) params.

(** A run of the tool against the sample server, with a file system that
    has every directory. *)
Definition sample_main (args : list string) : M nat :=
  main (sample_env listing_123_json) (fun _ => "{}") "usage" (fun _ => None)
       String.length JsString.toLowerCase args.

(** The line the tool prints for a failed command. *)
Definition failure_line (e : js_error) : string :=
  COLORS.code COLORS.red +:+ (newline +:+ "✗ Error: " +:+ message e)
  +:+ COLORS.code COLORS.reset.

(** The translations [listTranslations] shows of an array: all of them, or
    those the filter keeps. *)
Definition shown_translations (toLowerCase : string -> string)
  (language : string) (found : list value) : result (list value) :=
  if String.eqb language "" then Ok found
  else filterM (speaks toLowerCase language) found.

(** The lines [listTranslations] prints about the filter. *)
Definition filter_note (language : string) : list string :=
  if String.eqb language "" then []
  else ["  Filtered by language: " +:+ dq +:+ language +:+ dq].

(** The lines above the rows of the two tables. *)
Definition surahs_head : list string :=
  [""; "  ID   Name                     Arabic           Verses  Place";
   "  ─────────────────────────────────────────────────────────────"].

Definition translations_head : list string :=
  [""; "  ID    Language             Name";
   "  ───────────────────────────────────────────────────────────"].

(** A remote side that answers every request with one body, and the codec
    that reads it. *)
Definition answering (body : string) (parsed : value) : Env :=
  {| http_get := fun _ _ _ => Response 200 [body];
     JSON_parse :=
       fun text =>
         if String.eqb text body then inl parsed
         else inr "Unexpected token in JSON"%string;
     JSON_stringify := JSON_stringify (sample_env "");
     string_to_number := string_to_number (sample_env "");
     toISOString := toISOString (sample_env "");
     path_join := path_join (sample_env "");
     write_failure := fun _ _ => None;
     large_number_text := large_number_text (sample_env "") |}.

(** A listing of one chapter with all the fields of a row, and a list of
    two translations. *)
Definition full_listing_json : string :=
  "{" +:+ property "chapters"
    ("[{" +:+ property "id" "1" +:+ ","
     +:+ property "name_simple" (quoted "Al-Fatihah") +:+ ","
     +:+ property "name_arabic" (quoted "Fatiha") +:+ ","
     +:+ property "verses_count" "7" +:+ ","
     +:+ property "revelation_place" (quoted "makkah") +:+ "}]") +:+ "}".

Definition full_listing : value :=
  obj [("chapters",
        VArr [obj [("id", VNum 1); ("name_simple", VStr "Al-Fatihah");
                   ("name_arabic", VStr "Fatiha"); ("verses_count", VNum 7);
                   ("revelation_place", VStr "makkah")]])].

Definition translation_json (n language name : string) : string :=
  "{" +:+ property "id" n +:+ ","
  +:+ property "language_name" (quoted language) +:+ ","
  +:+ property "name" (quoted name) +:+ "}".

Definition translation_value (n : Z) (language name : string) : value :=
  obj [("id", VNum n); ("language_name", VStr language); ("name", VStr name)].

Definition two_translations_json : string :=
  "{" +:+ property "translations"
    ("[" +:+ translation_json "20" "english" "Saheeh International" +:+ ","
     +:+ translation_json "33" "indonesian" "Indonesian Ministry" +:+ "]")
  +:+ "}".

Definition two_translations : value :=
  obj [("translations",
        VArr [translation_value 20 "english" "Saheeh International";
              translation_value 33 "indonesian" "Indonesian Ministry"])].

(* ====================================================================== *)
(** ** The renaming script ([rename-files.cjs]) *)
(* ====================================================================== *)

(** [/^\d{3}-/.test(file)] *)
Definition has_prefix (file : string) : bool :=
  match file with
  | String a (String b (String c (String d _))) =>
      JsString.is_digit a && JsString.is_digit b && JsString.is_digit c
      && Ascii.eqb d "-"
  | _ => false
  end.

(** [s.endsWith(suffix)] *)
Fixpoint endsWith (suffix s : string) : bool :=
  String.eqb s suffix
  || match s with
     | EmptyString => false
     | String _ rest => endsWith suffix rest
     end.

Definition dataDir : string := "./data".

(** The state of the script: the files by their paths, the console and the
    counter [renamed]. *)
Record Shelf : Type := {
  shelf_files : gmap string string;
  shelf_console : list string;
  shelf_renamed : nat
}.

Definition say (line : string) (s : Shelf) : Shelf :=
  {| shelf_files := shelf_files s;
     shelf_console := shelf_console s ++ [line];
     shelf_renamed := shelf_renamed s |}.

(** [fs.renameSync(from, to)] when it succeeds: the content moves, and
    replaces what the new path held. *)
Definition moved (from to : string) (fs : gmap string string)
  : gmap string string :=
  match fs !! from with
  | Some content => <[to := content]> (delete from fs)
  | None => fs
  end.

Section Rename.

(** [path.join(dir, name)] *)
Variable join : string -> string -> string.

(** [JSON.parse]: the value, or the message of the SyntaxError. *)
Variable parse : string -> value + string.

(** The message of the error of [fs.readFileSync] for a path that holds no
    file. *)
Variable read_error : string -> string.

(** The exception [fs.renameSync] raises, if it does; it then leaves the
    files as they are. *)
Variable rename_failure :
  gmap string string -> string -> string -> option js_error.

(** [fs.readFileSync(path, 'utf8')] *)
Definition readFileSync (fs : gmap string string) (path : string)
  : result string :=
  match fs !! path with
  | Some content => Ok content
  | None => Throw (Error (read_error path))
  end.

(** The statements inside [try] (lines 29-42). *)
Definition try_rename (file : string) (s : Shelf) : result Shelf :=
  let filepath := join dataDir file in
  let! text := readFileSync (shelf_files s) filepath in
  let! content := match parse text with
                  | inl json => Ok json
                  | inr msg => Throw (Error msg)
                  end in
  let! surah := get_prop content "surah" in
  let surahId := opt_prop surah "id" in
  if truthy surahId then
    let! shown_id := to_string surahId in
    let paddedId := JsString.padStart 3 "0" shown_id in
    let newFilename := paddedId +:+ "-" +:+ file in
    let newPath := join dataDir newFilename in
    match rename_failure (shelf_files s) filepath newPath with
    | Some e => Throw e
    | None =>
        Ok {| shelf_files := moved filepath newPath (shelf_files s);
              shelf_console :=
                shelf_console s ++ ["  ✓ " +:+ file +:+ " -> " +:+ newFilename];
              shelf_renamed := S (shelf_renamed s) |}
    end
  else Ok (say ("  ✗ " +:+ file +:+ " - No surah ID found") s).

(** The callback of [files.forEach] (lines 19-46). *)
Definition rename_one (s : Shelf) (file : string) : Shelf :=
  if has_prefix file then
    say ("  Skip: " +:+ file +:+ " (already has prefix)") s
  else
    match try_rename file s with
    | Ok s' => s'
    | Throw err => say ("  ✗ " +:+ file +:+ " - Error: " +:+ message err) s
    end.

(** The script, on the names [fs.readdirSync(dataDir)] returns. *)
Definition rename_files (listed : list string) (fs : gmap string string)
  : Shelf :=
  let files := List.filter (endsWith ".json") listed in
  let s0 :=
    say ("Found " +:+ pretty (length files) +:+ " JSON files to rename..."
         +:+ newline)
        {| shelf_files := fs; shelf_console := []; shelf_renamed := 0 |} in
  let s1 := fold_left rename_one files s0 in
  say (newline +:+ "✓ Done! Renamed " +:+ pretty (shelf_renamed s1)
       +:+ " files.") s1.

End Rename.

(** A run of the script on two files: one the tool wrote, one from
    before. *)
Definition sample_join (dir name : string) : string := dir +:+ "/" +:+ name.

Definition sample_shelf : gmap string string :=
  list_to_map [("./data/001-al-fatihah.json", "one");
               ("./data/al-baqarah.json", "two")].

Definition sample_contents (text : string) : value + string :=
  if String.eqb text "two" then inl (obj [("surah", obj [("id", VNum 2)])])
  else inr "Unexpected token in JSON"%string.
(* ====================================================================== *)
(** * Properties *)
(* ====================================================================== *)

(** ** The definitions at work *)

Example sanitize_al_fatihah : JsString.sanitize "Al-Fatihah" = "al-fatihah"%string.
Proof. reflexivity. Qed.

Example sanitize_ali_imran : JsString.sanitize "Ali 'Imran" = "ali-imran"%string.
Proof. reflexivity. Qed.

Example sanitize_edges : JsString.sanitize "--(Ya) Sin!! " = "ya-sin"%string.
Proof. reflexivity. Qed.

Example sanitize_only_marks : JsString.sanitize "?!" = ""%string.
Proof. reflexivity. Qed.

Example slug_edges : JsString.slug "--(Ya) Sin!! " = "ya-sin"%string.
Proof. reflexivity. Qed.

Example padStart_short : JsString.padStart 3 "0" (pretty 7%Z) = "007"%string.
Proof. reflexivity. Qed.

Example padStart_long : JsString.padStart 3 "0" (pretty 1234%Z) = "1234"%string.
Proof. reflexivity. Qed.

Example to_string_array :
  to_string (VArr [VNum 1; VNull; VStr "a"; VArr [VBool true; VUndef]])
  = Ok "1,,a,true,"%string.
Proof. reflexivity. Qed.

Example to_string_hidden_method :
  to_string (obj [("toString", VNum 1)]) = Throw no_primitive.
Proof. reflexivity. Qed.

Example get_prop_of_null : is_ok (get_prop VNull "verses") = false.
Proof. reflexivity. Qed.

Example get_prop_of_number : get_prop (VNum 5) "verses" = Ok VUndef.
Proof. reflexivity. Qed.

Example get_item_beyond : get_item (VArr [VNum 1]) 3 = Ok VUndef.
Proof. reflexivity. Qed.

Example words_of_sample :
  match build_words word_id sample_verse_id with
  | Ok segs => map (fun s => language (translation s)) segs
  | Throw _ => []
  end = ["id"%string; "en"%string].
Proof. reflexivity. Qed.

Example null_token_throws :
  is_ok (build_words word_en (obj [("words", VArr [VNull])])) = false.
Proof. reflexivity. Qed.

Example single_download :
  map fst (files (snd (downloadSurah (sample_env listing_123_json) sample_base
                                     "data" 1 start)))
  = ["data/001-al-fatihah.json"%string].
Proof. vm_compute. reflexivity. Qed.

Example single_download_unknown :
  fst (downloadSurah (sample_env listing_123_json) sample_base "data" 115 start)
  = Throw (Error "Surah with ID 115 not found").
Proof. vm_compute. reflexivity. Qed.

(** ** File names *)

Module JsStringFacts.
Import JsString.

Ltac each_char c :=
  destruct c as [[] [] [] [] [] [] [] []]; vm_compute; try reflexivity;
  try discriminate; auto.

Lemma lower_char_not_upper c : is_upper (lower_char c) = false.
Proof. each_char c. Qed.

Lemma alnum_not_hyphen c : is_lower c || is_digit c = true -> is_hyphen c = false.
Proof. each_char c. Qed.

Lemma is_alnum_lowered c :
  is_upper c = false -> is_alnum c = is_lower c || is_digit c.
Proof. unfold is_alnum. intros ->. reflexivity. Qed.

Lemma toLowerCase_no_upper s : no_upper (toLowerCase s) = true.
Proof.
  induction s as [|c s IH]; simpl; [reflexivity|].
  rewrite lower_char_not_upper, IH. reflexivity.
Qed.

Lemma collapse_cons_other c s :
  is_hyphen c = false ->
  collapse_hyphens (String c s) = String c (collapse_hyphens s).
Proof. intros Hc. destruct s; simpl; rewrite ?Hc; reflexivity. Qed.

(** Replacing unit by unit and collapsing afterwards is the one-pass
    replacement of runs; the second half covers a run already under way. *)
Lemma collapse_replace_runs s :
  no_upper s = true ->
  collapse_hyphens (replace_non_alnum s) = hyphenate_runs false s /\
  collapse_hyphens (String hyphen (replace_non_alnum s))
  = String hyphen (hyphenate_runs true s).
Proof.
  induction s as [|c s IH]; intros Hs.
  - split; reflexivity.
  - simpl in Hs. apply andb_true_iff in Hs as [Hc Hs].
    apply negb_true_iff in Hc.
    destruct (IH Hs) as [IH1 IH2]. clear IH.
    cbn [replace_non_alnum hyphenate_runs].
    rewrite (is_alnum_lowered c Hc).
    destruct (is_lower c || is_digit c) eqn:Ha.
    + pose proof (alnum_not_hyphen c Ha) as Hh.
      rewrite (collapse_cons_other c _ Hh), IH1. split; [reflexivity|].
      change (collapse_hyphens (String hyphen (String c (replace_non_alnum s))))
        with (if is_hyphen hyphen && is_hyphen c
              then collapse_hyphens (String c (replace_non_alnum s))
              else String hyphen (collapse_hyphens (String c (replace_non_alnum s)))).
      rewrite Hh, andb_false_r, (collapse_cons_other c _ Hh), IH1.
      reflexivity.
    + split; [exact IH2|].
      change (collapse_hyphens
                (String hyphen (String hyphen (replace_non_alnum s))))
        with (collapse_hyphens (String hyphen (replace_non_alnum s))).
      exact IH2.
Qed.

Lemma hyphenate_runs_single b s :
  single_hyphens (hyphenate_runs b s) = true /\
  (b = true -> starts_with_hyphen (hyphenate_runs b s) = false).
Proof.
  revert b. induction s as [|c s IH]; intros b.
  - split; reflexivity.
  - cbn [hyphenate_runs]. destruct (is_alnum c) eqn:Ha.
    + destruct (IH false) as [IH1 _]. split.
      * cbn [single_hyphens]. destruct (hyphenate_runs false s) eqn:Hr;
          [reflexivity|].
        rewrite IH1, andb_true_r.
        assert (is_hyphen c = false) as ->; [|reflexivity].
        revert Ha. clear. each_char c.
      * intros _. simpl. revert Ha. clear. each_char c.
    + destruct b.
      * apply IH.
      * destruct (IH true) as [IH1 IH2]. split; [|discriminate].
        cbn [single_hyphens]. destruct (hyphenate_runs true s) eqn:Hr;
          [reflexivity|].
        rewrite IH1, andb_true_r. specialize (IH2 eq_refl). simpl in IH2.
        rewrite IH2, andb_false_r. reflexivity.
Qed.

Lemma strip_first_is_trim s :
  single_hyphens s = true ->
  strip_first_hyphen s = trim_leading_hyphens s /\
  single_hyphens (strip_first_hyphen s) = true.
Proof.
  destruct s as [|c s]; [split; reflexivity|].
  intros Hs. cbn [strip_first_hyphen trim_leading_hyphens].
  destruct (is_hyphen c) eqn:Hc; [|split; [reflexivity|exact Hs]].
  destruct s as [|d s]; [split; reflexivity|].
  cbn [single_hyphens] in Hs. rewrite Hc in Hs.
  apply andb_true_iff in Hs as [Hd Hs]. simpl in Hd.
  apply negb_true_iff in Hd. cbn [trim_leading_hyphens]. rewrite Hd.
  split; [reflexivity|exact Hs].
Qed.

Lemma strip_last_empty s :
  strip_last_hyphen s = EmptyString ->
  s = EmptyString \/ s = String hyphen EmptyString.
Proof.
  destruct s as [|c [|d s]]; simpl; auto.
  - destruct (is_hyphen c) eqn:Hc; [|discriminate].
    apply Ascii.eqb_eq in Hc. subst. auto.
  - discriminate.
Qed.

Lemma strip_last_is_trim s :
  single_hyphens s = true ->
  strip_last_hyphen s = trim_trailing_hyphens s.
Proof.
  induction s as [|c s IH]; [reflexivity|].
  intros Hs. destruct s as [|d s]; [reflexivity|].
  cbn [single_hyphens] in Hs. apply andb_true_iff in Hs as [Hcd Hs].
  specialize (IH Hs).
  change (strip_last_hyphen (String c (String d s)))
    with (String c (strip_last_hyphen (String d s))).
  change (trim_trailing_hyphens (String c (String d s)))
    with (match trim_trailing_hyphens (String d s) with
          | EmptyString =>
              if is_hyphen c then EmptyString else String c EmptyString
          | r => String c r
          end).
  rewrite <- IH.
  destruct (strip_last_hyphen (String d s)) eqn:Hl; [|reflexivity].
  apply strip_last_empty in Hl as [Hl|Hl]; [discriminate|].
  injection Hl as -> ->.
  apply negb_true_iff in Hcd. simpl in Hcd. rewrite andb_true_r in Hcd.
  rewrite Hcd. reflexivity.
Qed.

(** [sanitizeFilename] computes the slug of the specification. *)
Lemma sanitize_is_slug name : sanitize name = slug name.
Proof.
  unfold sanitize, slug, strip_edge_hyphens.
  destruct (collapse_replace_runs (toLowerCase name)
              (toLowerCase_no_upper name)) as [-> _].
  destruct (hyphenate_runs_single false (toLowerCase name)) as [Hs _].
  destruct (strip_first_is_trim _ Hs) as [<- Hs'].
  apply strip_last_is_trim, Hs'.
Qed.

End JsStringFacts.

(** ** Code that may throw *)

Lemma rbind_ok {A B : Type} (r : result A) (k : A -> result B) (b : B) :
  rbind r k = Ok b -> exists a, r = Ok a /\ k a = Ok b.
Proof. destruct r as [a|e]; simpl; [eauto | discriminate]. Qed.

Lemma get_prop_member v name x : get_prop v name = Ok x <-> member v name = Some x.
Proof.
  unfold get_prop. destruct (member v name); split; intros H;
    try discriminate; congruence.
Qed.

Lemma get_prop_opt v name x : get_prop v name = Ok x -> opt_prop v name = x.
Proof. intros H%get_prop_member. unfold opt_prop. rewrite H. reflexivity. Qed.

Lemma member_nullish v name : nullish v = false -> exists x, member v name = Some x.
Proof. destruct v; simpl; try discriminate; eauto. Qed.

Lemma member_not_nullish v name x : member v name = Some x -> nullish v = false.
Proof. destruct v; simpl; try discriminate; reflexivity. Qed.

Lemma get_prop_total v name :
  nullish v = false -> get_prop v name = Ok (opt_prop v name).
Proof.
  intros H. destruct (member_nullish v name H) as [x Hx].
  unfold get_prop, opt_prop. rewrite Hx. reflexivity.
Qed.

Lemma mapM_Forall2 {A B : Type} (f : A -> result B) l l' :
  mapM f l = Ok l' <-> Forall2 (fun x y => f x = Ok y) l l'.
Proof.
  revert l'. induction l as [|x l IH]; intros l'; simpl.
  - split; intros H; [injection H as <-; constructor|].
    inversion H. reflexivity.
  - split; intros H.
    + apply rbind_ok in H as (y & Hy & H).
      apply rbind_ok in H as (ys & Hys & H).
      injection H as <-. constructor; [assumption|]. apply IH, Hys.
    + inversion H as [|? y ? ys Hy Hys]; subst.
      rewrite Hy. simpl. apply IH in Hys. rewrite Hys. reflexivity.
Qed.

Lemma mapM_length {A B : Type} (f : A -> result B) l l' :
  mapM f l = Ok l' -> length l' = length l.
Proof. intros H%mapM_Forall2. symmetry. eapply Forall2_length, H. Qed.

Lemma mapM_total {A B : Type} (f : A -> result B) l :
  Forall (fun x => exists y, f x = Ok y) l -> exists l', mapM f l = Ok l'.
Proof.
  induction 1 as [|x l [y Hy] _ [l' Hl']]; simpl; [eauto|].
  rewrite Hy, Hl'. simpl. eauto.
Qed.

(** A throwing filter that succeeds has filtered by the test its callback
    computes. *)
Lemma filterM_filter {A : Type} (p : A -> result bool) (q : A -> bool) l kept :
  (forall x b, p x = Ok b -> b = q x) ->
  filterM p l = Ok kept -> kept = List.filter q l.
Proof.
  intros Hpq. revert kept. induction l as [|x l IH]; intros kept H; simpl in *.
  - congruence.
  - apply rbind_ok in H as (b & Hb & H).
    apply rbind_ok in H as (rest & Hrest & H).
    injection H as <-. rewrite <- (Hpq _ _ Hb), <- (IH _ Hrest).
    reflexivity.
Qed.

Lemma filterM_total {A : Type} (p : A -> result bool) l :
  Forall (fun x => exists b, p x = Ok b) l -> exists kept, filterM p l = Ok kept.
Proof.
  induction 1 as [|x l [b Hb] _ [kept Hk]]; simpl; [eauto|].
  rewrite Hb, Hk. simpl. eauto.
Qed.

Lemma findM_find {A : Type} (p : A -> result bool) (q : A -> bool) l hit :
  (forall x b, p x = Ok b -> b = q x) ->
  findM p l = Ok hit -> hit = List.find q l.
Proof.
  intros Hpq. revert hit. induction l as [|x l IH]; intros hit H; simpl in *.
  - congruence.
  - apply rbind_ok in H as (b & Hb & H).
    rewrite <- (Hpq _ _ Hb). destruct b; [congruence|].
    apply IH, H.
Qed.

Lemma findM_total {A : Type} (p : A -> result bool) l :
  Forall (fun x => exists b, p x = Ok b) l -> exists hit, findM p l = Ok hit.
Proof.
  induction 1 as [|x l [b Hb] _ [hit Hh]]; simpl; [eauto|].
  rewrite Hb. simpl. destruct b; eauto.
Qed.

(** ** The callbacks *)

Lemma is_word_tagged w b : is_word w = Ok b -> b = tagged w.
Proof.
  unfold is_word, tagged. intros H.
  apply rbind_ok in H as (tag & Htag & H).
  apply get_prop_opt in Htag. congruence.
Qed.

Lemma is_word_total w : nullish w = false -> is_word w = Ok (tagged w).
Proof.
  intros H. unfold is_word. rewrite (get_prop_total _ _ H). reflexivity.
Qed.

Lemma has_resource_spec rid t b :
  has_resource rid t = Ok b -> b = is_number rid (opt_prop t "resource_id").
Proof.
  unfold has_resource. intros H.
  apply rbind_ok in H as (r & Hr & H).
  apply get_prop_opt in Hr. congruence.
Qed.

Lemma has_resource_total rid t :
  nullish t = false ->
  has_resource rid t = Ok (is_number rid (opt_prop t "resource_id")).
Proof.
  intros H. unfold has_resource. rewrite (get_prop_total _ _ H). reflexivity.
Qed.

Lemma or_else_total a v name :
  nullish v = false -> exists x, or_else a (get_prop v name) = Ok x.
Proof.
  intros H. unfold or_else. destruct (truthy a); [eauto|].
  rewrite (get_prop_total _ _ H). eauto.
Qed.

(** Neither callback of [map] throws on a token that is not [null]. *)
Lemma word_en_total w : nullish w = false -> exists s, word_en w = Ok s.
Proof.
  intros H. unfold word_en. rewrite !(get_prop_total _ _ H).
  cbn [rbind]. unfold or_else. destruct (truthy _); cbn [rbind]; eauto.
Qed.

Lemma word_id_total w : nullish w = false -> exists s, word_id w = Ok s.
Proof.
  intros H. unfold word_id. rewrite !(get_prop_total _ _ H).
  cbn [rbind]. unfold or_else. destruct (truthy _); cbn [rbind]; eauto.
Qed.

Lemma tagged_not_nullish w : tagged w = true -> nullish w = false.
Proof. destruct w; simpl; try discriminate; reflexivity. Qed.

(** ** The words of a verse *)

Lemma build_words_tokens segment verse segs :
  build_words segment verse = Ok segs ->
  Forall2 (fun w s => segment w = Ok s)
          (List.filter tagged (word_tokens verse)) segs.
Proof.
  unfold build_words, word_tokens. intros H.
  apply rbind_ok in H as (ws & Hws & H).
  apply rbind_ok in H as (kept & Hkept & H).
  apply get_prop_opt in Hws. subst ws.
  unfold js_filter in Hkept.
  destruct (js_or (opt_prop verse "words") (VArr [])); try discriminate.
  apply (filterM_filter _ tagged) in Hkept; [|apply is_word_tagged].
  subst kept. apply mapM_Forall2, H.
Qed.

Lemma build_words_not_nullish segment verse segs :
  build_words segment verse = Ok segs -> nullish verse = false.
Proof.
  unfold build_words. intros H. apply rbind_ok in H as (ws & Hws & _).
  apply get_prop_member in Hws. eapply member_not_nullish, Hws.
Qed.

(** ** One index of the merge *)

Lemma js_find_first rid verse found :
  js_find (js_or (opt_prop verse "translations") (VArr [])) (has_resource rid)
  = Ok found ->
  found = default VUndef (first_with_resource rid (translation_entries verse)).
Proof.
  unfold js_find, translation_entries, first_with_resource. intros H.
  destruct (js_or (opt_prop verse "translations") (VArr [])); try discriminate.
  apply rbind_ok in H as (hit & Hhit & H). injection H as <-.
  f_equal. eapply findM_find, Hhit. apply has_resource_spec.
Qed.

Lemma build_ayah_ok vEn vId u im t i a :
  build_ayah vEn vId u im t i = Ok a ->
  exists verseEn entryId uthmani imlaei tajweed,
    get_item vEn i = Ok verseEn /\
    get_item vId i = Ok entryId /\
    get_item u i = Ok uthmani /\
    get_item im i = Ok imlaei /\
    get_item t i = Ok tajweed /\
    build_words word_en verseEn = Ok (words_en a) /\
    build_words word_id (js_or entryId verseEn) = Ok (words_id a) /\
    a = merged_ayah verseEn uthmani imlaei tajweed (words_en a) (words_id a).
Proof.
  unfold build_ayah. intros H.
  apply rbind_ok in H as (verseEn & HvEn & H).
  apply rbind_ok in H as (entryId & HeId & H).
  apply rbind_ok in H as (uthmani & Hu & H).
  apply rbind_ok in H as (imlaei & Him & H).
  apply rbind_ok in H as (tajweed & Ht & H).
  apply rbind_ok in H as (wordsEn & HwEn & H).
  apply rbind_ok in H as (wordsId & HwId & H).
  apply rbind_ok in H as (trs & Htrs & H).
  apply rbind_ok in H as (trEn & HtrEn & H).
  apply rbind_ok in H as (trId & HtrId & H).
  apply rbind_ok in H as (a_id & Ha_id & H).
  apply rbind_ok in H as (a_number & Ha_number & H).
  apply rbind_ok in H as (a_key & Ha_key & H).
  apply rbind_ok in H as (a_juz & Ha_juz & H).
  apply rbind_ok in H as (a_hizb & Ha_hizb & H).
  apply rbind_ok in H as (a_rub & Ha_rub & H).
  apply rbind_ok in H as (a_manzil & Ha_manzil & H).
  apply rbind_ok in H as (a_ruku & Ha_ruku & H).
  apply rbind_ok in H as (a_page & Ha_page & H).
  apply rbind_ok in H as (a_sajdah & Ha_sajdah & H).
  injection H as <-. cbn [words_en words_id].
  exists verseEn, entryId, uthmani, imlaei, tajweed.
  repeat (split; [assumption|]).
  apply get_prop_opt in Htrs, Ha_id, Ha_number, Ha_key, Ha_juz, Ha_hizb,
    Ha_rub, Ha_manzil, Ha_ruku, Ha_page, Ha_sajdah. subst.
  apply js_find_first in HtrEn, HtrId. subst.
  reflexivity.
Qed.

Lemma js_find_total rid entries :
  Forall (fun t => nullish t = false) entries ->
  js_find (VArr entries) (has_resource rid)
  = Ok (default VUndef (first_with_resource rid entries)).
Proof.
  intros Hall. unfold js_find.
  destruct (findM_total (has_resource rid) entries) as [hit Hhit].
  - eapply Forall_impl; [exact Hall|]. intros t Ht. simpl in Ht.
    rewrite (has_resource_total _ _ Ht). eauto.
  - rewrite Hhit. cbn [rbind]. f_equal. f_equal.
    eapply findM_find, Hhit. apply has_resource_spec.
Qed.

Lemma build_ayah_total vEn vId u im t i
  verseEn entryId uthmani imlaei tajweed wordsEn wordsId entries :
  get_item vEn i = Ok verseEn ->
  get_item vId i = Ok entryId ->
  get_item u i = Ok uthmani ->
  get_item im i = Ok imlaei ->
  get_item t i = Ok tajweed ->
  build_words word_en verseEn = Ok wordsEn ->
  build_words word_id (js_or entryId verseEn) = Ok wordsId ->
  js_or (opt_prop verseEn "translations") (VArr []) = VArr entries ->
  Forall (fun e => nullish e = false) entries ->
  build_ayah vEn vId u im t i
  = Ok (merged_ayah verseEn uthmani imlaei tajweed wordsEn wordsId).
Proof.
  intros HvEn HeId Hu Him Ht HwEn HwId Htrs Hentries.
  pose proof (build_words_not_nullish _ _ _ HwEn) as Hnn.
  unfold build_ayah.
  rewrite HvEn, HeId, Hu, Him, Ht. cbn [rbind].
  rewrite HwEn, HwId. cbn [rbind].
  rewrite !(get_prop_total _ _ Hnn). cbn [rbind].
  rewrite Htrs, !(js_find_total _ _ Hentries). cbn [rbind].
  unfold merged_ayah, translation_text, translation_entries.
  rewrite Htrs. reflexivity.
Qed.

(** ** The loop *)

Lemma ayah_loop_mapM vEn vId u im t count i acc :
  ayah_loop vEn vId u im t count i acc
  = (let! l := mapM (build_ayah vEn vId u im t) (seq i count) in
     Ok (acc ++ l)).
Proof.
  revert i acc. induction count as [|count IH]; intros i acc.
  - simpl. rewrite app_nil_r. reflexivity.
  - cbn [ayah_loop seq mapM].
    destruct (build_ayah vEn vId u im t i) as [a|e]; cbn [rbind];
      [|reflexivity].
    rewrite IH.
    destruct (mapM (build_ayah vEn vId u im t) (seq (S i) count));
      cbn [rbind]; [|reflexivity].
    rewrite <- app_assoc. reflexivity.
Qed.

Lemma buildAyahs_ok stn f l :
  buildAyahs stn f = Ok l ->
  exists vEn vId u im t count,
    verses_of (versesEnData f) = Ok vEn /\
    verses_of (versesIdData f) = Ok vId /\
    verses_of (uthmaniData f) = Ok u /\
    verses_of (imlaeiData f) = Ok im /\
    verses_of (tajweedData f) = Ok t /\
    loop_count stn vEn = Ok count /\
    Forall2 (fun i a => build_ayah vEn vId u im t i = Ok a) (seq 0 count) l.
Proof.
  unfold buildAyahs. intros H.
  apply rbind_ok in H as (vEn & HvEn & H).
  apply rbind_ok in H as (vId & HvId & H).
  apply rbind_ok in H as (u & Hu & H).
  apply rbind_ok in H as (im & Him & H).
  apply rbind_ok in H as (t & Ht & H).
  apply rbind_ok in H as (count & Hcount & H).
  rewrite ayah_loop_mapM in H.
  apply rbind_ok in H as (l' & Hl' & H). injection H as <-.
  exists vEn, vId, u, im, t, count.
  repeat (split; [assumption|]). apply mapM_Forall2, Hl'.
Qed.

Lemma buildAyahs_lookup stn f l i a :
  buildAyahs stn f = Ok l -> l !! i = Some a ->
  exists vEn vId u im t,
    verses_of (versesEnData f) = Ok vEn /\
    verses_of (versesIdData f) = Ok vId /\
    verses_of (uthmaniData f) = Ok u /\
    verses_of (imlaeiData f) = Ok im /\
    verses_of (tajweedData f) = Ok t /\
    build_ayah vEn vId u im t i = Ok a.
Proof.
  intros H Hi.
  apply buildAyahs_ok in H as (vEn & vId & u & im & t & count & H1 & H2 & H3
                               & H4 & H5 & _ & Hall).
  exists vEn, vId, u, im, t. repeat (split; [assumption|]).
  destruct (Forall2_lookup_r _ _ _ _ _ Hall Hi) as (j & Hj & Hb).
  apply lookup_seq in Hj as [-> _]. exact Hb.
Qed.

Lemma verses_of_array data entries :
  member data "verses" = Some (VArr entries) ->
  verses_of data = Ok (VArr entries).
Proof.
  intros H. unfold verses_of.
  apply get_prop_member in H. rewrite H. reflexivity.
Qed.

Lemma verses_of_absent data :
  member data "verses" = Some VUndef -> verses_of data = Ok (VArr []).
Proof.
  intros H. unfold verses_of.
  apply get_prop_member in H. rewrite H. reflexivity.
Qed.

Lemma verses_of_total data :
  nullish data = false -> exists vs, verses_of data = Ok vs /\ nullish vs = false.
Proof.
  intros H. unfold verses_of. rewrite (get_prop_total _ _ H). cbn [rbind].
  eexists; split; [reflexivity|].
  unfold js_or. destruct (truthy (opt_prop data "verses")) eqn:Ht;
    [|reflexivity].
  destruct (opt_prop data "verses"); simpl in *; congruence.
Qed.

Lemma loop_count_array stn entries :
  loop_count stn (VArr entries) = Ok (length entries).
Proof.
  unfold loop_count. simpl. rewrite Nat2Z.id. reflexivity.
Qed.

Lemma buildAyahs_length stn f l versesEn :
  buildAyahs stn f = Ok l ->
  verses_of (versesEnData f) = Ok (VArr versesEn) ->
  length l = length versesEn.
Proof.
  intros H Hen.
  apply buildAyahs_ok in H as (vEn & vId & u & im & t & count & H1 & _ & _
                               & _ & _ & Hc & Hall).
  rewrite Hen in H1. injection H1 as <-.
  rewrite loop_count_array in Hc. injection Hc as <-.
  apply Forall2_length in Hall. rewrite length_seq in Hall. congruence.
Qed.

(** ** Claims about one index of the merge *)

Lemma is_string_eq lit v : is_string lit v = true <-> v = VStr lit.
Proof.
  destruct v; simpl; split; try discriminate; intros H.
  - apply String.eqb_eq in H. congruence.
  - injection H as ->. apply String.eqb_refl.
Qed.






(** C4. The word lists of an ayah are made from exactly the tokens of the
    verse whose type tag is "word", one segment per such token and in the
    order of the tokens: [words.en] from the primary verse, [words.id] from
    the verse used for Indonesian.  No other token gives a segment. *)
Theorem only_word_tokens_kept vEn vId u im t i a verseEn entryId :
  build_ayah vEn vId u im t i = Ok a ->
  get_item vEn i = Ok verseEn ->
  get_item vId i = Ok entryId ->
  Forall2 (fun w s => word_en w = Ok s)
          (List.filter tagged (word_tokens verseEn)) (words_en a) /\
  Forall2 (fun w s => word_id w = Ok s)
          (List.filter tagged (word_tokens (js_or entryId verseEn)))
          (words_id a).
Proof.
  intros H HvEn HeId.
  apply build_ayah_ok in H
    as (verseEn' & entryId' & uthmani & imlaei & tajweed & HvEn' & HeId'
        & _ & _ & _ & HwEn & HwId & _).
  rewrite HvEn in HvEn'. injection HvEn' as <-.
  rewrite HeId in HeId'. injection HeId' as <-.
  split; eapply build_words_tokens; eassumption.
Qed.

Lemma only_word_tokens_kept_witness :
  exists a,
    build_ayah (VArr [sample_verse_en]) (VArr [sample_verse_id])
               (VArr []) (VArr []) (VArr []) 0 = Ok a /\
    length (word_tokens sample_verse_en) = 3 /\
    map position (words_en a) = [VNum 1; VNum 2] /\
    Forall2 (fun w s => word_id w = Ok s)
            (List.filter tagged (word_tokens sample_verse_id)) (words_id a).
Proof.
  eexists. split; [vm_compute; reflexivity|].
  split; [reflexivity|]. split; [reflexivity|].
  exact (proj2 (only_word_tokens_kept
                  (VArr [sample_verse_en]) (VArr [sample_verse_id])
                  (VArr []) (VArr []) (VArr []) 0 _
                  sample_verse_en sample_verse_id eq_refl eq_refl eq_refl)).
Defined.

(** C5. The language tag of a segment of [words.id] is "id" exactly when
    the token's own translation metadata names the language "indonesian";
    otherwise, also when the token has no translation or no language name,
    it is "en".  The segment is produced for every token that is not
    [null]. *)
Theorem language_tag_of_word_id w :
  nullish w = false ->
  exists s,
    word_id w = Ok s /\
    (language (translation s) = "id"%string
     <-> language_name_of w = VStr "indonesian") /\
    (language_name_of w <> VStr "indonesian" ->
     language (translation s) = "en"%string).
Proof.
  intros Hw. destruct (word_id_total w Hw) as [s Hs].
  exists s. split; [exact Hs|].
  unfold word_id in Hs.
  apply rbind_ok in Hs as (pos & _ & Hs).
  apply rbind_ok in Hs as (c1 & _ & Hs).
  apply rbind_ok in Hs as (code & _ & Hs).
  apply rbind_ok in Hs as (audio & _ & Hs).
  apply rbind_ok in Hs as (tr & Htr & Hs).
  apply rbind_ok in Hs as (tl & _ & Hs).
  injection Hs as <-. cbn [translation language].
  apply get_prop_opt in Htr. subst tr.
  unfold language_tag, language_name_of.
  destruct (is_string "indonesian" _) eqn:Hi.
  - apply is_string_eq in Hi. split; [tauto|contradiction].
  - split; [|reflexivity]. split; [discriminate|].
    intros He. apply is_string_eq in He. congruence.
Qed.

Lemma language_tag_of_word_id_witness :
  nullish (sample_token "word" 1 "bismi" "dengan nama" "indonesian") = false /\
  exists s,
    word_id (sample_token "word" 1 "bismi" "dengan nama" "indonesian") = Ok s /\
    language (translation s) = "id"%string.
Proof.
  split; [reflexivity|].
  destruct (language_tag_of_word_id
              (sample_token "word" 1 "bismi" "dengan nama" "indonesian")
              eq_refl) as (s & Hs & Hiff & _).
  exists s. split; [exact Hs|]. apply Hiff. reflexivity.
Defined.

(** C6. [translations.en] of an ayah is the text of the first entry of the
    primary verse's translation list whose resource id is 20, and
    [translations.id] that of the first entry whose resource id is 33; the
    field is the empty string when the list has no such entry (or when the
    entry found has no text). *)
Theorem translations_by_resource_id vEn vId u im t i a verseEn :
  build_ayah vEn vId u im t i = Ok a ->
  get_item vEn i = Ok verseEn ->
  (forall e,
     first_with_resource TRANSLATION_IDS.english (translation_entries verseEn)
     = Some e ->
     translations_en a = js_or (opt_prop e "text") (VStr "") /\
     forall s, member e "text" = Some (VStr s) -> translations_en a = VStr s) /\
  (first_with_resource TRANSLATION_IDS.english (translation_entries verseEn)
   = None -> translations_en a = VStr "") /\
  (forall e,
     first_with_resource TRANSLATION_IDS.indonesian (translation_entries verseEn)
     = Some e ->
     translations_id a = js_or (opt_prop e "text") (VStr "") /\
     forall s, member e "text" = Some (VStr s) -> translations_id a = VStr s) /\
  (first_with_resource TRANSLATION_IDS.indonesian (translation_entries verseEn)
   = None -> translations_id a = VStr "").
Proof.
  intros H HvEn.
  apply build_ayah_ok in H
    as (verseEn' & entryId & uthmani & imlaei & tajweed & HvEn' & _ & _ & _
        & _ & _ & _ & Ha).
  rewrite HvEn in HvEn'. injection HvEn' as <-.
  rewrite Ha. unfold merged_ayah. cbn [translations_en translations_id].
  unfold translation_text.
  assert (Hstr : forall e s, member e "text" = Some (VStr s) ->
                             js_or (opt_prop e "text") (VStr "") = VStr s).
  { intros e s He. unfold opt_prop. rewrite He. cbn [default].
    unfold js_or. simpl. destruct (String.eqb s "") eqn:Hs; [|reflexivity].
    apply String.eqb_eq in Hs. subst. reflexivity. }
  split; [|split; [|split]].
  - intros e He. rewrite He. cbn [default]. split; [reflexivity|].
    apply Hstr.
  - intros ->. reflexivity.
  - intros e He. rewrite He. cbn [default]. split; [reflexivity|].
    apply Hstr.
  - intros ->. reflexivity.
Qed.

Lemma translations_by_resource_id_witness :
  exists a,
    build_ayah (VArr [sample_verse_en]) (VArr []) (VArr []) (VArr []) (VArr [])
               0 = Ok a /\
    translations_en a = VStr "In the name of Allah" /\
    translations_id a = VStr "Dengan nama Allah".
Proof.
  eexists. split; [vm_compute; reflexivity|].
  destruct (translations_by_resource_id
              (VArr [sample_verse_en]) (VArr []) (VArr []) (VArr []) (VArr [])
              0 _ sample_verse_en eq_refl eq_refl) as (Hen & _ & Hid & _).
  split.
  - exact (proj2 (Hen _ eq_refl) _ eq_refl).
  - exact (proj2 (Hid _ eq_refl) _ eq_refl).
Defined.

(** ** Computations in a world *)

Section WorldFacts.

Context (E : Env).

Lemma bind_ok {A B : Type} (m : M A) (k : A -> M B) w b w' :
  bind m k w = (Ok b, w') ->
  exists a w1, m w = (Ok a, w1) /\ k a w1 = (Ok b, w').
Proof.
  unfold bind. destruct (m w) as [[a|e] w1]; [eauto | discriminate].
Qed.

Lemma bind_throw {A B : Type} (m : M A) (k : A -> M B) w e w' :
  bind m k w = (Throw e, w') ->
  m w = (Throw e, w') \/
  exists a w1, m w = (Ok a, w1) /\ k a w1 = (Throw e, w').
Proof.
  unfold bind. destruct (m w) as [[a|e'] w1]; [eauto|].
  intros [= -> ->]. auto.
Qed.

Lemma keeps_bind {A B : Type} (m : M A) (k : A -> M B) :
  keeps_files m -> (forall a, keeps_files (k a)) -> keeps_files (bind m k).
Proof.
  intros Hm Hk w. unfold bind. specialize (Hm w).
  destruct (m w) as [[a|e] w1]; simpl in Hm; [|exact Hm].
  rewrite (Hk a w1). exact Hm.
Qed.

Lemma keeps_ret {A : Type} (a : A) : keeps_files (ret a).
Proof. intros w. reflexivity. Qed.

Lemma keeps_throw {A : Type} e : keeps_files (@throw A e).
Proof. intros w. reflexivity. Qed.

Lemma keeps_lift {A : Type} (r : result A) : keeps_files (lift r).
Proof. intros w. reflexivity. Qed.

Lemma keeps_console_log line : keeps_files (console_log line).
Proof. intros w. reflexivity. Qed.

Lemma keeps_colorLog color msg : keeps_files (colorLog color msg).
Proof. intros w. reflexivity. Qed.

Lemma keeps_sleep ms : keeps_files (sleep ms).
Proof. intros w. reflexivity. Qed.

Lemma keeps_now : keeps_files (now E).
Proof. intros w. reflexivity. Qed.

Lemma keeps_fetchJSON url : keeps_files (fetchJSON E url).
Proof. intros w. reflexivity. Qed.

Create HintDb keeps.
#[local] Hint Resolve keeps_ret keeps_throw keeps_lift keeps_console_log
  keeps_colorLog keeps_sleep keeps_now keeps_fetchJSON : keeps.

Ltac keeps :=
  repeat first [ apply keeps_bind; [|intros ?] | solve [auto with keeps] ].

Lemma keeps_printHeader title : keeps_files (printHeader title).
Proof. unfold printHeader. keeps. Qed.

Lemma keeps_fetchChapters baseUrl : keeps_files (fetchChapters E baseUrl).
Proof. unfold fetchChapters. keeps. Qed.

Lemma keeps_fetchFragments baseUrl chapter :
  keeps_files (fetchFragments E baseUrl chapter).
Proof.
  unfold fetchFragments, fetchUthmaniText, fetchImlaeiText,
    fetchUthmaniTajweedText, fetchVersesWithWords.
  keeps.
Qed.

Lemma keeps_buildSurahData baseUrl chapter :
  keeps_files (buildSurahData E baseUrl chapter).
Proof.
  unfold buildSurahData. pose proof (keeps_fetchFragments baseUrl chapter).
  keeps.
Qed.

(** The promise of [buildSurahData] is rejected when a request is, and
    when the merge throws. *)
Lemma buildSurahData_fetch_fails baseUrl chapter w e w' :
  fetchFragments E baseUrl chapter w = (Throw e, w') ->
  buildSurahData E baseUrl chapter w = (Throw e, w').
Proof. intros H. unfold buildSurahData, bind. rewrite H. reflexivity. Qed.

Lemma buildSurahData_merge_fails baseUrl chapter w f w' e :
  fetchFragments E baseUrl chapter w = (Ok f, w') ->
  buildAyahs (string_to_number E) f = Throw e ->
  buildSurahData E baseUrl chapter w = (Throw e, w').
Proof.
  intros H He. unfold buildSurahData, bind, lift. rewrite H, He. reflexivity.
Qed.

Lemma fetchFragments_chapter baseUrl chapter w f w' :
  fetchFragments E baseUrl chapter w = (Ok f, w') -> nullish chapter = false.
Proof.
  unfold fetchFragments. intros H. apply bind_ok in H as (x & w1 & H & _).
  unfold lift in H. injection H as H _.
  apply get_prop_member in H. eapply member_not_nullish, H.
Qed.

Lemma buildDocument_total baseUrl chapter stamp l :
  nullish chapter = false ->
  exists doc, buildDocument baseUrl chapter stamp l = Ok doc /\ ayahs doc = l.
Proof.
  intros H. unfold buildDocument. rewrite !(get_prop_total _ _ H).
  cbn [rbind]. eexists. split; reflexivity.
Qed.

Lemma buildSurahData_merged baseUrl chapter w f w' l :
  fetchFragments E baseUrl chapter w = (Ok f, w') ->
  buildAyahs (string_to_number E) f = Ok l ->
  exists doc,
    buildSurahData E baseUrl chapter w = (Ok doc, w') /\ ayahs doc = l.
Proof.
  intros H Hl.
  destruct (buildDocument_total baseUrl chapter
              (toISOString E (requests w') (elapsed w')) l
              (fetchFragments_chapter _ _ _ _ _ H)) as (doc & Hdoc & Hay).
  exists doc. split; [|exact Hay].
  unfold buildSurahData, bind, lift, now. rewrite H, Hl, Hdoc. reflexivity.
Qed.

(** Writing either throws and leaves the files alone or adds the file. *)
Lemma writeFileSync_cases path content w :
  (exists e, writeFileSync E path content w = (Throw e, w)) \/
  writeFileSync E path content w = (Ok tt, written path content w).
Proof.
  unfold writeFileSync. destruct (write_failure E (files w) path); eauto.
Qed.

Lemma download_chapter_files baseUrl outputDir c w r w' :
  download_chapter E baseUrl outputDir c w = (r, w') ->
  match r with
  | Ok _ => exists file,
      file_of E baseUrl outputDir c file /\ files w' = files w ++ [file]
  | Throw _ => files w' = files w
  end.
Proof.
  unfold download_chapter. intros H.
  unfold bind at 1 in H. unfold lift at 1 in H.
  destruct (shown c "id") as [c_id|e]; [|injection H as <- <-; reflexivity].
  unfold bind at 1 in H. unfold lift at 1 in H.
  destruct (shown c "name_simple") as [simple|e];
    [|injection H as <- <-; reflexivity].
  unfold bind at 1 in H. unfold lift at 1 in H.
  destruct (shown c "name_arabic") as [arabic|e];
    [|injection H as <- <-; reflexivity].
  unfold bind at 1 in H. unfold colorLog at 1, console_log at 1 in H.
  unfold bind at 1 in H.
  match type of H with
  | context [buildSurahData E baseUrl c ?w0] =>
      pose proof (keeps_buildSurahData baseUrl c w0) as Hk;
      destruct (buildSurahData E baseUrl c w0) as [[doc|e] w1] eqn:Hdoc
  end; simpl in Hk; [|injection H as <- <-; exact Hk].
  unfold bind at 1 in H. unfold lift at 1 in H.
  destruct (output_filename c) as [name|e] eqn:Hname;
    [|injection H as <- <-; exact Hk].
  unfold bind at 1 in H.
  destruct (writeFileSync_cases (path_join E outputDir name)
              (JSON_stringify E doc) w1) as [[e He]|Hw]; rewrite ?He, ?Hw in H.
  - injection H as <- <-. exact Hk.
  - unfold bind, colorLog, console_log, sleep in H. injection H as <- <-.
    eexists. split.
    + exists doc, name. eauto.
    + simpl. rewrite Hk. reflexivity.
Qed.

(** Equations for the steps that cannot throw. *)
Lemma bind_lift {A B : Type} (r : result A) (k : A -> M B) w :
  bind (lift r) k w
  = match r with Ok a => k a w | Throw e => (Throw e, w) end.
Proof. unfold bind, lift. destruct r; reflexivity. Qed.

Lemma bind_console_log {B : Type} line (k : unit -> M B) w :
  bind (console_log line) k w = k tt (printed line w).
Proof. reflexivity. Qed.

Lemma bind_colorLog {B : Type} color msg (k : unit -> M B) w :
  bind (colorLog color msg) k w
  = k tt (printed (COLORS.code color +:+ msg +:+ COLORS.code COLORS.reset) w).
Proof. reflexivity. Qed.

Lemma bind_printHeader {B : Type} title (k : unit -> M B) w :
  exists w1, bind (printHeader title) k w = k tt w1 /\ files w1 = files w.
Proof. eexists. split; reflexivity. Qed.

Lemma downloadSurah_files baseUrl outputDir surahId w r w' :
  downloadSurah E baseUrl outputDir surahId w = (r, w') ->
  match r with
  | Ok doc => exists c name w0 w1,
      buildSurahData E baseUrl c w0 = (Ok doc, w1) /\
      output_filename c = Ok name /\
      files w' = files w ++ [(path_join E outputDir name,
                              JSON_stringify E doc)]
  | Throw _ => files w' = files w
  end.
Proof.
  unfold downloadSurah. intros H.
  unfold bind at 1 in H.
  pose proof (keeps_fetchChapters baseUrl w) as Hk0.
  destruct (fetchChapters E baseUrl w) as [[data|e] w0]; simpl in Hk0;
    [|injection H as <- <-; exact Hk0].
  rewrite bind_lift in H.
  destruct (get_prop data "chapters") as [listing|e];
    [|injection H as <- <-; exact Hk0].
  rewrite bind_lift in H.
  destruct (js_find listing _) as [chapter|e];
    [|injection H as <- <-; exact Hk0].
  destruct (negb (truthy chapter)); [injection H as <- <-; exact Hk0|].
  rewrite bind_lift in H.
  destruct (shown chapter "name_simple") as [simple|e];
    [|injection H as <- <-; exact Hk0].
  rewrite bind_lift in H.
  destruct (shown chapter "name_arabic") as [arabic|e];
    [|injection H as <- <-; exact Hk0].
  match type of H with
  | bind (printHeader ?title) ?k ?w = _ =>
      destruct (bind_printHeader title k w) as (w1 & Heq & Hk1);
      rewrite Heq in H; clear Heq
  end.
  rewrite bind_lift in H.
  destruct (shown chapter "id") as [c_id|e];
    [|injection H as <- <-; congruence].
  rewrite bind_lift in H.
  destruct (shown chapter "verses_count") as [c_count|e];
    [|injection H as <- <-; congruence].
  rewrite bind_lift in H.
  destruct (shown chapter "revelation_place") as [c_place|e];
    [|injection H as <- <-; congruence].
  rewrite !bind_console_log in H.
  unfold bind at 1 in H.
  match type of H with
  | context [buildSurahData E baseUrl chapter ?w2] =>
      pose proof (keeps_buildSurahData baseUrl chapter w2) as Hk2;
      destruct (buildSurahData E baseUrl chapter w2) as [[doc|e] w3] eqn:Hdoc
  end; simpl in Hk2; [|injection H as <- <-; congruence].
  rewrite bind_lift in H.
  destruct (output_filename chapter) as [name|e] eqn:Hname;
    [|injection H as <- <-; congruence].
  unfold bind at 1 in H.
  destruct (writeFileSync_cases (path_join E outputDir name)
              (JSON_stringify E doc) w3) as [[e He]|Hw]; rewrite ?He, ?Hw in H.
  - injection H as <- <-. congruence.
  - rewrite bind_colorLog, !bind_console_log in H. injection H as <- <-.
    exists chapter, name. do 2 eexists.
    split; [exact Hdoc|]. split; [exact Hname|].
    simpl. congruence.
Qed.

(** ** The batch *)

Lemma turn_cases baseUrl outputDir c w :
  (exists w1,
     download_chapter E baseUrl outputDir c w = (Ok tt, w1) /\
     turn E baseUrl outputDir c w = (Ok tt, w1)) \/
  (exists e w1,
     download_chapter E baseUrl outputDir c w = (Throw e, w1) /\
     turn E baseUrl outputDir c w = (Ok tt, printed (report_line e) w1)).
Proof.
  unfold turn, try_catch.
  destruct (download_chapter E baseUrl outputDir c w) as [[[]|e] w1]; eauto.
Qed.

Lemma batch_runs baseUrl outputDir chapters w :
  exists w' saved failed,
    for_each chapters (turn E baseUrl outputDir) w = (Ok tt, w') /\
    Batch E baseUrl outputDir chapters w w' saved failed.
Proof.
  revert w. induction chapters as [|c rest IH]; intros w.
  - exists w, [], []. split; [reflexivity|constructor].
  - cbn [for_each]. unfold bind.
    destruct (turn_cases baseUrl outputDir c w)
      as [(w1 & Hd & ->)|(e & w1 & Hd & ->)].
    + destruct (IH w1) as (w' & saved & failed & Hrun & Hb).
      exists w', (c :: saved), failed. split; [exact Hrun|].
      eapply batch_saved; eassumption.
    + destruct (IH (printed (report_line e) w1))
        as (w' & saved & failed & Hrun & Hb).
      exists w', saved, (e :: failed). split; [exact Hrun|].
      eapply batch_failed; eassumption.
Qed.

Lemma batch_files baseUrl outputDir chapters w w' saved failed :
  Batch E baseUrl outputDir chapters w w' saved failed ->
  exists outs,
    files w' = files w ++ outs /\
    Forall2 (file_of E baseUrl outputDir) saved outs.
Proof.
  induction 1 as [w|c rest w w1 w' saved failed Hd _ (outs & Hf & Hall)
                  |c rest w e w1 w' saved failed Hd _ (outs & Hf & Hall)].
  - exists []. split; [symmetry; apply app_nil_r|constructor].
  - apply download_chapter_files in Hd as (file & Hfile & Hw1).
    exists (file :: outs). split; [|constructor; assumption].
    rewrite Hf, Hw1, <- app_assoc. reflexivity.
  - apply download_chapter_files in Hd. exists outs.
    split; [|assumption]. rewrite Hf. simpl. rewrite Hd. reflexivity.
Qed.

Lemma batch_sublist baseUrl outputDir chapters w w' saved failed :
  Batch E baseUrl outputDir chapters w w' saved failed ->
  sublist saved chapters.
Proof.
  induction 1; [constructor | apply sublist_skip | apply sublist_cons];
    assumption.
Qed.

End WorldFacts.

Lemma filter_sublist {A : Type} (q : A -> bool) (l : list A) :
  sublist (List.filter q l) l.
Proof.
  induction l as [|x l IH]; simpl; [constructor|].
  destruct (q x); [apply sublist_skip | apply sublist_cons]; exact IH.
Qed.

Lemma sublist_Forall_keep {A : Type} (P : A -> Prop) (l1 l2 : list A) :
  sublist l1 l2 -> Forall P l2 -> Forall P l1.
Proof.
  induction 1 as [|x l1 l2 _ IH|x l1 l2 _ IH]; intros H;
    [constructor| |]; inversion H; subst; auto.
Qed.

Lemma sublist_sorted {A : Type} (R : A -> A -> Prop) (l1 l2 : list A) :
  sublist l1 l2 -> StronglySorted R l2 -> StronglySorted R l1.
Proof.
  induction 1 as [|x l1 l2 Hs IH|x l1 l2 _ IH]; intros H;
    [constructor| |]; inversion H; subst; auto.
  constructor; [auto|]. eapply sublist_Forall_keep; eassumption.
Qed.

(** ** Claims about the commands *)

Lemma padStart_three_digits n :
  (0 <= n <= 999)%Z -> JsString.padStart 3 "0" (pretty n) = three_digits n.
Proof.
  intros Hn.
  assert (Hall :
    forallb (fun k => String.eqb (JsString.padStart 3 "0" (pretty (Z.of_nat k)))
                                 (three_digits (Z.of_nat k)))
            (seq 0 1000) = true) by (vm_compute; reflexivity).
  rewrite forallb_forall in Hall.
  specialize (Hall (Z.to_nat n)).
  rewrite Z2Nat.id in Hall by lia.
  apply String.eqb_eq, Hall, in_seq. lia.
Qed.

(** C7. The file of a chapter is named by the chapter id in three digits
    with leading zeros, a hyphen, the slug of the simple name and ".json",
    where the slug is the name in lower case with every run of
    non-alphanumeric characters replaced by one hyphen and the hyphens at
    both ends removed.  Chapter 1, "Al-Fatihah", gets "001-al-fatihah.json";
    the name of the file of chapter 114 starts with "114-". *)
Theorem output_filename_is_padded_id_and_slug chapter n name :
  member chapter "id" = Some (VNum n) ->
  member chapter "name_simple" = Some (VStr name) ->
  (0 <= n <= 999)%Z ->
  output_filename chapter = Ok (spec_filename n name) /\
  (n = 1%Z -> name = "Al-Fatihah"%string ->
   output_filename chapter = Ok "001-al-fatihah.json"%string) /\
  (n = 114%Z ->
   exists rest, output_filename chapter = Ok ("114-" +:+ rest)%string).
Proof.
  intros Hid Hname Hn.
  assert (Hf : output_filename chapter = Ok (spec_filename n name)).
  { unfold output_filename, spec_filename.
    apply get_prop_member in Hid, Hname. rewrite Hid, Hname. simpl.
    rewrite (padStart_three_digits n Hn), JsStringFacts.sanitize_is_slug.
    reflexivity. }
  split; [exact Hf|]. split.
  - intros -> ->. rewrite Hf. reflexivity.
  - intros ->. rewrite Hf. eexists. reflexivity.
Qed.

Lemma output_filename_is_padded_id_and_slug_witness :
  member sample_chapter "id" = Some (VNum 1) /\
  member sample_chapter "name_simple" = Some (VStr "Al-Fatihah") /\
  output_filename sample_chapter = Ok "001-al-fatihah.json"%string.
Proof.
  split; [reflexivity|]. split; [reflexivity|].
  refine (proj1 (output_filename_is_padded_id_and_slug
                   sample_chapter 1 "Al-Fatihah" eq_refl eq_refl _)).
  lia.
Defined.

Lemma in_interval_number E startFrom endAt c n :
  member c "id" = Some (VNum n) ->
  in_interval E startFrom endAt c
  = Ok ((startFrom <=? n)%Z && (n <=? endAt)%Z).
Proof.
  intros H. apply get_prop_member in H.
  unfold in_interval, js_ge, js_le. rewrite H. cbn [rbind to_number].
  destruct (startFrom <=? n)%Z; reflexivity.
Qed.

Lemma js_filter_entries p listing chapters :
  js_filter listing p = Ok chapters ->
  exists entries,
    listing = VArr entries /\
    chapters
    = List.filter (fun c => match p c with Ok b => b | Throw _ => false end)
                  entries.
Proof.
  destruct listing; try discriminate. simpl. intros H.
  eexists. split; [reflexivity|].
  eapply filterM_filter, H. intros x b ->. reflexivity.
Qed.

(** ** Claims about the whole merge *)

Lemma get_item_total v i : nullish v = false -> exists x, get_item v i = Ok x.
Proof. destruct v; simpl; try discriminate; eauto. Qed.

Lemma truthy_not_nullish v : truthy v = true -> nullish v = false.
Proof. destruct v; simpl; try discriminate; reflexivity. Qed.

Lemma build_words_total segment verse :
  (forall w, nullish w = false -> exists s, segment w = Ok s) ->
  nullish verse = false -> words_ready verse ->
  exists segs, build_words segment verse = Ok segs.
Proof.
  intros Hseg Hv (tokens & Htokens & Hall).
  unfold build_words. rewrite (get_prop_total _ _ Hv). cbn [rbind].
  rewrite Htokens. unfold js_filter.
  destruct (filterM_total is_word tokens) as [kept Hkept].
  { eapply Forall_impl; [exact Hall|]. intros w Hw. simpl in Hw.
    rewrite (is_word_total _ Hw). eauto. }
  rewrite Hkept. cbn [rbind]. apply mapM_total.
  apply (filterM_filter _ tagged) in Hkept; [|apply is_word_tagged].
  subst kept. apply Forall_forall. intros w Hw.
  apply list_elem_of_In, filter_In in Hw as [_ Hw].
  apply Hseg, tagged_not_nullish, Hw.
Qed.

Lemma get_item_lacking data vs i :
  lacks data i -> verses_of data = Ok vs -> get_item vs i = Ok VUndef.
Proof.
  intros [Habs|(entries & Harr & Hlen)] Hvs.
  - rewrite (verses_of_absent _ Habs) in Hvs. injection Hvs as <-.
    reflexivity.
  - rewrite (verses_of_array _ _ Harr) in Hvs. injection Hvs as <-.
    simpl. rewrite (lookup_ge_None_2 _ _ Hlen). reflexivity.
Qed.

Lemma build_words_no_field segment verse segs :
  member verse "words" = Some VUndef ->
  build_words segment verse = Ok segs -> segs = [].
Proof.
  intros Hw H. apply build_words_tokens in H.
  unfold word_tokens, opt_prop in H. rewrite Hw in H. simpl in H.
  inversion H. reflexivity.
Qed.

(** The merge succeeds on fragments of the expected shape. *)
Lemma buildAyahs_total stn f versesEn :
  verses_of (versesEnData f) = Ok (VArr versesEn) ->
  Forall primary_verse versesEn ->
  nullish (uthmaniData f) = false ->
  nullish (imlaeiData f) = false ->
  nullish (tajweedData f) = false ->
  nullish (versesIdData f) = false ->
  secondary_ready (versesIdData f) ->
  exists l, buildAyahs stn f = Ok l.
Proof.
  intros Hen Hprimary Hu Him Ht Hid Hready.
  unfold buildAyahs.
  rewrite Hen. cbn [rbind].
  destruct (verses_of_total _ Hid) as (vId & HvId & HnId).
  destruct (verses_of_total _ Hu) as (u & Hvu & Hnu).
  destruct (verses_of_total _ Him) as (im & Hvim & Hnim).
  destruct (verses_of_total _ Ht) as (t & Hvt & Hnt).
  rewrite HvId, Hvu, Hvim, Hvt. cbn [rbind].
  rewrite loop_count_array. cbn [rbind].
  rewrite ayah_loop_mapM.
  destruct (mapM_total (build_ayah (VArr versesEn) vId u im t)
              (seq 0 (length versesEn))) as [l Hl].
  - apply Forall_forall. intros i Hi.
    apply list_elem_of_In, in_seq in Hi. destruct Hi as [_ Hi]. simpl in Hi.
    destruct (lookup_lt_is_Some_2 versesEn i Hi) as [verseEn HverseEn].
    pose proof (proj1 (Forall_forall _ _) Hprimary verseEn
                  (list_elem_of_lookup_2 _ _ _ HverseEn))
      as (Hnn & Hwords & (entries & Hentries & Hall)).
    destruct (get_item_total vId i HnId) as [entryId HeId].
    destruct (get_item_total u i Hnu) as [uthmani Hgu].
    destruct (get_item_total im i Hnim) as [imlaei Hgim].
    destruct (get_item_total t i Hnt) as [tajweed Hgt].
    destruct (build_words_total word_en verseEn word_en_total Hnn Hwords)
      as [wordsEn HwEn].
    assert (exists wordsId,
              build_words word_id (js_or entryId verseEn) = Ok wordsId)
      as [wordsId HwId].
    { unfold js_or. destruct (truthy entryId) eqn:Htruthy.
      - apply (build_words_total word_id entryId word_id_total).
        + apply truthy_not_nullish, Htruthy.
        + eapply Hready; eassumption.
      - apply (build_words_total word_id verseEn word_id_total Hnn Hwords). }
    eexists. eapply build_ayah_total; try eassumption.
    simpl. rewrite HverseEn. reflexivity.
  - rewrite Hl. cbn [rbind]. eauto.
Qed.

Lemma buildSurahData_ayahs E baseUrl chapter w f w1 doc w2 :
  fetchFragments E baseUrl chapter w = (Ok f, w1) ->
  buildSurahData E baseUrl chapter w = (Ok doc, w2) ->
  buildAyahs (string_to_number E) f = Ok (ayahs doc).
Proof.
  intros Hf H. unfold buildSurahData in H.
  unfold bind at 1 in H. rewrite Hf in H.
  rewrite bind_lift in H.
  destruct (buildAyahs (string_to_number E) f) as [l|e]; [|discriminate].
  unfold bind, now, lift in H.
  destruct (buildDocument_total baseUrl chapter
              (toISOString E (requests w1) (elapsed w1)) l
              (fetchFragments_chapter _ _ _ _ _ _ Hf)) as (doc' & Hdoc & Hay).
  rewrite Hdoc in H. injection H as <- _. congruence.
Qed.

(** What the merge gives at an index of the primary array. *)
Lemma buildAyahs_at stn f l versesEn i a :
  buildAyahs stn f = Ok l ->
  verses_of (versesEnData f) = Ok (VArr versesEn) ->
  l !! i = Some a ->
  exists verseEn vId entryId u uthmani im imlaei t tajweed,
    versesEn !! i = Some verseEn /\
    verses_of (versesIdData f) = Ok vId /\ get_item vId i = Ok entryId /\
    verses_of (uthmaniData f) = Ok u /\ get_item u i = Ok uthmani /\
    verses_of (imlaeiData f) = Ok im /\ get_item im i = Ok imlaei /\
    verses_of (tajweedData f) = Ok t /\ get_item t i = Ok tajweed /\
    build_words word_en verseEn = Ok (words_en a) /\
    build_words word_id (js_or entryId verseEn) = Ok (words_id a) /\
    a = merged_ayah verseEn uthmani imlaei tajweed (words_en a) (words_id a).
Proof.
  intros H Hen Hi.
  pose proof (buildAyahs_length _ _ _ _ H Hen) as Hlen.
  destruct (buildAyahs_lookup _ _ _ _ _ H Hi)
    as (vEn & vId & u & im & t & HvEn & HvId & Hu & Him & Ht & Hb).
  rewrite Hen in HvEn. injection HvEn as <-.
  apply build_ayah_ok in Hb
    as (verseEn & entryId & uthmani & imlaei & tajweed & HgEn & HgId & Hgu
        & Hgim & Hgt & HwEn & HwId & Ha).
  assert (Hlt : i < length versesEn)
    by (rewrite <- Hlen; eapply lookup_lt_Some, Hi).
  destruct (lookup_lt_is_Some_2 versesEn i Hlt) as [v Hv].
  simpl in HgEn. rewrite Hv in HgEn. injection HgEn as <-.
  exists v, vId, entryId, u, uthmani, im, imlaei, t, tajweed.
  repeat (split; [assumption|]). exact Ha.
Qed.

(** C1. When the five requests of a chapter have been answered and the
    verses of the English response ([versesEn], that is
    [versesEnData.verses || []]) are well formed, [buildSurahData] returns
    a document, without throwing, whose ayahs are as many as [versesEn],
    whether or not the other four responses have a verse array and however
    short it is.  A response without the verse-array
    field counts as one with an empty array.  At an index where one of the
    Arabic responses has no verse, that text of the ayah is the empty
    string; where the Indonesian response has none, [words.id] is built from
    the English verse; a verse without a [words] field gives empty word
    lists. *)
Theorem ayahs_follow_the_english_response
  E baseUrl chapter w f w1 versesEn :
  fetchFragments E baseUrl chapter w = (Ok f, w1) ->
  verses_of (versesEnData f) = Ok (VArr versesEn) ->
  Forall primary_verse versesEn ->
  nullish (uthmaniData f) = false ->
  nullish (imlaeiData f) = false ->
  nullish (tajweedData f) = false ->
  nullish (versesIdData f) = false ->
  secondary_ready (versesIdData f) ->
  exists doc,
    buildSurahData E baseUrl chapter w = (Ok doc, w1) /\
    length (ayahs doc) = length versesEn /\
    total_ayahs (stats doc) = Z.of_nat (length versesEn) /\
    (forall data,
       member data "verses" = Some VUndef -> verses_of data = Ok (VArr [])) /\
    forall i a verseEn,
      ayahs doc !! i = Some a -> versesEn !! i = Some verseEn ->
      (lacks (uthmaniData f) i -> text_arabic_uthmani a = VStr "") /\
      (lacks (imlaeiData f) i -> text_arabic_simple a = VStr "") /\
      (lacks (tajweedData f) i -> text_arabic_tajweed a = VStr "") /\
      (lacks (versesIdData f) i ->
       build_words word_id verseEn = Ok (words_id a)) /\
      (member verseEn "words" = Some VUndef ->
       words_en a = [] /\ (lacks (versesIdData f) i -> words_id a = [])).
Proof.
  intros Hf Hen Hprimary Hu Him Ht Hid Hready.
  destruct (buildAyahs_total (string_to_number E) f versesEn
              Hen Hprimary Hu Him Ht Hid Hready) as [l Hl].
  destruct (buildSurahData_merged E _ _ _ _ _ _ Hf Hl) as (doc & Hdoc & Hay).
  pose proof (buildAyahs_length _ _ _ _ Hl Hen) as Hlen.
  exists doc. split; [exact Hdoc|]. rewrite Hay.
  split; [exact Hlen|]. split.
  { unfold buildSurahData, bind, lift, now in Hdoc. rewrite Hf, Hl in Hdoc.
    unfold buildDocument in Hdoc.
    rewrite !(get_prop_total _ _ (fetchFragments_chapter _ _ _ _ _ _ Hf))
      in Hdoc.
    cbn [rbind] in Hdoc. injection Hdoc as <-. simpl. congruence. }
  split; [exact verses_of_absent|].
  intros i a verseEn Hi Hv.
  destruct (buildAyahs_at _ _ _ _ _ _ Hl Hen Hi)
    as (verseEn' & vId & entryId & u & uthmani & im & imlaei & t & tajweed
        & Hv' & HvId & HgId & Hvu & Hgu & Hvim & Hgim & Hvt & Hgt & HwEn
        & HwId & Ha).
  rewrite Hv in Hv'. injection Hv' as <-.
  assert (Hfallback : lacks (versesIdData f) i ->
                      build_words word_id verseEn = Ok (words_id a)).
  { intros Hlack. rewrite (get_item_lacking _ _ _ Hlack HvId) in HgId.
    injection HgId as <-. exact HwId. }
  split; [|split; [|split; [|split; [exact Hfallback|]]]].
  - intros Hlack. rewrite (get_item_lacking _ _ _ Hlack Hvu) in Hgu.
    injection Hgu as <-. rewrite Ha. reflexivity.
  - intros Hlack. rewrite (get_item_lacking _ _ _ Hlack Hvim) in Hgim.
    injection Hgim as <-. rewrite Ha. reflexivity.
  - intros Hlack. rewrite (get_item_lacking _ _ _ Hlack Hvt) in Hgt.
    injection Hgt as <-. rewrite Ha. reflexivity.
  - intros Hnone. split.
    + eapply build_words_no_field; eassumption.
    + intros Hlack. eapply build_words_no_field; [exact Hnone|].
      apply Hfallback, Hlack.
Qed.

Lemma keyed_verse_primary key : primary_verse (keyed_verse key).
Proof.
  split; [reflexivity|].
  split; exists []; split; first [reflexivity | constructor].
Qed.

Lemma sample_secondary_ready : secondary_ready id_1.
Proof.
  intros vs i entry [= <-] Hget Htruthy.
  destruct i as [|i]; simpl in Hget; injection Hget as <-.
  - apply keyed_verse_primary.
  - discriminate.
Qed.

Lemma ayahs_follow_the_english_response_witness :
  fetchFragments (sample_env listing_123_json) sample_base
                 (chapter_value 1 "Al-Fatihah") start
  = (Ok sample_fragments,
     snd (fetchFragments (sample_env listing_123_json) sample_base
                         (chapter_value 1 "Al-Fatihah") start)) /\
  exists doc,
    fst (buildSurahData (sample_env listing_123_json) sample_base
                        (chapter_value 1 "Al-Fatihah") start) = Ok doc /\
    length (ayahs doc) = 2.
Proof.
  split; [vm_compute; reflexivity|].
  assert (Hprimary : Forall primary_verse
                            [keyed_verse "1:1"; keyed_verse "1:2"])
    by (repeat constructor; apply keyed_verse_primary).
  destruct (ayahs_follow_the_english_response
              (sample_env listing_123_json) sample_base
              (chapter_value 1 "Al-Fatihah") start sample_fragments
              (snd (fetchFragments (sample_env listing_123_json) sample_base
                                   (chapter_value 1 "Al-Fatihah") start))
              [keyed_verse "1:1"; keyed_verse "1:2"]
              eq_refl eq_refl
              Hprimary
              eq_refl eq_refl eq_refl eq_refl sample_secondary_ready)
    as (doc & Hdoc & Hlen & _).
  exists doc. rewrite Hdoc. split; [reflexivity|exact Hlen].
Defined.

(** C2, as the code has it.  The id, the verse number and the verse key of
    the ayah at a position are those of the verse at that position of the
    English response ([versesEn]), copied as they are; the ayahs are as many
    as these verses.  So the keys of the ayahs are the keys "chapter:n", n counting
    from 1, when those of the English response are; nothing is derived from
    the chapter id or from the position. *)
Theorem identity_is_copied_from_the_english_response
  E baseUrl chapter w f w1 doc w2 versesEn :
  fetchFragments E baseUrl chapter w = (Ok f, w1) ->
  buildSurahData E baseUrl chapter w = (Ok doc, w2) ->
  verses_of (versesEnData f) = Ok (VArr versesEn) ->
  length (ayahs doc) = length versesEn /\
  (forall i a,
     ayahs doc !! i = Some a ->
     exists verseEn,
       versesEn !! i = Some verseEn /\
       ayah_id a = opt_prop verseEn "id" /\
       verse_number a = opt_prop verseEn "verse_number" /\
       verse_key a = opt_prop verseEn "verse_key") /\
  (forall c,
     (forall i verseEn,
        versesEn !! i = Some verseEn ->
        opt_prop verseEn "verse_key" = canonical_key c i) ->
     forall i a, ayahs doc !! i = Some a -> verse_key a = canonical_key c i).
Proof.
  intros Hf Hdoc Hen.
  pose proof (buildSurahData_ayahs _ _ _ _ _ _ _ _ Hf Hdoc) as Hl.
  assert (Hcopy : forall i a,
     ayahs doc !! i = Some a ->
     exists verseEn,
       versesEn !! i = Some verseEn /\
       ayah_id a = opt_prop verseEn "id" /\
       verse_number a = opt_prop verseEn "verse_number" /\
       verse_key a = opt_prop verseEn "verse_key").
  { intros i a Hi.
    destruct (buildAyahs_at _ _ _ _ _ _ Hl Hen Hi)
      as (verseEn & vId & entryId & u & uthmani & im & imlaei & t & tajweed
          & Hv & _ & _ & _ & _ & _ & _ & _ & _ & _ & _ & Ha).
    exists verseEn. split; [exact Hv|]. rewrite Ha. repeat split. }
  split; [eapply buildAyahs_length; eassumption|].
  split; [exact Hcopy|].
  intros c Hkeys i a Hi.
  destruct (Hcopy i a Hi) as (verseEn & Hv & _ & _ & ->).
  apply Hkeys, Hv.
Qed.

Lemma identity_is_copied_from_the_english_response_witness :
  exists doc,
    fst (buildSurahData (sample_env listing_123_json) sample_base
                        (chapter_value 1 "Al-Fatihah") start) = Ok doc /\
    length (ayahs doc) = 2 /\
    forall i a, ayahs doc !! i = Some a -> verse_key a = canonical_key 1 i.
Proof.
  eexists. split; [vm_compute; reflexivity|].
  destruct (identity_is_copied_from_the_english_response
              (sample_env listing_123_json) sample_base
              (chapter_value 1 "Al-Fatihah") start sample_fragments
              _ _ _ [keyed_verse "1:1"; keyed_verse "1:2"]
              eq_refl eq_refl eq_refl) as (Hlen & _ & Hkeys).
  split; [exact Hlen|]. apply (Hkeys 1%Z).
  intros i verseEn Hv.
  destruct i as [|[|i]]; simpl in Hv; [| |discriminate];
    injection Hv as <-; reflexivity.
Defined.

(** The claim C2 fails as it is stated: the remote side answers the English
    request for chapter 3 with a verse whose key is "2:255", and that is the
    key of the ayah of chapter 3, not "3:1". *)
Lemma verse_key_is_not_rederived :
  exists doc,
    fst (buildSurahData (sample_env listing_123_json) sample_base
                        (chapter_value 3 "Ali 'Imran") start) = Ok doc /\
    map verse_key (ayahs doc) = [VStr "2:255"] /\
    map verse_key (ayahs doc) <> [canonical_key 3 0].
Proof.
  eexists. split; [vm_compute; reflexivity|].
  split; [reflexivity|]. vm_compute. discriminate.
Qed.

(* ====================================================================== *)
(** * Further properties of the code *)
(* ====================================================================== *)

(** ** Sanitized names *)

Module SlugFacts.
Import JsString.

Lemma replace_non_alnum_units s : all_units slug_unit (replace_non_alnum s) = true.
Proof.
  induction s as [|c s IH]; [reflexivity|].
  cbn [replace_non_alnum all_units]. rewrite IH, andb_true_r.
  unfold slug_unit. destruct (is_lower c || is_digit c) eqn:H.
  - rewrite H. reflexivity.
  - rewrite orb_true_r. reflexivity.
Qed.

Lemma collapse_hyphens_units p s :
  all_units p s = true -> all_units p (collapse_hyphens s) = true.
Proof.
  induction s as [|c s IH]; [reflexivity|].
  cbn [all_units]. intros [Hc Hs]%andb_true_iff.
  destruct s as [|d s]; [simpl; rewrite Hc; reflexivity|].
  change (collapse_hyphens (String c (String d s)))
    with (if is_hyphen c && is_hyphen d then collapse_hyphens (String d s)
          else String c (collapse_hyphens (String d s))).
  destruct (is_hyphen c && is_hyphen d); [auto|].
  cbn [all_units]. rewrite Hc. auto.
Qed.

Lemma strip_first_units p s :
  all_units p s = true -> all_units p (strip_first_hyphen s) = true.
Proof.
  destruct s as [|c s]; [reflexivity|]. cbn [all_units strip_first_hyphen].
  intros [Hc Hs]%andb_true_iff.
  destruct (is_hyphen c); [exact Hs|]. cbn [all_units]. rewrite Hc, Hs.
  reflexivity.
Qed.

Lemma strip_last_units p s :
  all_units p s = true -> all_units p (strip_last_hyphen s) = true.
Proof.
  induction s as [|c s IH]; [reflexivity|].
  cbn [all_units]. intros [Hc Hs]%andb_true_iff.
  destruct s as [|d s].
  - simpl. destruct (is_hyphen c); [reflexivity|]. simpl. rewrite Hc.
    reflexivity.
  - change (strip_last_hyphen (String c (String d s)))
      with (String c (strip_last_hyphen (String d s))).
    cbn [all_units]. rewrite Hc. auto.
Qed.

Lemma strip_first_no_lead s :
  single_hyphens s = true -> starts_with_hyphen (strip_first_hyphen s) = false.
Proof.
  destruct s as [|c s]; [reflexivity|]. cbn [strip_first_hyphen].
  destruct (is_hyphen c) eqn:Hc; [|intros _; simpl; exact Hc].
  destruct s as [|d s]; [reflexivity|].
  cbn [single_hyphens]. rewrite Hc. simpl.
  intros [Hd _]%andb_true_iff. apply negb_true_iff in Hd. exact Hd.
Qed.

Lemma strip_last_single s :
  single_hyphens s = true -> single_hyphens (strip_last_hyphen s) = true.
Proof.
  induction s as [|c s IH]; [reflexivity|].
  destruct s as [|d s].
  - intros _. simpl. destruct (is_hyphen c); reflexivity.
  - cbn [single_hyphens]. intros [Hcd Hs]%andb_true_iff.
    specialize (IH Hs).
    change (strip_last_hyphen (String c (String d s)))
      with (String c (strip_last_hyphen (String d s))).
    destruct s as [|e s].
    + cbn [strip_last_hyphen]. destruct (is_hyphen d) eqn:Hd; [reflexivity|].
      cbn [single_hyphens]. rewrite Hd, andb_false_r. reflexivity.
    + change (strip_last_hyphen (String d (String e s)))
        with (String d (strip_last_hyphen (String e s))) in *.
      cbn [single_hyphens]. cbn [single_hyphens] in IH.
      rewrite Hcd. exact IH.
Qed.

Lemma strip_last_lead s :
  starts_with_hyphen s = false ->
  starts_with_hyphen (strip_last_hyphen s) = false.
Proof.
  destruct s as [|c [|d s]]; [reflexivity| |].
  - cbn [starts_with_hyphen strip_last_hyphen]. intros H. rewrite H.
    exact H.
  - intros H. exact H.
Qed.

Lemma strip_last_no_trail s :
  single_hyphens s = true -> ends_with_hyphen (strip_last_hyphen s) = false.
Proof.
  induction s as [|c s IH]; [reflexivity|].
  destruct s as [|d s].
  - intros _. simpl. destruct (is_hyphen c) eqn:Hc; [reflexivity|].
    simpl. exact Hc.
  - cbn [single_hyphens]. intros [Hcd Hs]%andb_true_iff.
    specialize (IH Hs).
    change (strip_last_hyphen (String c (String d s)))
      with (String c (strip_last_hyphen (String d s))).
    destruct (strip_last_hyphen (String d s)) as [|e r] eqn:Hl.
    + apply JsStringFacts.strip_last_empty in Hl as [Hl|Hl]; [discriminate|].
      injection Hl as -> ->. simpl.
      apply negb_true_iff in Hcd. simpl in Hcd. rewrite andb_true_r in Hcd.
      exact Hcd.
    + exact IH.
Qed.

Lemma sanitize_shaped name : slug_shaped (sanitize name) = true.
Proof.
  unfold slug_shaped.
  assert (Hs : single_hyphens
                 (collapse_hyphens (replace_non_alnum (toLowerCase name)))
               = true).
  { destruct (JsStringFacts.collapse_replace_runs (toLowerCase name)
                (JsStringFacts.toLowerCase_no_upper name)) as [-> _].
    apply JsStringFacts.hyphenate_runs_single. }
  destruct (JsStringFacts.strip_first_is_trim _ Hs) as [_ Hs'].
  unfold sanitize, strip_edge_hyphens.
  rewrite strip_last_units
    by apply strip_first_units, collapse_hyphens_units,
       replace_non_alnum_units.
  rewrite (strip_last_single _ Hs').
  rewrite (strip_last_lead _ (strip_first_no_lead _ Hs)).
  rewrite (strip_last_no_trail _ Hs'). reflexivity.
Qed.

Lemma slug_unit_lower c : slug_unit c = true -> lower_char c = c.
Proof. revert c. intros [[] [] [] [] [] [] [] []]; vm_compute; congruence. Qed.

Lemma toLowerCase_units s : all_units slug_unit s = true -> toLowerCase s = s.
Proof.
  induction s as [|c s IH]; [reflexivity|].
  cbn [all_units toLowerCase]. intros [Hc Hs]%andb_true_iff.
  rewrite (slug_unit_lower c Hc), (IH Hs). reflexivity.
Qed.

Lemma slug_unit_replace c :
  slug_unit c = true -> (if is_lower c || is_digit c then c else hyphen) = c.
Proof.
  unfold slug_unit. destruct (is_lower c || is_digit c); [reflexivity|].
  simpl. intros H%Ascii.eqb_eq. congruence.
Qed.

Lemma replace_non_alnum_id s :
  all_units slug_unit s = true -> replace_non_alnum s = s.
Proof.
  induction s as [|c s IH]; [reflexivity|].
  cbn [all_units replace_non_alnum]. intros [Hc Hs]%andb_true_iff.
  rewrite (slug_unit_replace c Hc), (IH Hs). reflexivity.
Qed.

Lemma collapse_hyphens_id s : single_hyphens s = true -> collapse_hyphens s = s.
Proof.
  induction s as [|c s IH]; [reflexivity|].
  destruct s as [|d s]; [reflexivity|].
  cbn [single_hyphens]. intros [Hcd Hs]%andb_true_iff.
  apply negb_true_iff in Hcd.
  change (collapse_hyphens (String c (String d s)))
    with (if is_hyphen c && is_hyphen d then collapse_hyphens (String d s)
          else String c (collapse_hyphens (String d s))).
  rewrite Hcd, (IH Hs). reflexivity.
Qed.

Lemma strip_first_id s :
  starts_with_hyphen s = false -> strip_first_hyphen s = s.
Proof. destruct s as [|c s]; simpl; [reflexivity|]. intros ->. reflexivity. Qed.

Lemma strip_last_id s : ends_with_hyphen s = false -> strip_last_hyphen s = s.
Proof.
  induction s as [|c s IH]; [reflexivity|].
  destruct s as [|d s].
  - simpl. intros ->. reflexivity.
  - intros H.
    change (strip_last_hyphen (String c (String d s)))
      with (String c (strip_last_hyphen (String d s))).
    rewrite (IH H). reflexivity.
Qed.

Lemma sanitize_fixes_shaped s : slug_shaped s = true -> sanitize s = s.
Proof.
  unfold slug_shaped.
  intros [[[Hu Hs]%andb_true_iff Hl%negb_true_iff]%andb_true_iff
            Ht%negb_true_iff]%andb_true_iff.
  unfold sanitize, strip_edge_hyphens.
  rewrite (toLowerCase_units s Hu), (replace_non_alnum_id s Hu),
    (collapse_hyphens_id s Hs), (strip_first_id s Hl), (strip_last_id s Ht).
  reflexivity.
Qed.

End SlugFacts.

(** X1. Whatever the name, the sanitized name consists of lower-case ASCII
    letters, digits and hyphens only, has no hyphen at either end and no two
    hyphens side by side; so it holds no path separator, no dot and no
    blank.  A value that is not a string makes [sanitizeFilename] throw. *)
Theorem sanitizeFilename_shape name :
  match sanitizeFilename name with
  | Ok s => (exists n, name = VStr n) /\ slug_shaped s = true
  | Throw _ => forall n, name <> VStr n
  end.
Proof.
  destruct name; simpl; try discriminate.
  split; [eauto|]. apply SlugFacts.sanitize_shaped.
Qed.

(** X2. Sanitizing is idempotent, and the names it leaves as they are are
    exactly those of that shape. *)
Theorem sanitize_idempotent name :
  JsString.sanitize (JsString.sanitize name) = JsString.sanitize name /\
  (JsString.sanitize name = name <-> slug_shaped name = true).
Proof.
  split.
  - apply SlugFacts.sanitize_fixes_shaped, SlugFacts.sanitize_shaped.
  - split.
    + intros <-. apply SlugFacts.sanitize_shaped.
    + apply SlugFacts.sanitize_fixes_shaped.
Qed.

(** ** Requests and delays *)

Section CostFacts.

Context (E : Env).

Lemma costs_bind {A B : Type} n1 t1 n2 t2 (m : M A) (k : A -> M B) :
  costs n1 t1 m -> (forall a, costs n2 t2 (k a)) ->
  costs (n1 + n2) (t1 + t2) (bind m k).
Proof.
  intros Hm Hk w. unfold bind. specialize (Hm w).
  destruct (m w) as [[a|e] w1]; simpl in *.
  - specialize (Hk a w1). destruct (k a w1) as [r w2]; simpl in *.
    destruct Hm as (Hr & He & Hok). destruct (Hok eq_refl) as [Hq1 Hq2].
    destruct Hk as (Hr2 & He2 & Hok2).
    split; [lia|]. split; [lia|]. intros H. destruct (Hok2 H). lia.
  - destruct Hm as (Hr & He & _). split; [lia|]. split; [lia|discriminate].
Qed.

Lemma costs_as {A : Type} n t n' t' (m : M A) :
  costs n t m -> n = n' -> t = t' -> costs n' t' m.
Proof. intros H <- <-. exact H. Qed.

Lemma costs_nothing {A : Type} (m : M A) :
  (forall w, requests (snd (m w)) = requests w /\
             elapsed (snd (m w)) = elapsed w) ->
  costs 0 0 m.
Proof. intros H w. destruct (H w) as [-> ->]. repeat split; lia. Qed.

Lemma costs_ret {A : Type} (a : A) : costs 0 0 (ret a).
Proof. apply costs_nothing. intros w. split; reflexivity. Qed.

Lemma costs_lift {A : Type} (r : result A) : costs 0 0 (lift r).
Proof. apply costs_nothing. intros w. split; reflexivity. Qed.

Lemma costs_console_log line : costs 0 0 (console_log line).
Proof. apply costs_nothing. intros w. split; reflexivity. Qed.

Lemma costs_colorLog color msg : costs 0 0 (colorLog color msg).
Proof. apply costs_nothing. intros w. split; reflexivity. Qed.

Lemma costs_now : costs 0 0 (now E).
Proof. apply costs_nothing. intros w. split; reflexivity. Qed.

Lemma costs_writeFileSync path content : costs 0 0 (writeFileSync E path content).
Proof.
  apply costs_nothing. intros w. unfold writeFileSync.
  destruct (write_failure E (files w) path); split; reflexivity.
Qed.

Lemma costs_sleep ms : costs 0 ms (sleep ms).
Proof. intros w. simpl. repeat split; lia. Qed.

Lemma costs_fetchJSON url : costs 1 0 (fetchJSON E url).
Proof. intros w. simpl. repeat split; lia. Qed.

(** A computation that always throws costs whatever one likes. *)
Lemma costs_failing {A : Type} n t (m : M A) :
  costs 0 0 m -> (forall w, is_ok (fst (m w)) = false) -> costs n t m.
Proof.
  intros H Hf w. destruct (H w) as (Hr & He & _).
  split; [lia|]. split; [lia|]. rewrite Hf. discriminate.
Qed.

Ltac costs_step :=
  first [ apply costs_ret | apply costs_lift | apply costs_console_log
        | apply costs_colorLog | apply costs_now | apply costs_sleep
        | apply costs_fetchJSON | apply costs_writeFileSync
        | eapply costs_bind; [|intros ?] ].

Ltac costs_sum := eapply costs_as; [repeat costs_step|reflexivity..].

Lemma costs_printHeader title : costs 0 0 (printHeader title).
Proof. unfold printHeader. costs_sum. Qed.

Lemma costs_fetchChapters baseUrl : costs 1 0 (fetchChapters E baseUrl).
Proof. unfold fetchChapters. costs_sum. Qed.

Lemma costs_fetchFragments baseUrl chapter :
  costs 5 500 (fetchFragments E baseUrl chapter).
Proof.
  unfold fetchFragments, fetchUthmaniText, fetchImlaeiText,
    fetchUthmaniTajweedText, fetchVersesWithWords.
  costs_sum.
Qed.

Lemma costs_buildSurahData baseUrl chapter :
  costs 5 500 (buildSurahData E baseUrl chapter).
Proof.
  unfold buildSurahData.
  eapply costs_as;
    [eapply costs_bind; [apply costs_fetchFragments|intros ?];
     repeat costs_step|reflexivity..].
Qed.

Lemma costs_download_chapter baseUrl outputDir c :
  costs 5 1000 (download_chapter E baseUrl outputDir c).
Proof.
  unfold download_chapter.
  eapply costs_as;
    [do 4 (eapply costs_bind; [costs_step|intros ?]);
     eapply costs_bind; [apply costs_buildSurahData|intros ?];
     repeat costs_step|reflexivity..].
Qed.

Lemma batch_costs baseUrl outputDir chapters w w' saved failed :
  Batch E baseUrl outputDir chapters w w' saved failed ->
  requests w + 5 * length saved <= requests w' <=
    requests w + 5 * length chapters /\
  elapsed w + 1000 * length saved <= elapsed w'.
Proof.
  induction 1 as [w|c rest w w1 w' saved failed Hd _ IH
                  |c rest w e w1 w' saved failed Hd _ IH]; simpl.
  - lia.
  - pose proof (costs_download_chapter baseUrl outputDir c w) as (_ & _ & Hok).
    rewrite Hd in Hok. simpl in Hok. destruct (Hok eq_refl). lia.
  - pose proof (costs_download_chapter baseUrl outputDir c w) as (Hr & He & _).
    rewrite Hd in Hr, He. simpl in *. lia.
Qed.

Lemma bind_printHeader_world {B : Type} title (k : unit -> M B) w :
  exists w1,
    bind (printHeader title) k w = k tt w1 /\
    requests w1 = requests w /\ elapsed w1 = elapsed w /\
    files w1 = files w.
Proof. eexists. repeat split. Qed.

(** The ranged download, taken apart: the listing, the heading, the batch
    and the closing line. *)
Lemma downloadAllSurahs_parts baseUrl outputDir startFrom endAt
  w data w1 listing chapters :
  fetchChapters E baseUrl w = (Ok data, w1) ->
  get_prop data "chapters" = Ok listing ->
  js_filter listing (in_interval E startFrom endAt) = Ok chapters ->
  exists w2 w3 saved failed,
    requests w2 = requests w1 /\ elapsed w2 = elapsed w1 /\
    files w2 = files w1 /\
    Batch E baseUrl outputDir chapters w2 w3 saved failed /\
    downloadAllSurahs E baseUrl outputDir startFrom endAt w
    = (Ok tt,
       printed (COLORS.code COLORS.green +:+ (newline +:+ "✓ Download complete!")
                +:+ COLORS.code COLORS.reset) w3).
Proof.
  intros Hfetch Hlisting Hfilter.
  unfold downloadAllSurahs.
  unfold bind at 1. rewrite Hfetch.
  rewrite bind_lift, Hlisting, bind_lift, Hfilter.
  match goal with
  | |- context [bind (printHeader ?title) ?k ?w0] =>
      destruct (bind_printHeader_world title k w0)
        as (wh & -> & Hhr & Hhe & Hhf)
  end.
  rewrite !bind_console_log.
  match goal with
  | |- context [bind (for_each chapters ?body) ?k ?w0] =>
      destruct (batch_runs E baseUrl outputDir chapters w0)
        as (w3 & saved & failed & Hrun & Hbatch);
      unfold bind at 1; rewrite Hrun; exists w0, w3, saved, failed
  end.
  repeat (split; [first [exact Hbatch | simpl; congruence]|]). reflexivity.
Qed.

End CostFacts.

(** X3. Building the document of a chapter sends at most five requests and
    sleeps at most 500 milliseconds, writes no file, and has sent exactly
    five requests and slept exactly 500 milliseconds whenever it returns a
    document: no request is repeated. *)
Theorem buildSurahData_costs E baseUrl chapter w :
  files (snd (buildSurahData E baseUrl chapter w)) = files w /\
  requests w <= requests (snd (buildSurahData E baseUrl chapter w))
    <= requests w + 5 /\
  elapsed w <= elapsed (snd (buildSurahData E baseUrl chapter w))
    <= elapsed w + 500 /\
  (is_ok (fst (buildSurahData E baseUrl chapter w)) = true ->
   requests (snd (buildSurahData E baseUrl chapter w)) = requests w + 5 /\
   elapsed (snd (buildSurahData E baseUrl chapter w)) = elapsed w + 500).
Proof.
  split; [apply keeps_buildSurahData|]. apply costs_buildSurahData.
Qed.

Lemma bind_okay {A B : Type} (m : M A) (k : A -> M B) w a w1 :
  m w = (Ok a, w1) -> bind m k w = k a w1.
Proof. intros H. unfold bind. rewrite H. reflexivity. Qed.

Lemma bind_sleep {B : Type} ms (k : unit -> M B) w :
  bind (sleep ms) k w = k tt (slept ms w).
Proof. reflexivity. Qed.

Lemma fetchUthmaniText_ok E baseUrl cid n w v :
  to_string cid = Ok n ->
  answer E (requests w) (uthmani_url baseUrl n) = Ok v ->
  fetchUthmaniText E baseUrl cid w = (Ok v, sent w).
Proof.
  intros Hn Hv. unfold fetchUthmaniText. rewrite bind_lift, Hn.
  unfold fetchJSON. unfold answer, uthmani_url in Hv. rewrite Hv. reflexivity.
Qed.

Lemma fetchImlaeiText_ok E baseUrl cid n w v :
  to_string cid = Ok n ->
  answer E (requests w) (imlaei_url baseUrl n) = Ok v ->
  fetchImlaeiText E baseUrl cid w = (Ok v, sent w).
Proof.
  intros Hn Hv. unfold fetchImlaeiText. rewrite bind_lift, Hn.
  unfold fetchJSON. unfold answer, imlaei_url in Hv. rewrite Hv. reflexivity.
Qed.

Lemma fetchUthmaniTajweedText_ok E baseUrl cid n w v :
  to_string cid = Ok n ->
  answer E (requests w) (tajweed_url baseUrl n) = Ok v ->
  fetchUthmaniTajweedText E baseUrl cid w = (Ok v, sent w).
Proof.
  intros Hn Hv. unfold fetchUthmaniTajweedText. rewrite bind_lift, Hn.
  unfold fetchJSON. unfold answer, tajweed_url in Hv. rewrite Hv. reflexivity.
Qed.

Lemma fetchVersesWithWords_ok E baseUrl cid n lang w v :
  to_string cid = Ok n ->
  answer E (requests w) (verses_url baseUrl n lang) = Ok v ->
  fetchVersesWithWords E baseUrl cid lang
    [TRANSLATION_IDS.english; TRANSLATION_IDS.indonesian] w
  = (Ok v, sent w).
Proof.
  intros Hn Hv. unfold fetchVersesWithWords. rewrite bind_lift, Hn.
  change (join_ids [TRANSLATION_IDS.english; TRANSLATION_IDS.indonesian])
    with "20,33"%string.
  unfold fetchJSON. unfold answer, verses_url in Hv. rewrite Hv. reflexivity.
Qed.

(** X4. The five requests for a chapter go, in this order, to the Uthmani,
    the Imlaei and the Tajweed text and to the verses with words in English
    and in Indonesian, each with the chapter id in its address; they are
    consecutive requests of the run, and when all five are answered with
    JSON the fragments are the five parsed answers. *)
Theorem fetchFragments_requests E baseUrl chapter w cid n v0 v1 v2 v3 v4 :
  get_prop chapter "id" = Ok cid ->
  to_string cid = Ok n ->
  answer E (requests w) (uthmani_url baseUrl n) = Ok v0 ->
  answer E (requests w + 1) (imlaei_url baseUrl n) = Ok v1 ->
  answer E (requests w + 2) (tajweed_url baseUrl n) = Ok v2 ->
  answer E (requests w + 3) (verses_url baseUrl n "en") = Ok v3 ->
  answer E (requests w + 4) (verses_url baseUrl n "id") = Ok v4 ->
  fst (fetchFragments E baseUrl chapter w)
  = Ok {| uthmaniData := v0; imlaeiData := v1; tajweedData := v2;
          versesEnData := v3; versesIdData := v4 |}.
Proof.
  intros Hid Hn H0 H1 H2 H3 H4.
  replace (requests w + 1) with (S (requests w)) in H1 by lia.
  replace (requests w + 2) with (S (S (requests w))) in H2 by lia.
  replace (requests w + 3) with (S (S (S (requests w)))) in H3 by lia.
  replace (requests w + 4) with (S (S (S (S (requests w))))) in H4 by lia.
  unfold fetchFragments.
  rewrite bind_lift, Hid, bind_colorLog.
  match goal with
  | |- context [bind (fetchUthmaniText E baseUrl cid) ?k ?w0] =>
      rewrite (bind_okay _ k w0 _ _
                 (fetchUthmaniText_ok E baseUrl cid n w0 v0 Hn H0))
  end.
  rewrite bind_sleep, bind_colorLog.
  match goal with
  | |- context [bind (fetchImlaeiText E baseUrl cid) ?k ?w0] =>
      rewrite (bind_okay _ k w0 _ _
                 (fetchImlaeiText_ok E baseUrl cid n w0 v1 Hn H1))
  end.
  rewrite bind_sleep, bind_colorLog.
  match goal with
  | |- context [bind (fetchUthmaniTajweedText E baseUrl cid) ?k ?w0] =>
      rewrite (bind_okay _ k w0 _ _
                 (fetchUthmaniTajweedText_ok E baseUrl cid n w0 v2 Hn H2))
  end.
  rewrite bind_sleep, bind_colorLog.
  match goal with
  | |- context [bind (fetchVersesWithWords E baseUrl cid "en" ?ids) ?k ?w0] =>
      rewrite (bind_okay _ k w0 _ _
                 (fetchVersesWithWords_ok E baseUrl cid n "en" w0 v3 Hn H3))
  end.
  rewrite bind_sleep, bind_colorLog.
  match goal with
  | |- context [bind (fetchVersesWithWords E baseUrl cid "id" ?ids) ?k ?w0] =>
      rewrite (bind_okay _ k w0 _ _
                 (fetchVersesWithWords_ok E baseUrl cid n "id" w0 v4 Hn H4))
  end.
  rewrite bind_sleep. reflexivity.
Qed.

Lemma fetchFragments_requests_witness :
  fst (fetchFragments (sample_env listing_123_json) sample_base
                      (chapter_value 1 "Al-Fatihah") start)
  = Ok sample_fragments.
Proof.
  exact (fetchFragments_requests
           (sample_env listing_123_json) sample_base
           (chapter_value 1 "Al-Fatihah") start (VNum 1) "1"
           (VObj ∅) (VObj ∅) (VObj ∅) en_1 id_1
           eq_refl eq_refl eq_refl eq_refl eq_refl eq_refl eq_refl).
Defined.

Lemma downloadAllSurahs_account E baseUrl outputDir startFrom endAt
  w data w1 listing chapters :
  fetchChapters E baseUrl w = (Ok data, w1) ->
  get_prop data "chapters" = Ok listing ->
  js_filter listing (in_interval E startFrom endAt) = Ok chapters ->
  exists w' outs,
    downloadAllSurahs E baseUrl outputDir startFrom endAt w = (Ok tt, w') /\
    files w' = files w ++ outs /\
    requests w + 1 + 5 * length outs <= requests w' <=
      requests w + 1 + 5 * length chapters /\
    elapsed w + 1000 * length outs <= elapsed w'.
Proof.
  intros Hfetch Hlisting Hfilter.
  destruct (downloadAllSurahs_parts E baseUrl outputDir startFrom endAt
              w data w1 listing chapters Hfetch Hlisting Hfilter)
    as (w2 & w3 & saved & failed & Hr & He & Hf & Hbatch & ->).
  destruct (batch_files E _ _ _ _ _ _ _ Hbatch) as (outs & Hfiles & Hall).
  destruct (batch_costs E _ _ _ _ _ _ _ Hbatch) as (Hreq & Hel).
  apply Forall2_length in Hall. rewrite Hall in Hreq, Hel.
  pose proof (costs_fetchChapters E baseUrl w) as (_ & _ & Hok).
  pose proof (keeps_fetchChapters E baseUrl w) as Hk.
  rewrite Hfetch in Hok, Hk. simpl in Hok, Hk.
  destruct (Hok eq_refl) as [Hr1 He1].
  eexists. exists outs. split; [reflexivity|]. simpl.
  split; [congruence|]. lia.
Qed.


(** X5. A ranged download sends one request for the listing and at most
    five for each chapter of the range, exactly five for each chapter it
    saves, and waits a full second for each chapter it saves (five times
    100 milliseconds between the requests and 500 after the write). *)
Theorem downloadAllSurahs_costs E baseUrl outputDir startFrom endAt
  w data w1 listing chapters :
  fetchChapters E baseUrl w = (Ok data, w1) ->
  get_prop data "chapters" = Ok listing ->
  js_filter listing (in_interval E startFrom endAt) = Ok chapters ->
  exists w' outs,
    downloadAllSurahs E baseUrl outputDir startFrom endAt w = (Ok tt, w') /\
    files w' = files w ++ outs /\
    requests w + 1 + 5 * length outs <= requests w' <=
      requests w + 1 + 5 * length chapters /\
    elapsed w + 1000 * length outs <= elapsed w'.
Proof. apply downloadAllSurahs_account. Qed.

Lemma downloadAllSurahs_costs_witness :
  exists w',
    downloadAllSurahs (sample_env listing_123_json) sample_base "data" 1 114
                      start = (Ok tt, w') /\
    length (files w') = 2 /\
    11 <= requests w' <= 16 /\ 2000 <= elapsed w'.
Proof.
  destruct (downloadAllSurahs_costs
              (sample_env listing_123_json) sample_base "data" 1 114 start
              listing_123
              (snd (fetchChapters (sample_env listing_123_json) sample_base
                                  start))
              (VArr [chapter_value 1 "Al-Fatihah";
                     chapter_value 2 "Al-Baqarah";
                     chapter_value 3 "Ali 'Imran"])
              [chapter_value 1 "Al-Fatihah"; chapter_value 2 "Al-Baqarah";
               chapter_value 3 "Ali 'Imran"]
              eq_refl eq_refl eq_refl)
    as (w' & outs & Hrun & Hfiles & Hreq & Hel).
  exists w'. split; [exact Hrun|].
  assert (Hw' : w' = snd (downloadAllSurahs (sample_env listing_123_json)
                            sample_base "data" 1 114 start))
    by (rewrite Hrun; reflexivity).
  assert (Hlen : length (files w') = 2)
    by (rewrite Hw'; vm_compute; reflexivity).
  split; [exact Hlen|].
  rewrite Hfiles in Hlen. simpl in *. lia.
Defined.

Lemma in_interval_bounds E startFrom endAt c :
  in_interval E startFrom endAt c = Ok true -> (startFrom <= endAt)%Z.
Proof.
  unfold in_interval, js_ge, js_le. intros H.
  apply rbind_ok in H as (c_id & Hid & H).
  apply rbind_ok in H as (above & Habove & H).
  apply rbind_ok in Habove as (m & Hm & Habove). injection Habove as <-.
  destruct m as [z|]; [|discriminate].
  destruct (startFrom <=? z)%Z eqn:Hlo; [|discriminate].
  apply rbind_ok in H as (c_id' & Hid' & H).
  apply rbind_ok in H as (m' & Hm' & H). injection H as H.
  assert (c_id' = c_id) as -> by congruence.
  assert (m' = Some z) as -> by congruence.
  apply Z.leb_le in Hlo, H. lia.
Qed.

(** X6. When the start of the range lies above its end, nothing is
    downloaded: the listing is the only request and no file is written. *)
Theorem empty_range_downloads_nothing E baseUrl outputDir startFrom endAt
  w data w1 listing chapters :
  fetchChapters E baseUrl w = (Ok data, w1) ->
  get_prop data "chapters" = Ok listing ->
  js_filter listing (in_interval E startFrom endAt) = Ok chapters ->
  (endAt < startFrom)%Z ->
  chapters = [] /\
  exists w',
    downloadAllSurahs E baseUrl outputDir startFrom endAt w = (Ok tt, w') /\
    files w' = files w /\ requests w' = requests w + 1.
Proof.
  intros Hfetch Hlisting Hfilter Hlt.
  assert (Hnil : chapters = []).
  { destruct (js_filter_entries _ _ _ Hfilter) as (entries & _ & ->).
    clear Hfilter. induction entries as [|c entries IH]; [reflexivity|]. simpl.
    destruct (in_interval E startFrom endAt c) as [[]|] eqn:Hc;
      [|exact IH..].
    apply in_interval_bounds in Hc. lia. }
  split; [exact Hnil|].
  destruct (downloadAllSurahs_account E baseUrl outputDir startFrom endAt
              w data w1 listing chapters Hfetch Hlisting Hfilter)
    as (w' & outs & Hrun & Hfiles & Hreq & _).
  exists w'. split; [exact Hrun|].
  rewrite Hnil in Hreq. simpl in Hreq.
  assert (outs = []) as -> by (destruct outs; [reflexivity|simpl in Hreq; lia]).
  rewrite app_nil_r in Hfiles. simpl in Hreq. split; [exact Hfiles|lia].
Qed.

Lemma empty_range_downloads_nothing_witness :
  exists w',
    downloadAllSurahs (sample_env listing_123_json) sample_base "data" 3 1
                      start = (Ok tt, w') /\
    files w' = [] /\ requests w' = 1.
Proof.
  destruct (empty_range_downloads_nothing
              (sample_env listing_123_json) sample_base "data" 3 1 start
              listing_123
              (snd (fetchChapters (sample_env listing_123_json) sample_base
                                  start))
              (VArr [chapter_value 1 "Al-Fatihah";
                     chapter_value 2 "Al-Baqarah";
                     chapter_value 3 "Ali 'Imran"])
              [] eq_refl eq_refl eq_refl eq_refl)
    as (_ & w' & Hrun & Hfiles & Hreq).
  exists w'. split; [exact Hrun|]. split; [exact Hfiles|exact Hreq].
Defined.

Lemma is_number_eq n v : is_number n v = true <-> v = VNum n.
Proof.
  destruct v; simpl; split; try discriminate; intros H.
  - apply Z.eqb_eq in H. congruence.
  - injection H as ->. apply Z.eqb_refl.
Qed.

Lemma findM_none {A : Type} (p : A -> result bool) l :
  Forall (fun x => p x = Ok false) l -> findM p l = Ok None.
Proof.
  induction 1 as [|x l Hx _ IH]; [reflexivity|].
  simpl. rewrite Hx. exact IH.
Qed.

Lemma fetchChapters_world E baseUrl w :
  snd (fetchChapters E baseUrl w)
  = sent (printed (COLORS.code COLORS.dim +:+ "  → Fetching chapters list..."
                   +:+ COLORS.code COLORS.reset) w).
Proof. reflexivity. Qed.

(** Up to 2^53 a number is printed as its decimal numeral. *)
Lemma number_text_exact E n :
  (Z.abs n <= 2 ^ 53)%Z -> number_text E n = pretty n.
Proof.
  intros H. unfold number_text. apply Z.leb_le in H. rewrite H. reflexivity.
Qed.

(** X7. Asked for an id that no chapter of the listing has as its number
    (a chapter whose id is the string "5" does not have the number 5), the
    single download fails with "Surah with ID ... not found" after the one
    request for the listing, and writes no file.  The id is an integer that
    a number of the language holds exactly, so that the message shows its
    decimal numeral. *)
Theorem downloadSurah_not_found E baseUrl outputDir surahId w data w1 entries :
  (Z.abs surahId <= 2 ^ 53)%Z ->
  fetchChapters E baseUrl w = (Ok data, w1) ->
  get_prop data "chapters" = Ok (VArr entries) ->
  Forall (fun c => nullish c = false) entries ->
  Forall (fun c => opt_prop c "id" <> VNum surahId) entries ->
  downloadSurah E baseUrl outputDir surahId w
  = (Throw (Error ("Surah with ID " +:+ pretty surahId +:+ " not found")), w1)
  /\ files w1 = files w /\ requests w1 = requests w + 1.
Proof.
  intros Hexact Hfetch Hlisting Hnn Hids.
  assert (Htext : number_text E surahId = pretty surahId).
  { apply number_text_exact. exact Hexact. }
  pose proof (fetchChapters_world E baseUrl w) as Hw.
  rewrite Hfetch in Hw. simpl in Hw.
  split; [|subst w1; simpl; split; [reflexivity|lia]].
  unfold downloadSurah.
  rewrite (bind_okay _ _ _ _ _ Hfetch), bind_lift, Hlisting, bind_lift.
  rewrite Htext.
  unfold js_find. rewrite findM_none; [reflexivity|].
  apply Forall_forall. intros c Hc.
  rewrite (get_prop_total _ _ (proj1 (Forall_forall _ _) Hnn c Hc)).
  cbn [rbind]. f_equal.
  destruct (is_number surahId (opt_prop c "id")) eqn:Hn; [|reflexivity].
  apply is_number_eq in Hn.
  destruct (proj1 (Forall_forall _ _) Hids c Hc Hn).
Qed.

Lemma downloadSurah_not_found_witness :
  fst (downloadSurah (sample_env listing_123_json) sample_base "data" 115 start)
  = Throw (Error "Surah with ID 115 not found") /\
  files (snd (downloadSurah (sample_env listing_123_json) sample_base "data"
                            115 start)) = [].
Proof.
  assert (Hnn : Forall (fun c => nullish c = false)
                       [chapter_value 1 "Al-Fatihah";
                        chapter_value 2 "Al-Baqarah";
                        chapter_value 3 "Ali 'Imran"])
    by (repeat constructor).
  assert (Hids : Forall (fun c => opt_prop c "id" <> VNum 115)
                        [chapter_value 1 "Al-Fatihah";
                         chapter_value 2 "Al-Baqarah";
                         chapter_value 3 "Ali 'Imran"])
    by (repeat constructor; discriminate).
  destruct (downloadSurah_not_found
              (sample_env listing_123_json) sample_base "data" 115 start
              listing_123
              (snd (fetchChapters (sample_env listing_123_json) sample_base
                                  start))
              _ ltac:(cbn; lia) eq_refl eq_refl Hnn Hids)
    as (Hrun & Hfiles & _).
  rewrite Hrun. split; [reflexivity|exact Hfiles].
Defined.



(** ** The document *)

Lemma count_words_from lang l acc :
  fold_left (fun sum a => (sum + Z.of_nat (length (lang a : list WordSegment)))%Z)
            l acc
  = (acc + Z.of_nat (length (all_words lang l)))%Z.
Proof.
  revert acc. induction l as [|a l IH]; intros acc; simpl.
  - lia.
  - rewrite IH. unfold all_words. simpl. rewrite length_app. lia.
Qed.

Lemma count_words_all lang l :
  count_words lang l = Z.of_nat (length (all_words lang l)).
Proof. unfold count_words. rewrite count_words_from. lia. Qed.

Lemma buildDocument_stats baseUrl chapter stamp l doc :
  buildDocument baseUrl chapter stamp l = Ok doc ->
  ayahs doc = l /\
  stats doc = {| total_ayahs := Z.of_nat (length l);
                 total_words_en := count_words words_en l;
                 total_words_id := count_words words_id l |} /\
  base_url (meta doc) = baseUrl /\ downloaded_at (meta doc) = stamp /\
  surah_id (surah doc) = opt_prop chapter "id" /\
  name_simple (surah doc) = opt_prop chapter "name_simple".
Proof.
  unfold buildDocument. intros H.
  apply rbind_ok in H as (c_id & Hid & H).
  apply rbind_ok in H as (c_simple & Hsimple & H).
  repeat (apply rbind_ok in H as (? & _ & H)).
  injection H as <-. simpl.
  apply get_prop_opt in Hid, Hsimple. subst. repeat split.
Qed.

Lemma buildSurahData_ok E baseUrl chapter w doc w' :
  buildSurahData E baseUrl chapter w = (Ok doc, w') ->
  exists f l,
    fetchFragments E baseUrl chapter w = (Ok f, w') /\
    buildAyahs (string_to_number E) f = Ok l /\
    buildDocument baseUrl chapter (toISOString E (requests w') (elapsed w')) l
    = Ok doc.
Proof.
  unfold buildSurahData. intros H.
  apply bind_ok in H as (f & w1 & Hf & H).
  rewrite bind_lift in H.
  destruct (buildAyahs (string_to_number E) f) as [l|e] eqn:Hl;
    [|discriminate].
  unfold bind, now, lift in H.
  destruct (buildDocument baseUrl chapter _ l) as [doc'|e] eqn:Hdoc;
    [|discriminate].
  injection H as <- <-. exists f, l. auto.
Qed.

(** X9. The statistics of a document that [buildSurahData] returns count
    the document itself: the number of its ayahs and, for each of the two
    languages, the number of word segments of all its ayahs together. *)
Theorem stats_count_the_document E baseUrl chapter w doc w' :
  buildSurahData E baseUrl chapter w = (Ok doc, w') ->
  total_ayahs (stats doc) = Z.of_nat (length (ayahs doc)) /\
  total_words_en (stats doc)
  = Z.of_nat (length (all_words words_en (ayahs doc))) /\
  total_words_id (stats doc)
  = Z.of_nat (length (all_words words_id (ayahs doc))).
Proof.
  intros H. apply buildSurahData_ok in H as (f & l & _ & _ & H).
  apply buildDocument_stats in H as (-> & -> & _). simpl.
  rewrite !count_words_all. auto.
Qed.

Lemma stats_count_the_document_witness :
  exists doc,
    fst (buildSurahData (sample_env listing_123_json) sample_base
                        (chapter_value 1 "Al-Fatihah") start) = Ok doc /\
    total_ayahs (stats doc) = 2%Z /\ total_words_en (stats doc) = 0%Z.
Proof.
  eexists. split; [vm_compute; reflexivity|].
  destruct (stats_count_the_document
              (sample_env listing_123_json) sample_base
              (chapter_value 1 "Al-Fatihah") start _
              (snd (buildSurahData (sample_env listing_123_json) sample_base
                                   (chapter_value 1 "Al-Fatihah") start))
              eq_refl) as (Hn & Hen & _).
  split; [exact Hn|exact Hen].
Defined.

(** X10. One [null] among the verses of the English response makes the
    whole merge throw: the chapter gets no document, not a shorter one. *)
Theorem null_verse_aborts_chapter E baseUrl chapter w f w1 versesEn i v :
  fetchFragments E baseUrl chapter w = (Ok f, w1) ->
  verses_of (versesEnData f) = Ok (VArr versesEn) ->
  versesEn !! i = Some v ->
  nullish v = true ->
  exists e, buildSurahData E baseUrl chapter w = (Throw e, w1).
Proof.
  intros Hf Hen Hv Hnull.
  destruct (buildAyahs (string_to_number E) f) as [l|e] eqn:Hl.
  - pose proof (buildAyahs_length _ _ _ _ Hl Hen) as Hlen.
    assert (Hlt : i < length l)
      by (rewrite Hlen; eapply lookup_lt_Some, Hv).
    destruct (lookup_lt_is_Some_2 l i Hlt) as [a Ha].
    destruct (buildAyahs_at _ _ _ _ _ _ Hl Hen Ha)
      as (v' & vId & entryId & u & uthmani & im & imlaei & t & tajweed
          & Hv' & _ & _ & _ & _ & _ & _ & _ & _ & HwEn & _).
    rewrite Hv in Hv'. injection Hv' as <-.
    apply build_words_not_nullish in HwEn. congruence.
  - exists e. eapply buildSurahData_merge_fails; eassumption.
Qed.

Lemma null_verse_aborts_chapter_witness :
  is_ok (fst (buildSurahData null_verse_env sample_base
                             (chapter_value 1 "Al-Fatihah") start)) = false.
Proof.
  destruct (null_verse_aborts_chapter
              null_verse_env sample_base (chapter_value 1 "Al-Fatihah") start
              {| uthmaniData := obj [("verses", VArr [VNull])];
                 imlaeiData := obj [("verses", VArr [VNull])];
                 tajweedData := obj [("verses", VArr [VNull])];
                 versesEnData := obj [("verses", VArr [VNull])];
                 versesIdData := obj [("verses", VArr [VNull])] |}
              (snd (fetchFragments null_verse_env sample_base
                                   (chapter_value 1 "Al-Fatihah") start))
              [VNull] 0 VNull eq_refl eq_refl eq_refl eq_refl) as [e He].
  rewrite He. reflexivity.
Defined.

(** X11. The fields of the ayah at a position are taken by position, not by
    key: its three Arabic texts are those of the entries at the same
    position of the Uthmani, the Imlaei and the Tajweed array (the "simple"
    text being the Imlaei one), whichever verse these entries belong to, and
    its six position numbers and its prostration marker are those of the
    English verse at that position. *)
Theorem ayah_fields_by_position stn f l versesEn i a verseEn :
  buildAyahs stn f = Ok l ->
  verses_of (versesEnData f) = Ok (VArr versesEn) ->
  l !! i = Some a ->
  versesEn !! i = Some verseEn ->
  (forall entries entry,
     verses_of (uthmaniData f) = Ok (VArr entries) ->
     entries !! i = Some entry ->
     text_arabic_uthmani a = js_or (opt_prop entry "text_uthmani") (VStr "")) /\
  (forall entries entry,
     verses_of (imlaeiData f) = Ok (VArr entries) ->
     entries !! i = Some entry ->
     text_arabic_simple a = js_or (opt_prop entry "text_imlaei") (VStr "")) /\
  (forall entries entry,
     verses_of (tajweedData f) = Ok (VArr entries) ->
     entries !! i = Some entry ->
     text_arabic_tajweed a
     = js_or (opt_prop entry "text_uthmani_tajweed") (VStr "")) /\
  juz_number a = opt_prop verseEn "juz_number" /\
  hizb_number a = opt_prop verseEn "hizb_number" /\
  rub_el_hizb_number a = opt_prop verseEn "rub_el_hizb_number" /\
  manzil_number a = opt_prop verseEn "manzil_number" /\
  ruku_number a = opt_prop verseEn "ruku_number" /\
  page_number a = opt_prop verseEn "page_number" /\
  sajdah_number a = opt_prop verseEn "sajdah_number".
Proof.
  intros Hl Hen Ha Hv.
  destruct (buildAyahs_at _ _ _ _ _ _ Hl Hen Ha)
    as (v' & vId & entryId & u & uthmani & im & imlaei & t & tajweed
        & Hv' & _ & _ & Hvu & Hgu & Hvim & Hgim & Hvt & Hgt & _ & _ & Heq).
  rewrite Hv in Hv'. injection Hv' as <-.
  rewrite Heq. unfold merged_ayah. simpl.
  split; [|split; [|split; [|repeat split]]].
  - intros entries entry He Hi. rewrite He in Hvu. injection Hvu as <-.
    simpl in Hgu. rewrite Hi in Hgu. injection Hgu as <-. reflexivity.
  - intros entries entry He Hi. rewrite He in Hvim. injection Hvim as <-.
    simpl in Hgim. rewrite Hi in Hgim. injection Hgim as <-. reflexivity.
  - intros entries entry He Hi. rewrite He in Hvt. injection Hvt as <-.
    simpl in Hgt. rewrite Hi in Hgt. injection Hgt as <-. reflexivity.
Qed.

Lemma ayah_fields_by_position_witness :
  exists l a,
    buildAyahs (fun _ => None) shifted_fragments = Ok l /\
    l !! 0 = Some a /\
    verse_key a = VStr "1:1" /\
    text_arabic_uthmani a = VStr "text of 1:2".
Proof.
  eexists. eexists. split; [vm_compute; reflexivity|].
  split; [reflexivity|]. split; [reflexivity|].
  destruct (ayah_fields_by_position
              (fun _ => None) shifted_fragments _
              [keyed_verse "1:1"; keyed_verse "1:2"] 0 _ (keyed_verse "1:1")
              eq_refl eq_refl eq_refl eq_refl) as (Hu & _).
  exact (Hu _ _ eq_refl eq_refl).
Defined.

(** ** The command line *)

Module ParseIntFacts.

Lemma pretty_char_digit d :
  (d < 10)%N ->
  JsString.is_digit (pretty_N_char d) = true /\
  digit_value (pretty_N_char d) = Z.of_N d.
Proof.
  intros Hd.
  assert (Hcases : (d = 0 \/ d = 1 \/ d = 2 \/ d = 3 \/ d = 4 \/ d = 5
                    \/ d = 6 \/ d = 7 \/ d = 8 \/ d = 9)%N) by lia.
  repeat (destruct Hcases as [->|Hcases]; [split; reflexivity|]).
  subst d. split; reflexivity.
Qed.

Lemma digit_is_plain c :
  JsString.is_digit c = true ->
  Ascii.eqb c "-" = false /\ Ascii.eqb c "+" = false.
Proof.
  unfold JsString.is_digit, JsString.in_range. intros H.
  apply andb_true_iff in H as [Hlo Hhi].
  apply Nat.leb_le in Hlo. apply Nat.leb_le in Hhi.
  split.
  - destruct (Ascii.eqb_spec c "-") as [->|]; [|reflexivity].
    vm_compute in Hlo. lia.
  - destruct (Ascii.eqb_spec c "+") as [->|]; [|reflexivity].
    vm_compute in Hlo. lia.
Qed.

(** No white space begins with a digit. *)
Lemma trim_start_digit c r :
  JsString.is_digit c = true -> trim_start (String c r) = String c r.
Proof.
  unfold JsString.is_digit, JsString.in_range. intros H.
  apply andb_true_iff in H as [Hlo Hhi].
  apply Nat.leb_le in Hlo. apply Nat.leb_le in Hhi.
  assert (H1 : ascii_space c = false).
  { unfold ascii_space. apply orb_false_iff. split.
    - apply andb_false_iff. right. apply Nat.leb_gt. lia.
    - apply Nat.eqb_neq. lia. }
  assert (H2 : forall b, two_byte_space c b = false).
  { intros b. unfold two_byte_space. apply andb_false_iff. left.
    apply Nat.eqb_neq. lia. }
  assert (H3 : forall b d, three_byte_space c b d = false).
  { intros b d. unfold three_byte_space.
    assert (Hx : forall k, (100 <= k)%nat -> (nat_of_ascii c =? k)%nat = false)
      by (intros k Hk; apply Nat.eqb_neq; lia).
    rewrite !Hx by lia. reflexivity. }
  cbn [trim_start]. rewrite H1.
  destruct r as [|b [|d r]]; [reflexivity|rewrite H2; reflexivity|].
  rewrite H2, H3. reflexivity.
Qed.

(** Reading the digits [pretty_N_go] puts in front of a string. *)
Lemma read_pretty_go x :
  exists p, forall acc s,
    read_digits acc (pretty_N_go x s) = read_digits (acc * p + Z.of_N x) s.
Proof.
  induction (N.lt_wf_0 x) as [x _ IH].
  assert (Hx : (x = 0 \/ 0 < x)%N) by lia.
  destruct Hx as [->|Hx].
  - exists 1%Z. intros acc s. rewrite pretty_N_go_0. f_equal. lia.
  - destruct (IH (x / 10)%N) as [p Hp]; [apply N.div_lt; lia|].
    exists (10 * p)%Z. intros acc s.
    rewrite pretty_N_go_step by exact Hx. rewrite Hp.
    destruct (pretty_char_digit (x mod 10)%N) as [Hd Hv];
      [apply N.mod_lt; lia|].
    cbn [read_digits]. rewrite Hd, Hv. f_equal.
    assert (Hdm : Z.of_N x
                  = (10 * Z.of_N (x / 10) + Z.of_N (x mod 10))%Z).
    { rewrite (N.div_mod x 10) at 1 by discriminate.
      rewrite N2Z.inj_add, N2Z.inj_mul. reflexivity. }
    rewrite Hdm. ring.
Qed.

Lemma pretty_go_head x s :
  (0 < x)%N ->
  exists c r, pretty_N_go x s = String c r /\ JsString.is_digit c = true.
Proof.
  revert s. induction (N.lt_wf_0 x) as [x _ IH]. intros s Hx.
  rewrite pretty_N_go_step by exact Hx.
  destruct (N.eq_0_gt_0_cases (x / 10)) as [->|Hq].
  - rewrite pretty_N_go_0. eexists _, _. split; [reflexivity|].
    apply pretty_char_digit, N.mod_lt. lia.
  - apply IH; [apply N.div_lt; lia|exact Hq].
Qed.

Lemma pretty_go_app x s rest :
  pretty_N_go x s +:+ rest = pretty_N_go x (s +:+ rest).
Proof.
  revert s. induction (N.lt_wf_0 x) as [x _ IH]. intros s.
  assert (Hx : (x = 0 \/ 0 < x)%N) by lia.
  destruct Hx as [->|Hx].
  - rewrite !pretty_N_go_0. reflexivity.
  - rewrite (pretty_N_go_step x s) by exact Hx.
    rewrite (pretty_N_go_step x (s +:+ rest)) by exact Hx.
    rewrite IH by (apply N.div_lt; lia). reflexivity.
Qed.

Lemma read_stops acc rest :
  digit_first rest = false -> read_digits acc rest = acc.
Proof.
  destruct rest as [|c r]; simpl; [reflexivity|]. intros ->. reflexivity.
Qed.

Lemma numeral_head (x : N) rest :
  exists c r, pretty x +:+ rest = String c r /\ JsString.is_digit c = true.
Proof.
  unfold pretty, pretty_N. destruct (decide (x = 0%N)) as [->|Hx].
  - exists "0"%char, rest. split; reflexivity.
  - rewrite pretty_go_app. apply pretty_go_head. lia.
Qed.

Lemma read_numeral (x : N) rest :
  digit_first rest = false -> read_digits 0 (pretty x +:+ rest) = Z.of_N x.
Proof.
  intros Hrest. unfold pretty, pretty_N.
  destruct (decide (x = 0%N)) as [->|Hx].
  - change ("0" +:+ rest) with (String "0" rest).
    cbn. apply read_stops, Hrest.
  - rewrite pretty_go_app. change ("" +:+ rest) with rest.
    destruct (read_pretty_go x) as [p Hp]. rewrite Hp.
    rewrite read_stops by exact Hrest. reflexivity.
Qed.

Lemma leading_number_numeral (x : N) rest :
  digit_first rest = false -> leading_number (pretty x +:+ rest) = Some (Z.of_N x).
Proof.
  intros Hrest. pose proof (read_numeral x rest Hrest) as Hread.
  destruct (numeral_head x rest) as (c & r & Heq & Hc).
  unfold leading_number. rewrite Heq in *. rewrite Hc, Hread. reflexivity.
Qed.

Lemma parseInt_natural (x : N) rest :
  digit_first rest = false -> parseInt (pretty x +:+ rest) = Some (Z.of_N x).
Proof.
  intros Hrest. pose proof (leading_number_numeral x rest Hrest) as Hl.
  destruct (numeral_head x rest) as (c & r & Heq & Hc).
  destruct (digit_is_plain c Hc) as (Hm & Hp).
  unfold parseInt. rewrite Heq in *. rewrite (trim_start_digit c r Hc).
  rewrite Hm, Hp. exact Hl.
Qed.

Lemma parseInt_numeral (n : Z) rest :
  digit_first rest = false -> parseInt (pretty n +:+ rest) = Some n.
Proof.
  intros Hrest. destruct n as [|x|x].
  - apply (parseInt_natural 0 rest Hrest).
  - apply (parseInt_natural (N.pos x) rest Hrest).
  - unfold pretty, pretty_Z.
    change (("-" +:+ pretty x) +:+ rest) with (String "-" (pretty (N.pos x) +:+ rest)).
    destruct (numeral_head (N.pos x) rest) as (c & r & Heq & Hc).
    pose proof (leading_number_numeral (N.pos x) rest Hrest) as Hl.
    rewrite Heq in *.
    assert (Htrim : trim_start (String "-" (String c r))
                    = String "-" (String c r)).
    { cbn [trim_start]. change (ascii_space "-") with false. cbn match.
      change (two_byte_space "-" c) with false. cbn match.
      destruct r as [|d r]; reflexivity. }
    unfold parseInt. rewrite Htrim.
    change (Ascii.eqb "-" "-") with true. cbn match.
    rewrite Hl. reflexivity.
Qed.

Lemma append_assoc (a b c : string) : (a +:+ b) +:+ c = a +:+ b +:+ c.
Proof.
  induction a as [|x a IH]; [reflexivity|].
  change (String x ((a +:+ b) +:+ c) = String x (a +:+ b +:+ c)).
  rewrite IH. reflexivity.
Qed.

(** Zeros in front do not change the number read. *)
Lemma read_zeros k s : read_digits 0 (JsString.repeat_char "0" k +:+ s) = read_digits 0 s.
Proof.
  induction k as [|k IH]; [reflexivity|].
  change (JsString.repeat_char "0" (S k) +:+ s)
    with (String "0" (JsString.repeat_char "0" k +:+ s)).
  cbn [read_digits]. change (JsString.is_digit "0") with true. cbn match.
  exact IH.
Qed.

Lemma parseInt_padded (x : N) k rest :
  digit_first rest = false ->
  parseInt (JsString.padStart k "0" (pretty x) +:+ rest) = Some (Z.of_N x).
Proof.
  intros Hrest. unfold JsString.padStart.
  destruct (k - String.length (pretty x)) as [|j] eqn:Hj.
  - change (JsString.repeat_char "0" 0 +:+ pretty x) with (pretty x).
    apply parseInt_natural, Hrest.
  - pose proof (read_numeral x rest Hrest) as Hl.
    rewrite append_assoc.
    change (JsString.repeat_char "0" (S j) +:+ pretty x +:+ rest)
      with (String "0" (JsString.repeat_char "0" j +:+ pretty x +:+ rest)).
    unfold parseInt. rewrite trim_start_digit by reflexivity.
    change (Ascii.eqb "0" "-") with false.
    change (Ascii.eqb "0" "+") with false. cbn match.
    unfold leading_number. change (JsString.is_digit "0") with true.
    cbn match.
    change (String "0" (JsString.repeat_char "0" j +:+ pretty x +:+ rest))
      with (JsString.repeat_char "0" (S j) +:+ pretty x +:+ rest).
    rewrite read_zeros. f_equal. exact Hl.
Qed.

End ParseIntFacts.

(** X12. Each of the options [--surah], [-s], [--from] and [--to] reads the
    decimal numeral at the start of the next word, whatever its sign and
    whatever follows its digits, and the parse goes on after that word.
    The numeral is one of an integer that a number of the language holds
    exactly. *)
Theorem numeric_options_read_numerals (n : Z) rest more parsed :
  (Z.abs n <= 2 ^ 53)%Z ->
  digit_first rest = false ->
  parse_options ("--surah" :: (pretty n +:+ rest) :: more) parsed
  = parse_options more (with_surah (Some n) parsed) /\
  parse_options ("-s" :: (pretty n +:+ rest) :: more) parsed
  = parse_options more (with_surah (Some n) parsed) /\
  parse_options ("--from" :: (pretty n +:+ rest) :: more) parsed
  = parse_options more (with_from (Some n) parsed) /\
  parse_options ("--to" :: (pretty n +:+ rest) :: more) parsed
  = parse_options more (with_to (Some n) parsed).
Proof.
  intros _ Hrest.
  pose proof (ParseIntFacts.parseInt_numeral n rest Hrest) as Hn.
  repeat split.
  - change (parse_options ("--surah" :: (pretty n +:+ rest) :: more) parsed)
      with (parse_options more
              (with_surah (parseInt (pretty n +:+ rest)) parsed)).
    rewrite Hn. reflexivity.
  - change (parse_options ("-s" :: (pretty n +:+ rest) :: more) parsed)
      with (parse_options more
              (with_surah (parseInt (pretty n +:+ rest)) parsed)).
    rewrite Hn. reflexivity.
  - change (parse_options ("--from" :: (pretty n +:+ rest) :: more) parsed)
      with (parse_options more
              (with_from (parseInt (pretty n +:+ rest)) parsed)).
    rewrite Hn. reflexivity.
  - change (parse_options ("--to" :: (pretty n +:+ rest) :: more) parsed)
      with (parse_options more
              (with_to (parseInt (pretty n +:+ rest)) parsed)).
    rewrite Hn. reflexivity.
Qed.

Lemma numeric_options_read_numerals_witness :
  parse_options ["--from"; "-3rd"; "--to"; "12"] parsed_defaults
  = Ok (with_to (Some 12%Z) (with_from (Some (-3)%Z) parsed_defaults)).
Proof.
  destruct (numeric_options_read_numerals (-3) "rd" ["--to"; "12"]
              parsed_defaults ltac:(cbn; lia) eq_refl)
    as (_ & _ & Hfrom & _).
  change (pretty (-3)%Z +:+ "rd") with "-3rd" in Hfrom.
  rewrite Hfrom. reflexivity.
Defined.

Lemma output_filename_shape chapter n fn :
  get_prop chapter "id" = Ok (VNum n) ->
  output_filename chapter = Ok fn ->
  exists slug,
    fn = JsString.padStart 3 "0" (pretty n) +:+ "-" +:+ slug +:+ ".json".
Proof.
  intros Hid H. unfold output_filename in H. rewrite Hid in H.
  cbn [rbind to_string] in H.
  apply rbind_ok in H as (name & _ & H).
  apply rbind_ok in H as (slug & _ & H).
  injection H as <-. exists slug. reflexivity.
Qed.

Lemma output_filename_number chapter n fn :
  get_prop chapter "id" = Ok (VNum n) ->
  (0 <= n)%Z ->
  output_filename chapter = Ok fn ->
  parseInt fn = Some n.
Proof.
  intros Hid Hn H.
  destruct (output_filename_shape chapter n fn Hid H) as [slug ->].
  assert (Hp : pretty n = pretty (Z.to_N n)) by (destruct n; [reflexivity..|lia]).
  rewrite Hp, ParseIntFacts.parseInt_padded by reflexivity.
  f_equal. lia.
Qed.

(** X13. The number at the start of an output file name is the id of its
    chapter, for every id from zero on that a number of the language holds
    exactly; so the files of two chapters with different ids have different
    names, whatever the chapters are called. *)
Theorem filename_names_its_chapter chapter n fn chapter' n' fn' :
  get_prop chapter "id" = Ok (VNum n) ->
  get_prop chapter' "id" = Ok (VNum n') ->
  (0 <= n <= 2 ^ 53)%Z -> (0 <= n' <= 2 ^ 53)%Z ->
  output_filename chapter = Ok fn ->
  output_filename chapter' = Ok fn' ->
  parseInt fn = Some n /\ (fn = fn' -> n = n').
Proof.
  intros Hid Hid' [Hn _] [Hn' _] H H'.
  pose proof (output_filename_number chapter n fn Hid Hn H) as Hfn.
  pose proof (output_filename_number chapter' n' fn' Hid' Hn' H') as Hfn'.
  split; [exact Hfn|]. intros Heq. congruence.
Qed.

Lemma filename_names_its_chapter_witness :
  parseInt "1000-same.json" = Some 1000%Z /\
  ("1000-same.json" = "100-same.json" -> 1000%Z = 100%Z).
Proof.
  apply (filename_names_its_chapter (chapter_value 1000 "Same") 1000
           "1000-same.json" (chapter_value 100 "Same") 100 "100-same.json");
    [reflexivity|reflexivity|cbn; lia|cbn; lia|vm_compute; reflexivity
    |vm_compute; reflexivity].
Defined.

Module ParseFacts.

(** Induction for a loop that takes one or two words at a time. *)
Lemma list_ind2 {A : Type} (P : list A -> Prop) :
  P [] -> (forall a, P [a]) ->
  (forall a b l, P l -> P (b :: l) -> P (a :: b :: l)) ->
  forall l, P l.
Proof.
  intros H0 H1 H2 l.
  assert (H : P l /\ forall a, P (a :: l)).
  { induction l as [|b l [IHl IHa]]; [split; [exact H0|exact H1]|].
    split; [apply IHa|]. intros a. apply H2; [exact IHl|apply IHa]. }
  apply H.
Qed.

Lemma add_param_some v ps :
  exists ps', add_param (Some v) ps = Ok ps'.
Proof. unfold add_param. eexists. reflexivity. Qed.

Ltac branch H :=
  repeat match type of H with
         | context [if ?c then _ else _] => destruct c eqn:?
         end.

Lemma last_two {A : Type} (a b : A) l x :
  last l = Some x -> last (a :: b :: l) = Some x.
Proof.
  intros H. destruct l as [|c l]; [discriminate|].
  rewrite !last_cons_cons. exact H.
Qed.

Lemma last_one {A : Type} (a b : A) l x :
  last (b :: l) = Some x -> last (a :: b :: l) = Some x.
Proof. intros H. rewrite last_cons_cons. exact H. Qed.

Lemma parse_options_throws args :
  forall parsed e,
    parse_options args parsed = Throw e ->
    last args = Some "--param" /\ e = cannot_read "split".
Proof.
  induction args as [|a|a b l IHl IHb] using list_ind2; intros parsed e H.
  - discriminate.
  - cbn [parse_options] in H. branch H; try discriminate.
    cbn in H. injection H as <-.
    match goal with Hp : String.eqb a "--param" = true |- _ =>
      apply String.eqb_eq in Hp; subst a end.
    split; reflexivity.
  - remember (b :: l) as rest eqn:Hrest.
    cbn [parse_options] in H.
    branch H; subst rest; cbv beta iota in H;
      try (apply IHl in H as [Hlast ->];
           split; [apply last_two, Hlast|reflexivity]);
      try (apply IHb in H as [Hlast ->];
           split; [apply last_one, Hlast|reflexivity]).
Qed.

Lemma absent_tail names a l : absent names (a :: l) -> absent names l.
Proof. intros H x Hx Hin. apply (H x Hx). right. exact Hin. Qed.

Lemma absent_head names a l : absent names (a :: l) -> In a names -> False.
Proof. intros H Hin. apply (H a Hin). left. reflexivity. Qed.


Lemma kept_refl args p : kept args p p.
Proof. unfold kept. repeat split; reflexivity. Qed.

Ltac keep_field IH :=
  let Habs := fresh "Habs" in
  intros Habs;
  first
    [ exfalso; eapply absent_head; [exact Habs|]; simpl; tauto
    | etransitivity;
      [apply IH;
       first [exact Habs
             |apply absent_tail in Habs;
              first [exact Habs|apply absent_tail in Habs; exact Habs]]
      |reflexivity] ].

Lemma parse_options_kept args :
  forall p p', parse_options args p = Ok p' -> kept args p p'.
Proof.
  induction args as [|a|a b l IHl IHb] using list_ind2; intros p p' H.
  - injection H as <-. apply kept_refl.
  - cbn [parse_options] in H.
    branch H; cbn in H; try discriminate; injection H as <-;
      repeat match goal with
             | Hc : (_ || _) = true |- _ =>
                 apply orb_true_iff in Hc as [Hc|Hc]
             | Hc : String.eqb a _ = true |- _ =>
                 apply String.eqb_eq in Hc; subst a
             end;
      unfold kept; repeat split; intros Habs;
      first [reflexivity
            |exfalso; eapply absent_head; [exact Habs|]; simpl; tauto].
  - remember (b :: l) as rest eqn:Hrest.
    cbn [parse_options] in H.
    branch H; subst rest; cbv beta iota in H;
      repeat match goal with
             | Hc : (_ || _) = true |- _ =>
                 apply orb_true_iff in Hc as [Hc|Hc]
             | Hc : String.eqb a _ = true |- _ =>
                 apply String.eqb_eq in Hc; subst a
             end;
      first [apply IHl in H|apply IHb in H];
      unfold kept in H;
      destruct H as (H1 & H2 & H3 & H4 & H5 & H6 & H7 & H8 & H9 & H10);
      unfold kept;
      (split; [keep_field H1|]); (split; [keep_field H2|]);
      (split; [keep_field H3|]); (split; [keep_field H4|]);
      (split; [keep_field H5|]); (split; [keep_field H6|]);
      (split; [keep_field H7|]); (split; [keep_field H8|]);
      (split; [keep_field H9|]); keep_field H10.
Qed.

End ParseFacts.

(** X14. [parseArgs] throws in one case only: when the last word is
    [--param], whose missing value it tries to split.  Every other option
    that lacks its value is accepted. *)
Theorem parseArgs_throws_only_for_param args e :
  parseArgs args = Throw e ->
  last args = Some "--param" /\ e = cannot_read "split".
Proof.
  intros H. destruct args as [|first rest]; [discriminate|].
  unfold parseArgs in H.
  destruct (negb (String.eqb first "") && negb (JsString.startsWith "-" first))
    eqn:Hfirst.
  - apply ParseFacts.parse_options_throws in H as [Hlast ->].
    split; [|reflexivity].
    destruct rest as [|b l]; [discriminate|].
    rewrite last_cons_cons. exact Hlast.
  - apply ParseFacts.parse_options_throws in H. exact H.
Qed.

Lemma parseArgs_throws_only_for_param_witness :
  last ["fetch"; "--path"; "/chapters"; "--param"] = Some "--param" /\
  is_ok (parseArgs ["download"; "--output"]) = true.
Proof.
  split; [|reflexivity].
  apply (parseArgs_throws_only_for_param
           ["fetch"; "--path"; "/chapters"; "--param"]
           (cannot_read "split") eq_refl).
Defined.

(** X15. A field of the parsed options differs from its default only if
    one of the options that set it is among the words: without [--from] the
    range starts at 1, without [--to] it ends at 114, without [--surah] and
    [-s] no surah is chosen, and so on for every field; without [--help]
    and [-h] the command is the first word, or [null] when that word is
    empty or starts with a hyphen. *)
Theorem absent_options_keep_defaults args options :
  parseArgs args = Ok options ->
  (absent ["--base-url"] args ->
   parsed_baseUrl options = VStr DEFAULT_BASE_URL) /\
  (absent ["--output"; "-o"] args -> parsed_output options = VStr "./data") /\
  (absent ["--surah"; "-s"] args -> parsed_surah options = None) /\
  (absent ["--all"] args -> parsed_all options = false) /\
  (absent ["--from"] args -> parsed_from options = Some 1%Z) /\
  (absent ["--to"] args -> parsed_to options = Some 114%Z) /\
  (absent ["--path"] args -> parsed_path options = VNull) /\
  (absent ["--param"] args -> parsed_params options = []) /\
  (absent ["--language"] args -> parsed_language options = VStr "") /\
  (absent ["--help"; "-h"] args ->
   parsed_command options = first_command args).
Proof.
  intros H. destruct args as [|first rest].
  - injection H as <-. repeat split; reflexivity.
  - unfold parseArgs in H. unfold first_command.
    destruct (negb (String.eqb first "")
              && negb (JsString.startsWith "-" first)) eqn:Hfirst.
    + apply ParseFacts.parse_options_kept in H.
      destruct H as (H1 & H2 & H3 & H4 & H5 & H6 & H7 & H8 & H9 & H10).
      repeat split; intros Habs; apply ParseFacts.absent_tail in Habs;
        [rewrite (H1 Habs)|rewrite (H2 Habs)|rewrite (H3 Habs)
        |rewrite (H4 Habs)|rewrite (H5 Habs)|rewrite (H6 Habs)
        |rewrite (H7 Habs)|rewrite (H8 Habs)|rewrite (H9 Habs)
        |rewrite (H10 Habs)]; reflexivity.
    + apply ParseFacts.parse_options_kept in H.
      destruct H as (H1 & H2 & H3 & H4 & H5 & H6 & H7 & H8 & H9 & H10).
      repeat split; intros Habs;
        [rewrite (H1 Habs)|rewrite (H2 Habs)|rewrite (H3 Habs)
        |rewrite (H4 Habs)|rewrite (H5 Habs)|rewrite (H6 Habs)
        |rewrite (H7 Habs)|rewrite (H8 Habs)|rewrite (H9 Habs)
        |rewrite (H10 Habs)]; reflexivity.
Qed.

Lemma absent_options_keep_defaults_witness :
  exists options,
    parseArgs ["download"; "--from"; "5"; "--output"; "out"] = Ok options /\
    parsed_to options = Some 114%Z /\ parsed_surah options = None.
Proof.
  eexists. split; [vm_compute; reflexivity|].
  destruct (absent_options_keep_defaults
              ["download"; "--from"; "5"; "--output"; "out"] _ eq_refl)
    as (_ & _ & Hsurah & _ & _ & Hto & _).
  split.
  - apply Hto. intros x [<-|[]] Hin. simpl in Hin.
    repeat (destruct Hin as [Hin|Hin]; [discriminate|]). exact Hin.
  - apply Hsurah. intros x [<-|[<-|[]]] Hin; simpl in Hin;
      repeat (destruct Hin as [Hin|Hin]; [discriminate|]); exact Hin.
Defined.

Module PathFacts.

Lemma indexOf_prefix p s : String.prefix p s = true -> indexOf p s = Some 0.
Proof. intros H. destruct s; cbn [indexOf]; rewrite H; reflexivity. Qed.

Lemma indexOf_cons p c s :
  String.prefix p (String c s) = false ->
  indexOf p (String c s) = option_map S (indexOf p s).
Proof. intros H. cbn [indexOf]. rewrite H. reflexivity. Qed.

Lemma indexOf_empty p :
  String.prefix p "" = false -> indexOf p "" = None.
Proof. intros H. cbn [indexOf]. rewrite H. reflexivity. Qed.

Lemma from_first_prefix p s : String.prefix p s = true -> from_first p s = s.
Proof. intros H. unfold from_first. rewrite indexOf_prefix by exact H. reflexivity. Qed.

Lemma from_first_cons p c s :
  String.prefix p (String c s) = false ->
  includes p s = true ->
  from_first p (String c s) = from_first p s.
Proof.
  intros H Hin. unfold from_first, includes in *.
  rewrite indexOf_cons by exact H.
  destruct (indexOf p s); [reflexivity|discriminate].
Qed.

Lemma includes_cons p c s :
  includes p s = true -> includes p (String c s) = true.
Proof.
  unfold includes. intros H.
  destruct (String.prefix p (String c s)) eqn:Hp.
  - rewrite indexOf_prefix by exact Hp. reflexivity.
  - rewrite indexOf_cons by exact Hp.
    destruct (indexOf p s); [reflexivity|discriminate].
Qed.

Lemma includes_cases p c s :
  includes p (String c s) = true ->
  String.prefix p (String c s) = true \/
  (String.prefix p (String c s) = false /\ includes p s = true).
Proof.
  unfold includes. intros H.
  destruct (String.prefix p (String c s)) eqn:Hp; [left; reflexivity|].
  right. split; [reflexivity|].
  rewrite indexOf_cons in H by exact Hp.
  destruct (indexOf p s); [reflexivity|discriminate].
Qed.

Lemma includes_prefix p s : String.prefix p s = true -> includes p s = true.
Proof.
  intros H. unfold includes. rewrite indexOf_prefix by exact H. reflexivity.
Qed.

Lemma includes_empty p : includes p "" = true -> String.prefix p "" = true.
Proof.
  unfold includes. intros H.
  destruct (String.prefix p "") eqn:Hp; [reflexivity|].
  rewrite indexOf_empty in H by exact Hp. discriminate.
Qed.

(** The text from the first occurrence on is the end of the text and
    begins with what was looked for. *)
Lemma from_first_spec p s :
  includes p s = true ->
  String.prefix p (from_first p s) = true /\
  exists front, s = front +:+ from_first p s.
Proof.
  induction s as [|c s IH]; intros H.
  - apply includes_empty in H. rewrite from_first_prefix by exact H.
    split; [exact H|]. exists "". reflexivity.
  - destruct (includes_cases p c s H) as [Hp|[Hp Hin]].
    + rewrite from_first_prefix by exact Hp.
      split; [exact Hp|]. exists "". reflexivity.
    + rewrite from_first_cons by assumption.
      destruct (IH Hin) as [Hpre [front Hfront]].
      split; [exact Hpre|]. exists (String c front).
      change (String c front +:+ from_first p s)
        with (String c (front +:+ from_first p s)).
      rewrite <- Hfront. reflexivity.
Qed.

Lemma includes_front p front s :
  includes p s = true -> includes p (front +:+ s) = true.
Proof.
  intros H. induction front as [|c front IH]; [exact H|].
  change (String c front +:+ s) with (String c (front +:+ s)).
  apply includes_cons, IH.
Qed.

Lemma lacks_end p front s :
  includes p (front +:+ s) = false -> includes p s = false.
Proof.
  intros H. destruct (includes p s) eqn:Hs; [|reflexivity].
  rewrite (includes_front p front s Hs) in H. discriminate.
Qed.

End PathFacts.

(** X16. The repair of a path leaves a path without [:/] as it is; what it
    returns is always the end of the path it was given; when it changes
    the path, the result begins with [/chapters], [/verses], [/quran] or
    [/resources]; and repairing twice is repairing once. *)
Theorem repair_path_spec pathValue :
  (includes ":/" pathValue = false -> repair_path pathValue = pathValue) /\
  (exists front, pathValue = front +:+ repair_path pathValue) /\
  (repair_path pathValue <> pathValue ->
   JsString.startsWith "/chapters" (repair_path pathValue)
   || JsString.startsWith "/verses" (repair_path pathValue)
   || JsString.startsWith "/quran" (repair_path pathValue)
   || JsString.startsWith "/resources" (repair_path pathValue) = true) /\
  repair_path (repair_path pathValue) = repair_path pathValue.
Proof.
  remember (repair_path pathValue) as r eqn:Hr.
  unfold repair_path in Hr.
  destruct (includes ":/" pathValue) eqn:Hcolon; cbn [andb] in Hr.
  2:{ subst r. repeat split; try reflexivity.
      - exists "". reflexivity.
      - intros H. destruct (H eq_refl).
      - unfold repair_path. rewrite Hcolon. reflexivity. }
  destruct (includes "/chapters" pathValue) eqn:H1.
  { destruct (PathFacts.from_first_spec _ _ H1) as [Hp [front Hfront]].
    rewrite <- Hr in Hp, Hfront.
    repeat split; [discriminate|exists front; exact Hfront| |].
    - intros _. unfold JsString.startsWith. rewrite Hp. reflexivity.
    - unfold repair_path.
      rewrite (PathFacts.includes_prefix _ _ Hp).
      rewrite (PathFacts.from_first_prefix _ _ Hp).
      destruct (includes ":/" r); reflexivity. }
  destruct (includes "/verses" pathValue) eqn:H2.
  { destruct (PathFacts.from_first_spec _ _ H2) as [Hp [front Hfront]].
    rewrite <- Hr in Hp, Hfront.
    repeat split; [discriminate|exists front; exact Hfront| |].
    - intros _. unfold JsString.startsWith. rewrite Hp.
      rewrite orb_true_r. reflexivity.
    - unfold repair_path.
      rewrite Hfront in H1. apply PathFacts.lacks_end in H1. rewrite H1.
      rewrite (PathFacts.includes_prefix _ _ Hp).
      rewrite (PathFacts.from_first_prefix _ _ Hp).
      destruct (includes ":/" r); reflexivity. }
  destruct (includes "/quran" pathValue) eqn:H3.
  { destruct (PathFacts.from_first_spec _ _ H3) as [Hp [front Hfront]].
    rewrite <- Hr in Hp, Hfront.
    repeat split; [discriminate|exists front; exact Hfront| |].
    - intros _. unfold JsString.startsWith. rewrite Hp.
      rewrite orb_true_r. reflexivity.
    - unfold repair_path.
      rewrite Hfront in H1, H2.
      apply PathFacts.lacks_end in H1. apply PathFacts.lacks_end in H2.
      rewrite H1, H2.
      rewrite (PathFacts.includes_prefix _ _ Hp).
      rewrite (PathFacts.from_first_prefix _ _ Hp).
      destruct (includes ":/" r); reflexivity. }
  destruct (includes "/resources" pathValue) eqn:H4.
  { destruct (PathFacts.from_first_spec _ _ H4) as [Hp [front Hfront]].
    rewrite <- Hr in Hp, Hfront.
    repeat split; [discriminate|exists front; exact Hfront| |].
    - intros _. unfold JsString.startsWith. rewrite Hp.
      rewrite !orb_true_r. reflexivity.
    - unfold repair_path.
      rewrite Hfront in H1, H2, H3.
      apply PathFacts.lacks_end in H1. apply PathFacts.lacks_end in H2.
      apply PathFacts.lacks_end in H3.
      rewrite H1, H2, H3.
      rewrite (PathFacts.includes_prefix _ _ Hp).
      rewrite (PathFacts.from_first_prefix _ _ Hp).
      destruct (includes ":/" r); reflexivity. }
  subst r. split; [reflexivity|]. split; [exists ""; reflexivity|]. split.
  - intros H. destruct (H eq_refl).
  - unfold repair_path. rewrite Hcolon, H1, H2, H3, H4. reflexivity.
Qed.

Lemma repair_path_spec_witness :
  repair_path "C:/Program Files/Git/chapters/1" = "/chapters/1" /\
  repair_path "/chapters/1" = "/chapters/1".
Proof.
  split; [reflexivity|].
  apply (proj1 (repair_path_spec "/chapters/1")). reflexivity.
Defined.

Module ParamFacts.

Lemma split_on_plain s : no_equals s = true -> split_on "=" s = [s].
Proof.
  induction s as [|c s IH]; [reflexivity|]. unfold no_equals. cbn [all_units].
  intros H. apply andb_true_iff in H as [Hc Hs].
  apply negb_true_iff in Hc. cbn [split_on]. rewrite Hc.
  rewrite (IH Hs). reflexivity.
Qed.

Lemma split_on_first key rest :
  no_equals key = true ->
  split_on "=" (key +:+ "=" +:+ rest) = key :: split_on "=" rest.
Proof.
  induction key as [|c key IH]; [reflexivity|].
  unfold no_equals. cbn [all_units].
  intros H. apply andb_true_iff in H as [Hc Hs].
  apply negb_true_iff in Hc.
  change (String c key +:+ "=" +:+ rest)
    with (String c (key +:+ "=" +:+ rest)).
  cbn [split_on]. rewrite Hc, (IH Hs). reflexivity.
Qed.

End ParamFacts.

(** X17. The value of a parameter ends at the second [=]: [--param k=v],
    [--param k=v=more] both store [v] under [k]; [--param k] stores the
    empty value; a word that starts with [=] stores nothing. *)
Theorem param_value_ends_at_equals key value more props :
  no_equals key = true -> no_equals value = true -> key <> "" ->
  add_param (Some (key +:+ "=" +:+ value)) props
  = Ok (set_property key value props) /\
  add_param (Some (key +:+ "=" +:+ value +:+ "=" +:+ more)) props
  = Ok (set_property key value props) /\
  add_param (Some key) props = Ok (set_property key "" props) /\
  add_param (Some ("=" +:+ more)) props = Ok props.
Proof.
  intros Hkey Hvalue Hne.
  assert (Heqb : String.eqb key "" = false) by (apply String.eqb_neq, Hne).
  unfold add_param. repeat split.
  - rewrite ParamFacts.split_on_first, ParamFacts.split_on_plain by assumption.
    cbn. rewrite Heqb. reflexivity.
  - rewrite !ParamFacts.split_on_first by assumption.
    cbn. rewrite Heqb. reflexivity.
  - rewrite ParamFacts.split_on_plain by assumption.
    cbn. rewrite Heqb. reflexivity.
Qed.

Lemma param_value_ends_at_equals_witness :
  add_param (Some "fields=a=b") [] = Ok [("fields", "a")].
Proof.
  destruct (param_value_ends_at_equals "fields" "a" "b" [] eq_refl eq_refl)
    as (_ & H & _); [discriminate|].
  exact H.
Defined.

Module QueryFacts.

Lemma count_app c a b :
  count_unit c (a +:+ b) = count_unit c a + count_unit c b.
Proof.
  induction a as [|x a IH]; [reflexivity|].
  change (String x a +:+ b) with (String x (a +:+ b)).
  cbn [count_unit]. rewrite IH. lia.
Qed.

Lemma all_units_app p a b :
  all_units p (a +:+ b) = all_units p a && all_units p b.
Proof.
  induction a as [|x a IH]; [reflexivity|].
  change (String x a +:+ b) with (String x (a +:+ b)).
  cbn [all_units]. rewrite IH, andb_assoc. reflexivity.
Qed.

Lemma all_units_weaken (p q : ascii -> bool) s :
  (forall c, p c = true -> q c = true) ->
  all_units p s = true -> all_units q s = true.
Proof.
  intros Hpq. induction s as [|x s IH]; [reflexivity|]. cbn [all_units].
  intros H. apply andb_true_iff in H as [Hx Hs].
  rewrite (Hpq x Hx), (IH Hs). reflexivity.
Qed.

Lemma count_none p c s :
  all_units p s = true -> p c = false -> count_unit c s = 0.
Proof.
  intros Hs Hc. induction s as [|x s IH]; [reflexivity|].
  cbn [all_units] in Hs. apply andb_true_iff in Hs as [Hx Hs].
  cbn [count_unit]. rewrite (IH Hs).
  destruct (Ascii.eqb_spec x c) as [->|]; [congruence|reflexivity].
Qed.

Lemma hex_digit_unreserved n : n < 16 -> is_unreserved (hex_digit n) = true.
Proof.
  intros Hn.
  assert (Hall : forallb (fun k => is_unreserved (hex_digit k)) (seq 0 16)
                 = true) by (vm_compute; reflexivity).
  rewrite forallb_forall in Hall. apply Hall, in_seq. lia.
Qed.

Lemma escaped_units byte :
  byte < 256 -> all_units escape_unit (escaped byte) = true.
Proof.
  intros Hb. unfold escaped. cbn [all_units]. unfold escape_unit at 2 3.
  rewrite !hex_digit_unreserved.
  - reflexivity.
  - apply Nat.mod_upper_bound. lia.
  - apply Nat.Div0.div_lt_upper_bound. lia.
Qed.

Lemma nat_of_ascii_bound c : nat_of_ascii c < 256.
Proof.
  destruct c as [[] [] [] [] [] [] [] []]; vm_compute; lia.
Qed.

Lemma encode_unit_units c : all_units escape_unit (encode_unit c) = true.
Proof.
  unfold encode_unit. destruct (is_unreserved c) eqn:Hc.
  - cbn [all_units]. unfold escape_unit. rewrite Hc. reflexivity.
  - apply escaped_units, nat_of_ascii_bound.
Qed.

Lemma encodeURIComponent_units s :
  all_units escape_unit (encodeURIComponent s) = true.
Proof.
  induction s as [|c s IH]; [reflexivity|]. cbn [encodeURIComponent].
  rewrite all_units_app, encode_unit_units, IH. reflexivity.
Qed.

(** One parameter of the query. *)
Lemma pair_shape k v :
  let text := encodeURIComponent k +:+ "=" +:+ encodeURIComponent v in
  count_unit "=" text = 1 /\ count_unit "&" text = 0 /\
  all_units query_unit text = true.
Proof.
  cbn zeta.
  pose proof (encodeURIComponent_units k) as Hk.
  pose proof (encodeURIComponent_units v) as Hv.
  rewrite !count_app, !all_units_app.
  rewrite (count_none _ "=" _ Hk eq_refl), (count_none _ "=" _ Hv eq_refl).
  rewrite (count_none _ "&" _ Hk eq_refl), (count_none _ "&" _ Hv eq_refl).
  assert (Hq : forall c, escape_unit c = true -> query_unit c = true).
  { intros c Hc. unfold query_unit. rewrite Hc. reflexivity. }
  rewrite (all_units_weaken _ _ _ Hq Hk), (all_units_weaken _ _ _ Hq Hv).
  repeat split.
Qed.

Lemma join_shape (texts : list string) :
  Forall (fun text => count_unit "=" text = 1 /\ count_unit "&" text = 0 /\
                      all_units query_unit text = true) texts ->
  count_unit "=" (join_with "&" texts) = length texts /\
  count_unit "&" (join_with "&" texts) = length texts - 1 /\
  all_units query_unit (join_with "&" texts) = true.
Proof.
  induction texts as [|text texts IH]; intros H.
  - repeat split.
  - apply Forall_cons in H as [(He & Ha & Hu) Hrest].
    specialize (IH Hrest). destruct IH as (IHe & IHa & IHu).
    destruct texts as [|text' texts].
    + cbn [join_with length]. repeat split; assumption.
    + change (join_with "&" (text :: text' :: texts))
        with (text +:+ "&" +:+ join_with "&" (text' :: texts)).
      rewrite !count_app, !all_units_app, He, Ha, Hu, IHe, IHa, IHu.
      cbn [length]. repeat split. cbn. lia.
Qed.

Lemma insert_by_index_perm e l : insert_by_index e l ≡ₚ e :: l.
Proof.
  induction l as [|x l IH]; [reflexivity|]. cbn [insert_by_index].
  destruct (fst e <? fst x)%N; [reflexivity|].
  rewrite IH. apply Permutation_swap.
Qed.

Lemma sorted_perm l : fold_right insert_by_index [] l ≡ₚ l.
Proof.
  induction l as [|e l IH]; [reflexivity|]. cbn [fold_right].
  rewrite insert_by_index_perm, IH. reflexivity.
Qed.

Lemma indexed_named props :
  map snd (indexed props)
  = filter (fun kv => array_index (fst kv) <> None) props.
Proof.
  unfold indexed. induction props as [|kv props IH]; [reflexivity|].
  cbn [omap list_omap]. rewrite filter_cons.
  destruct (array_index (fst kv)) as [n|] eqn:Hn; cbn [option_map].
  - rewrite decide_True by discriminate. cbn [map snd]. rewrite IH.
    reflexivity.
  - rewrite decide_False by (intros H; apply H; reflexivity). exact IH.
Qed.

(** [Object.entries] reorders the properties, it neither drops nor adds
    one. *)
Lemma entries_of_perm props : entries_of props ≡ₚ props.
Proof.
  unfold entries_of, named.
  rewrite (Permutation_map snd (sorted_perm (indexed props))).
  rewrite indexed_named.
  rewrite Permutation_app_comm.
  etransitivity; [|apply (filter_app_complement
                            (fun kv => array_index (fst kv) = None) props)].
  reflexivity.
Qed.

Lemma query_shape params :
  count_unit "=" (query_string params) = length (with_value params) /\
  count_unit "&" (query_string params) = length (with_value params) - 1 /\
  all_units query_unit (query_string params) = true.
Proof.
  assert (Hlen : length (with_value (entries_of params))
                 = length (with_value params)).
  { apply Permutation_length. unfold with_value.
    rewrite entries_of_perm. reflexivity. }
  rewrite <- Hlen. unfold query_string.
  fold (with_value (entries_of params)).
  rewrite <- (length_map
                (fun kv => encodeURIComponent (fst kv) +:+ "="
                           +:+ encodeURIComponent (snd kv))
                (with_value (entries_of params))).
  apply join_shape. clear Hlen.
  induction (with_value (entries_of params)) as [|kv l IH]; cbn [map];
    constructor; [apply pair_shape|exact IH].
Qed.



End QueryFacts.

(** X18. In the query string of a custom request every parameter with a
    value gives exactly one [=], the sign [&] stands only between two
    parameters, and anything else is an unreserved character or part of an
    escape: no key and no value can add a parameter or end the query.
    Parameters without a value are left out. *)
Theorem query_string_shape params :
  count_unit "=" (query_string params) = length (with_value params) /\
  count_unit "&" (query_string params) = length (with_value params) - 1 /\
  all_units query_unit (query_string params) = true.
Proof. apply QueryFacts.query_shape. Qed.

(** ** The dispatch of [main] *)

(** X19. [main] rejects only before it has done anything: when the words
    cannot be parsed, the base URL is not a string or the output directory
    cannot be made.  Without words it prints the help and the exit code is
    0.  Once the output directory is there the command runs and [main] does
    not reject: when the command returns, the exit code is 0 and nothing is
    added to what the command did; when the command throws, the line
    [✗ Error: ...] with the message of the exception is printed in red
    after what the command did, and the exit code is 1. *)
Theorem main_reports_failures E stringify help_text mkdir_failure text_length
  toLowerCase args w :
  (forall e w',
     main E stringify help_text mkdir_failure text_length toLowerCase args w
     = (Throw e, w') ->
     w' = w) /\
  (args = [] ->
   main E stringify help_text mkdir_failure text_length toLowerCase args w
   = (Ok 0, printed help_text w)) /\
  (forall options url output,
     args <> [] ->
     parseArgs args = Ok options ->
     string_receiver "replace" (parsed_baseUrl options) = Ok url ->
     parsed_output options = VStr output ->
     mkdir_failure output = None ->
     main E stringify help_text mkdir_failure text_length toLowerCase args w
     = match run_command E stringify help_text text_length toLowerCase
               options (strip_slash url) output w with
       | (Ok _, w1) => (Ok 0, w1)
       | (Throw e, w1) => (Ok 1, printed (failure_line e) w1)
       end) /\
  (forall code w',
     main E stringify help_text mkdir_failure text_length toLowerCase args w
     = (Ok code, w') ->
     args = [] \/
     exists options url output,
       parseArgs args = Ok options /\
       string_receiver "replace" (parsed_baseUrl options) = Ok url /\
       parsed_output options = VStr output /\
       mkdir_failure output = None).
Proof.
  split; [|split; [|split]].
  - unfold main. destruct args as [|first rest]; [discriminate|].
    rewrite bind_lift.
    destruct (parseArgs (first :: rest)) as [options|e0]; cbn [rbind];
      [|intros e w' [= _ <-]; reflexivity].
    rewrite bind_lift.
    destruct (string_receiver "replace" (parsed_baseUrl options)) as [url|e0];
      cbn [rbind]; [|intros e w' [= _ <-]; reflexivity].
    destruct (parsed_output options) as [| | | |output| |];
      try (intros e w' [= _ <-]; reflexivity).
    destruct (mkdir_failure output) as [e0|];
      [intros e w' [= _ <-]; reflexivity|].
    unfold try_catch, bind at 1.
    destruct (run_command E stringify help_text text_length toLowerCase
                          options (strip_slash url) output w)
      as [[[]|e0] w1]; discriminate.
  - intros ->. reflexivity.
  - intros options url output Hargs Hparse Hurl Hout Hmk. unfold main.
    destruct args as [|first rest]; [congruence|].
    rewrite bind_lift, Hparse. cbn [rbind].
    rewrite bind_lift, Hurl. cbn [rbind]. rewrite Hout, Hmk.
    unfold try_catch, bind at 1.
    destruct (run_command E stringify help_text text_length toLowerCase
                          options (strip_slash url) output w)
      as [[[]|e0] w1]; reflexivity.
  - unfold main. destruct args as [|first rest]; [left; reflexivity|].
    rewrite bind_lift.
    destruct (parseArgs (first :: rest)) as [options|e0]; cbn [rbind];
      [|discriminate].
    rewrite bind_lift.
    destruct (string_receiver "replace" (parsed_baseUrl options))
      as [url|e0] eqn:Hurl; cbn [rbind]; [|discriminate].
    destruct (parsed_output options) as [| | | |output| |] eqn:Hout;
      try discriminate.
    destruct (mkdir_failure output) as [e0|] eqn:Hmk; [discriminate|].
    intros code w' _. right. exists options, url, output. auto.
Qed.

Lemma main_reports_failures_witness :
  sample_main ["download"; "--surah"; "115"; "--base-url"; sample_base] start
  = (Ok 1,
     printed (failure_line (Error "Surah with ID 115 not found"))
             (snd (fetchChapters (sample_env listing_123_json) sample_base
                                 start))).
Proof.
  destruct (main_reports_failures (sample_env listing_123_json)
              (fun _ => "{}"%string) "usage" (fun _ => None) String.length
              JsString.toLowerCase
              ["download"; "--surah"; "115"; "--base-url"; sample_base]%string
              start) as (_ & _ & Hrun & _).
  unfold sample_main.
  rewrite (Hrun (with_baseUrl (VStr sample_base)
                   (with_surah (parseInt_arg (Some "115"%string))
                      (with_command (VStr "download") parsed_defaults)))
                sample_base "./data"%string
                ltac:(discriminate) eq_refl eq_refl eq_refl eq_refl).
  vm_compute. reflexivity.
Defined.

Module DispatchFacts.

Ltac branch_goal :=
  repeat match goal with
         | |- context [if ?c then _ else _] => destruct c eqn:?
         end.

(** An earlier [--surah] is forgotten when a later one is read, and is kept
    otherwise. *)
Lemma parse_options_surah args :
  forall p x,
    match parse_options args p with
    | Ok q =>
        parse_options args (with_surah x p) = Ok q \/
        (parse_options args (with_surah x p) = Ok (with_surah x q) /\
         parsed_surah q = parsed_surah p)
    | Throw e => parse_options args (with_surah x p) = Throw e
    end.
Proof.
  induction args as [|a|a b l IHl IHb] using ParseFacts.list_ind2;
    intros p x.
  - right. split; reflexivity.
  - cbn [parse_options]. branch_goal;
      first [reflexivity|left; reflexivity|right; split; reflexivity].
  - remember (b :: l) as rest eqn:Hrest.
    cbn [parse_options]. branch_goal; subst rest; cbv beta iota;
      first [exact (IHl _ x) | exact (IHb _ x) | idtac].
    + destruct (parse_options l (with_surah (parseInt_arg (Some b)) p))
        as [q|e] eqn:Hq; [left; exact Hq|exact Hq].
Qed.

(** [--all] only sets its flag. *)
Lemma parse_options_all args :
  forall p,
    match parse_options args p with
    | Ok q => parse_options args (with_all p) = Ok (with_all q)
    | Throw e => parse_options args (with_all p) = Throw e
    end.
Proof.
  induction args as [|a|a b l IHl IHb] using ParseFacts.list_ind2; intros p.
  - reflexivity.
  - cbn [parse_options]. branch_goal; reflexivity.
  - remember (b :: l) as rest eqn:Hrest.
    cbn [parse_options]. branch_goal; subst rest; cbv beta iota;
      first [exact (IHl _) | exact (IHb _)].
Qed.

End DispatchFacts.

Lemma parseArgs_command cmd rest :
  first_command [cmd] = VStr cmd ->
  parseArgs (cmd :: rest)
  = parse_options rest (with_command (VStr cmd) parsed_defaults).
Proof.
  unfold first_command, parseArgs. intros H.
  destruct (negb (String.eqb cmd "") && negb (JsString.startsWith "-" cmd));
    [reflexivity|discriminate].
Qed.

(** X20. A [--surah] whose value is not a number other than zero is
    ignored: right after the command, [--surah 0] or [--surah abc] leaves
    the run as it is without them; with the default range the whole
    Quran is downloaded. *)
Theorem useless_surah_is_ignored E stringify help_text mkdir_failure
  text_length toLowerCase cmd word rest w :
  first_command [cmd] = VStr cmd ->
  chosen_surah (Some (parseInt word)) = None ->
  main E stringify help_text mkdir_failure text_length toLowerCase
       (cmd :: "--surah" :: word :: rest) w
  = main E stringify help_text mkdir_failure text_length toLowerCase
         (cmd :: rest) w.
Proof.
  intros Hcmd Hword. unfold main.
  rewrite !parseArgs_command by exact Hcmd.
  change (parse_options ("--surah" :: word :: rest)
                        (with_command (VStr cmd) parsed_defaults))
    with (parse_options rest
            (with_surah (parseInt word)
                        (with_command (VStr cmd) parsed_defaults))).
  pose proof (DispatchFacts.parse_options_surah rest
                (with_command (VStr cmd) parsed_defaults) (parseInt word))
    as Hrel.
  destruct (parse_options rest (with_command (VStr cmd) parsed_defaults))
    as [q|e] eqn:Hq.
  - destruct Hrel as [Hsame|[Hset Hnone]]; [rewrite Hsame; reflexivity|].
    rewrite Hset, !bind_lift. cbn [rbind].
    change (parsed_baseUrl (with_surah (parseInt word) q))
      with (parsed_baseUrl q).
    rewrite ?bind_lift.
    destruct (string_receiver "replace" (parsed_baseUrl q)) as [url|e];
      cbn [rbind]; [|reflexivity].
    change (parsed_output (with_surah (parseInt word) q))
      with (parsed_output q).
    assert (Hrun : forall baseUrl output,
               run_command E stringify help_text text_length toLowerCase
                           (with_surah (parseInt word) q) baseUrl output
               = run_command E stringify help_text text_length toLowerCase
                             q baseUrl output).
    { intros baseUrl output. unfold run_command.
      change (parsed_surah (with_surah (parseInt word) q))
        with (Some (parseInt word)).
      rewrite Hword, Hnone. reflexivity. }
    destruct (parsed_output q); try reflexivity.
    rewrite Hrun. reflexivity.
  - rewrite Hrel. reflexivity.
Qed.

Lemma useless_surah_is_ignored_witness :
  sample_main ["download"; "--surah"; "0"; "--base-url"; sample_base] start
  = sample_main ["download"; "--base-url"; sample_base] start.
Proof.
  apply (useless_surah_is_ignored (sample_env listing_123_json)
           (fun _ => "{}") "usage" (fun _ => None) String.length
           JsString.toLowerCase "download" "0"
           ["--base-url"; sample_base] start); reflexivity.
Defined.

(** X21. [--all] is redundant unless both ends of the range are zero or not
    numbers: whenever the parsed start or end of the range is a number
    other than zero, as both defaults are, the run with [--all] right after
    the command is the run without it. *)
Theorem all_flag_is_redundant E stringify help_text mkdir_failure text_length
  toLowerCase cmd rest options w :
  first_command [cmd] = VStr cmd ->
  parseArgs (cmd :: rest) = Ok options ->
  number_truthy (parsed_from options) || number_truthy (parsed_to options)
  = true ->
  main E stringify help_text mkdir_failure text_length toLowerCase
       (cmd :: "--all" :: rest) w
  = main E stringify help_text mkdir_failure text_length toLowerCase
         (cmd :: rest) w.
Proof.
  intros Hcmd Hparse Hrange. unfold main.
  rewrite parseArgs_command in Hparse by exact Hcmd.
  rewrite !parseArgs_command by exact Hcmd.
  change (parse_options ("--all" :: rest)
                        (with_command (VStr cmd) parsed_defaults))
    with (parse_options rest
            (with_all (with_command (VStr cmd) parsed_defaults))).
  pose proof (DispatchFacts.parse_options_all rest
                (with_command (VStr cmd) parsed_defaults)) as Hrel.
  rewrite Hparse in Hrel. rewrite Hrel, Hparse, !bind_lift. cbn [rbind].
  change (parsed_baseUrl (with_all options)) with (parsed_baseUrl options).
  rewrite ?bind_lift.
  destruct (string_receiver "replace" (parsed_baseUrl options)) as [url|e];
    cbn [rbind]; [|reflexivity].
  change (parsed_output (with_all options)) with (parsed_output options).
  assert (Hrun : forall baseUrl output,
             run_command E stringify help_text text_length toLowerCase
                         (with_all options) baseUrl output
             = run_command E stringify help_text text_length toLowerCase
                           options baseUrl output).
  { intros baseUrl output. unfold run_command.
    change (parsed_all (with_all options)) with true.
    change (parsed_from (with_all options)) with (parsed_from options).
    change (parsed_to (with_all options)) with (parsed_to options).
    change (parsed_command (with_all options)) with (parsed_command options).
    change (parsed_surah (with_all options)) with (parsed_surah options).
    change (parsed_language (with_all options))
      with (parsed_language options).
    change (parsed_path (with_all options)) with (parsed_path options).
    change (parsed_params (with_all options)) with (parsed_params options).
    cbn [orb].
    destruct (parsed_all options); cbn [orb]; [reflexivity|].
    rewrite Hrange. reflexivity. }
  destruct (parsed_output options); try reflexivity.
  rewrite Hrun. reflexivity.
Qed.

Lemma all_flag_is_redundant_witness :
  sample_main ["download"; "--all"; "--base-url"; sample_base] start
  = sample_main ["download"; "--base-url"; sample_base] start.
Proof.
  apply (all_flag_is_redundant (sample_env listing_123_json)
           (fun _ => "{}") "usage" (fun _ => None) String.length
           JsString.toLowerCase "download" ["--base-url"; sample_base]
           (with_baseUrl (VStr sample_base)
              (with_command (VStr "download") parsed_defaults)) start);
    reflexivity.
Defined.

(** ** The listings *)

Module TableFacts.

Lemma logged_nil w : logged [] w = w.
Proof. destruct w. unfold logged. cbn. rewrite app_nil_r. reflexivity. Qed.

Lemma logged_printed line lines w :
  logged lines (printed line w) = logged (line :: lines) w.
Proof.
  unfold logged, printed. cbn. rewrite <- app_assoc. reflexivity.
Qed.

(** The loop that prints one row for each element: all the rows, or the
    rows before the first element that has none. *)
Lemma for_each_rows (row : value -> result string) items :
  forall w,
    match mapM row items with
    | Ok rows =>
        for_each items (fun x => let* r := lift (row x) in console_log r) w
        = (Ok tt, logged rows w)
    | Throw e =>
        exists before,
          for_each items (fun x => let* r := lift (row x) in console_log r) w
          = (Throw e, logged before w)
    end.
Proof.
  induction items as [|x items IH]; intros w.
  - cbn. rewrite logged_nil. reflexivity.
  - cbn [mapM for_each].
    assert (Hbody : (let* r := lift (row x) in console_log r) w
                    = match row x with
                      | Ok r => (Ok tt, printed r w)
                      | Throw e => (Throw e, w)
                      end)
      by (rewrite bind_lift; destruct (row x); reflexivity).
    unfold bind at 1. cbv beta. rewrite Hbody.
    destruct (row x) as [r|e]; cbn [rbind]; cbv beta iota.
    + specialize (IH (printed r w)).
      destruct (mapM row items) as [rows|e]; cbn [rbind].
      * etransitivity; [exact IH|]. rewrite logged_printed. reflexivity.
      * destruct IH as [before IH]. exists (r :: before).
        etransitivity; [exact IH|]. rewrite logged_printed. reflexivity.
    + exists []. rewrite logged_nil. reflexivity.
Qed.

End TableFacts.

Lemma bind_printHeader_exact {B : Type} title (k : unit -> M B) w :
  bind (printHeader title) k w = k tt (logged (heading title) w).
Proof.
  change (bind (printHeader title) k w)
    with (k tt (printed (tinted COLORS.cyan (repeat_string "═" 60))
                  (printed (tinted COLORS.cyan ("  " +:+ title))
                     (printed (tinted COLORS.cyan (repeat_string "═" 60))
                        (printed "" w))))).
  f_equal. unfold logged, printed, heading. cbn [requests elapsed files console].
  rewrite <- !app_assoc. reflexivity.
Qed.

Lemma bind_thrown {A B : Type} (m : M A) (k : A -> M B) w e w1 :
  m w = (Throw e, w1) -> bind m k w = (Throw e, w1).
Proof. intros H. unfold bind. rewrite H. reflexivity. Qed.

Lemma bind_ret {A B : Type} (a : A) (k : A -> M B) w :
  bind (ret a) k w = k a w.
Proof. reflexivity. Qed.

Lemma bind_assoc {A B C : Type} (m : M A) (f : A -> M B) (k : B -> M C) w :
  bind (bind m f) k w = bind m (fun a => bind (f a) k) w.
Proof. unfold bind. destruct (m w) as [[a|e] w1]; reflexivity. Qed.

Lemma logged_logged a b w : logged b (logged a w) = logged (a ++ b) w.
Proof.
  unfold logged. cbn [requests elapsed files console].
  rewrite <- app_assoc. reflexivity.
Qed.

Lemma fetchChapters_effects E baseUrl w r w1 :
  fetchChapters E baseUrl w = (r, w1) ->
  requests w1 = requests w + 1 /\ files w1 = files w.
Proof.
  intros H. pose proof (fetchChapters_world E baseUrl w) as Hw.
  rewrite H in Hw. cbn [snd] in Hw. subst w1. cbn. split; [lia|reflexivity].
Qed.

(** X22. [listSurahs] sends the one request for the listing and writes no
    file.  Under the heading it prints one row for each chapter, in the
    order of the listing, and an empty line; a chapter without one of its
    names as a string ends the command with an exception instead. *)
Theorem listSurahs_table E text_length baseUrl w data w1 chapters :
  fetchChapters E baseUrl w = (Ok data, w1) ->
  get_prop data "chapters" = Ok (VArr chapters) ->
  match mapM (surah_row text_length) chapters with
  | Ok rows =>
      exists w',
        listSurahs E text_length baseUrl w = (Ok tt, w') /\
        console w' = console w1 ++ heading "All Surahs (114 Chapters)"
                     ++ surahs_head ++ rows ++ [""] /\
        requests w' = requests w + 1 /\ files w' = files w
  | Throw e =>
      exists w',
        listSurahs E text_length baseUrl w = (Throw e, w') /\
        requests w' = requests w + 1 /\ files w' = files w
  end.
Proof.
  intros Hfetch Hlisting.
  destruct (fetchChapters_effects E baseUrl w _ w1 Hfetch) as [Hreq Hfiles].
  unfold listSurahs. rewrite (bind_okay _ _ _ _ _ Hfetch).
  rewrite bind_printHeader_exact, !bind_console_log, bind_lift, Hlisting.
  rewrite bind_lift. cbn [iterate].
  match goal with
  | |- context [bind (for_each chapters _) _ ?w2] =>
      pose proof (TableFacts.for_each_rows (surah_row text_length) chapters
                    w2) as Hrows
  end.
  destruct (mapM (surah_row text_length) chapters) as [rows|e].
  - eexists. split; [|split; [|split]].
    + eapply eq_trans; [apply bind_okay; exact Hrows|reflexivity].
    + unfold surahs_head. cbn [console printed logged].
      rewrite <- !app_assoc. reflexivity.
    + cbn [requests printed logged]. exact Hreq.
    + cbn [files printed logged]. exact Hfiles.
  - destruct Hrows as [before Hrows]. eexists. split; [|split].
    + apply bind_thrown. exact Hrows.
    + cbn [requests printed logged]. exact Hreq.
    + cbn [files printed logged]. exact Hfiles.
Qed.

Lemma listSurahs_table_witness :
  exists w',
    listSurahs (answering full_listing_json full_listing) String.length
               sample_base start = (Ok tt, w') /\
    length (console w') = 10 /\ requests w' = 1 /\ files w' = [].
Proof.
  pose proof (listSurahs_table (answering full_listing_json full_listing)
                String.length sample_base start full_listing
                (snd (fetchChapters (answering full_listing_json full_listing)
                                    sample_base start))
                _ eq_refl eq_refl) as H.
  destruct H as (w' & Hrun & Hconsole & Hreq & Hfiles).
  exists w'. split; [exact Hrun|]. split; [|split; assumption].
  rewrite Hconsole. reflexivity.
Defined.

Lemma fetchJSON_answer E url w data :
  answer E (requests w) url = Ok data ->
  fetchJSON E url w = (Ok data, sent w).
Proof. intros H. unfold fetchJSON. unfold answer in H. rewrite H. reflexivity. Qed.

(** X23. [listTranslations] sends one request and writes no file.  Of an
    array of translations it shows all, or with a language those whose
    language name contains it, letter case apart; it prints one row for
    each of them and the total it prints is their number. *)
Theorem listTranslations_table E text_length toLowerCase baseUrl language w
  data found :
  answer E (requests w) (baseUrl +:+ "/resources/translations") = Ok data ->
  get_prop data "translations" = Ok (VArr found) ->
  match shown_translations toLowerCase language found with
  | Ok kept =>
      match mapM (translation_row text_length) kept with
      | Ok rows =>
          exists w',
            listTranslations E text_length toLowerCase baseUrl language w
            = (Ok tt, w') /\
            console w'
            = console w ++ heading "Available Translations"
              ++ filter_note language ++ translations_head ++ rows
              ++ [""; tinted COLORS.dim
                        ("  Total: " +:+ pretty (Z.of_nat (length kept))
                         +:+ " translations")] /\
            requests w' = requests w + 1 /\ files w' = files w
      | Throw e =>
          exists w',
            listTranslations E text_length toLowerCase baseUrl language w
            = (Throw e, w') /\
            requests w' = requests w + 1 /\ files w' = files w
      end
  | Throw e =>
      exists w',
        listTranslations E text_length toLowerCase baseUrl language w
        = (Throw e, w') /\
        requests w' = requests w + 1 /\ files w' = files w
  end.
Proof.
  intros Hanswer Hfound.
  pose proof (fetchJSON_answer E _ w data Hanswer) as Hfetch.
  unfold listTranslations. rewrite (bind_okay _ _ _ _ _ Hfetch).
  rewrite bind_printHeader_exact, bind_lift, Hfound.
  change (js_or (VArr found) (VArr [])) with (VArr found).
  unfold shown_translations, filter_note.
  destruct (String.eqb language "") eqn:Hlanguage; cbn [negb].
  - rewrite bind_ret, !bind_console_log, bind_lift. cbn [iterate].
    match goal with
    | |- context [bind (for_each found _) _ ?w2] =>
        pose proof (TableFacts.for_each_rows (translation_row text_length)
                      found w2) as Hrows
    end.
    destruct (mapM (translation_row text_length) found) as [rows|e].
    + eexists. split; [|split; [|split]].
      * eapply eq_trans; [apply bind_okay; exact Hrows|reflexivity].
      * unfold translations_head. cbn [console printed logged sent app].
        rewrite <- !app_assoc. reflexivity.
      * cbn [requests printed logged sent]. lia.
      * reflexivity.
    + destruct Hrows as [before Hrows]. eexists. split; [|split].
      * apply bind_thrown. exact Hrows.
      * cbn [requests printed logged sent]. lia.
      * reflexivity.
  - rewrite bind_assoc, bind_lift. cbn [js_filter].
    destruct (filterM (speaks toLowerCase language) found) as [kept|e].
    2:{ eexists. split; [reflexivity|].
        cbn [requests files logged sent]. split; [lia|reflexivity]. }
    rewrite bind_assoc, bind_console_log, bind_ret.
    rewrite !bind_console_log, bind_lift. cbn [iterate].
    match goal with
    | |- context [bind (for_each kept _) _ ?w2] =>
        pose proof (TableFacts.for_each_rows (translation_row text_length)
                      kept w2) as Hrows
    end.
    destruct (mapM (translation_row text_length) kept) as [rows|e].
    + eexists. split; [|split; [|split]].
      * eapply eq_trans; [apply bind_okay; exact Hrows|reflexivity].
      * unfold translations_head. cbn [console printed logged sent app].
        rewrite <- !app_assoc. reflexivity.
      * cbn [requests printed logged sent]. lia.
      * reflexivity.
    + destruct Hrows as [before Hrows]. eexists. split; [|split].
      * apply bind_thrown. exact Hrows.
      * cbn [requests printed logged sent]. lia.
      * reflexivity.
Qed.

Lemma listTranslations_table_witness :
  exists w',
    listTranslations (answering two_translations_json two_translations)
                     String.length JsString.toLowerCase sample_base "INDO"
                     start = (Ok tt, w') /\
    last (console w')
    = Some (tinted COLORS.dim "  Total: 1 translations") /\
    requests w' = 1.
Proof.
  pose proof (listTranslations_table
                (answering two_translations_json two_translations)
                String.length JsString.toLowerCase sample_base "INDO" start
                two_translations _ eq_refl eq_refl) as H.
  destruct H as (w' & Hrun & Hconsole & Hreq & _).
  exists w'. split; [exact Hrun|]. split; [|exact Hreq].
  rewrite Hconsole. reflexivity.
Defined.



(** ** The renaming script *)

Module RenameFacts.

Lemma three_digits_are_digits n :
  (0 <= n <= 999)%Z ->
  JsString.is_digit (digit_char (n / 100))
  && JsString.is_digit (digit_char (n / 10 mod 10))
  && JsString.is_digit (digit_char (n mod 10)) = true.
Proof.
  intros Hn.
  assert (Hall :
    forallb (fun k =>
               JsString.is_digit (digit_char (Z.of_nat k / 100))
               && JsString.is_digit (digit_char (Z.of_nat k / 10 mod 10))
               && JsString.is_digit (digit_char (Z.of_nat k mod 10)))
            (seq 0 1000) = true) by (vm_compute; reflexivity).
  rewrite forallb_forall in Hall.
  specialize (Hall (Z.to_nat n)).
  rewrite Z2Nat.id in Hall by lia.
  apply Hall, in_seq. lia.
Qed.

Lemma has_prefix_three n rest :
  (0 <= n <= 999)%Z ->
  has_prefix (three_digits n +:+ "-" +:+ rest) = true.
Proof.
  intros Hn.
  change (has_prefix (three_digits n +:+ "-" +:+ rest))
    with (JsString.is_digit (digit_char (n / 100))
          && JsString.is_digit (digit_char (n / 10 mod 10))
          && JsString.is_digit (digit_char (n mod 10)) && true).
  rewrite (three_digits_are_digits n Hn). reflexivity.
Qed.

Lemma endsWith_app suffix front : endsWith suffix (front +:+ suffix) = true.
Proof.
  induction front as [|c front IH].
  - change ("" +:+ suffix) with suffix.
    destruct suffix; cbn [endsWith]; rewrite String.eqb_refl; reflexivity.
  - change (String c front +:+ suffix) with (String c (front +:+ suffix)).
    cbn [endsWith]. rewrite IH. apply orb_true_r.
Qed.

Lemma moved_lookup from to fs path content :
  moved from to fs !! path = Some content ->
  exists path0, fs !! path0 = Some content.
Proof.
  unfold moved. destruct (fs !! from) as [c|] eqn:Hfrom; [|eauto].
  destruct (decide (to = path)) as [->|Hne].
  - rewrite lookup_insert_eq. intros [= <-]. eauto.
  - rewrite lookup_insert_ne by exact Hne.
    destruct (decide (from = path)) as [->|Hne'].
    + rewrite lookup_delete_eq. discriminate.
    + rewrite lookup_delete_ne by exact Hne'. eauto.
Qed.

Lemma moved_size from to fs : size (moved from to fs) <= size fs.
Proof.
  unfold moved. destruct (fs !! from) as [c|] eqn:Hfrom; [|lia].
  rewrite map_size_insert.
  rewrite (map_size_delete_Some from fs) by (rewrite Hfrom; eauto).
  assert (Hpos : size fs <> 0).
  { intros Hz. apply map_size_empty_iff in Hz. subst fs.
    rewrite lookup_empty in Hfrom. discriminate. }
  destruct (delete from fs !! to); unfold id; lia.
Qed.

Lemma moved_keeps from to fs path :
  is_Some (fs !! path) -> from <> path -> is_Some (moved from to fs !! path).
Proof.
  intros Hsome Hne. unfold moved.
  destruct (fs !! from) as [c|] eqn:Hfrom; [|exact Hsome].
  destruct (decide (to = path)) as [->|Hne'].
  - rewrite lookup_insert_eq. eauto.
  - rewrite lookup_insert_ne, lookup_delete_ne by assumption. exact Hsome.
Qed.

Section Steps.

Variable join : string -> string -> string.
Variable parse : string -> value + string.
Variable read_error : string -> string.
Variable rename_failure :
  gmap string string -> string -> string -> option js_error.

(** What a file can do to the files and to the counter. *)
Lemma try_rename_cases file s s' :
  try_rename join parse read_error rename_failure file s = Ok s' ->
  (shelf_files s' = shelf_files s /\ shelf_renamed s' = shelf_renamed s) \/
  (exists newPath,
     shelf_files s' = moved (join dataDir file) newPath (shelf_files s) /\
     shelf_renamed s' = S (shelf_renamed s)).
Proof.
  unfold try_rename. intros H.
  apply rbind_ok in H as (text & _ & H).
  apply rbind_ok in H as (content & _ & H).
  apply rbind_ok in H as (surah & _ & H).
  destruct (truthy (opt_prop surah "id")).
  - apply rbind_ok in H as (shown_id & _ & H).
    destruct (rename_failure _ _ _); [discriminate|].
    injection H as <-. right. eexists. split; reflexivity.
  - injection H as <-. left. split; reflexivity.
Qed.

Lemma rename_one_cases s file :
  (shelf_files (rename_one join parse read_error rename_failure s file)
   = shelf_files s /\
   shelf_renamed (rename_one join parse read_error rename_failure s file)
   = shelf_renamed s) \/
  (has_prefix file = false /\
   exists newPath,
     shelf_files (rename_one join parse read_error rename_failure s file)
     = moved (join dataDir file) newPath (shelf_files s) /\
     shelf_renamed (rename_one join parse read_error rename_failure s file)
     = S (shelf_renamed s)).
Proof.
  unfold rename_one. destruct (has_prefix file) eqn:Hp.
  - left. split; reflexivity.
  - destruct (try_rename join parse read_error rename_failure file s)
      as [s'|e] eqn:Htry.
    + destruct (try_rename_cases file s s' Htry) as [H|H]; [left; exact H|].
      right. split; [reflexivity|exact H].
    + left. split; reflexivity.
Qed.

(** What the loop keeps, from any state on. *)
Lemma fold_rename_invariant files :
  forall s,
    let s' := fold_left (rename_one join parse read_error rename_failure)
                        files s in
    (forall path content,
       shelf_files s' !! path = Some content ->
       exists path0, shelf_files s !! path0 = Some content) /\
    size (shelf_files s') <= size (shelf_files s) /\
    shelf_renamed s <= shelf_renamed s' <= shelf_renamed s + length files /\
    (forall path,
       is_Some (shelf_files s !! path) ->
       (forall file, In file files -> has_prefix file = false ->
                     join dataDir file <> path) ->
       is_Some (shelf_files s' !! path)).
Proof.
  induction files as [|file files IH]; intros s; cbn zeta.
  - cbn [fold_left length]. repeat split; eauto; lia.
  - cbn [fold_left length].
    specialize (IH (rename_one join parse read_error rename_failure s file)).
    cbn zeta in IH. destruct IH as (IHc & IHs & IHr & IHk).
    destruct (rename_one_cases s file)
      as [[Hf Hr]|(Hp & newPath & Hf & Hr)]; rewrite Hf, Hr in *.
    + repeat split; try lia; [exact IHc|].
      intros path Hsome Hfiles. apply IHk; [exact Hsome|].
      intros f Hin. apply Hfiles. right. exact Hin.
    + repeat split; try lia.
      * intros path content Hl. destruct (IHc path content Hl) as [p0 Hp0].
        eapply moved_lookup, Hp0.
      * etransitivity; [exact IHs|apply moved_size].
      * intros path Hsome Hfiles. apply IHk.
        -- apply moved_keeps; [exact Hsome|].
           apply Hfiles; [left; reflexivity|exact Hp].
        -- intros f Hin. apply Hfiles. right. exact Hin.
Qed.

End Steps.

End RenameFacts.

(** X25. The renaming script skips every file the download tool writes for
    a chapter with an id from 0 to 999: its name ends in [.json], begins
    with three digits and a hyphen, and the script leaves the files and its
    counter as they are. *)
Theorem downloaded_files_are_skipped join parse read_error rename_failure
  chapter n fn s :
  get_prop chapter "id" = Ok (VNum n) ->
  (0 <= n <= 999)%Z ->
  output_filename chapter = Ok fn ->
  endsWith ".json" fn = true /\ has_prefix fn = true /\
  rename_one join parse read_error rename_failure s fn
  = say ("  Skip: " +:+ fn +:+ " (already has prefix)") s.
Proof.
  intros Hid Hn Hfn.
  destruct (output_filename_shape chapter n fn Hid Hfn) as [slug ->].
  rewrite padStart_three_digits by exact Hn.
  assert (Hp : has_prefix (three_digits n +:+ "-" +:+ slug +:+ ".json") = true)
    by (apply RenameFacts.has_prefix_three, Hn).
  split; [|split; [exact Hp|]].
  - rewrite <- !ParseIntFacts.append_assoc. apply RenameFacts.endsWith_app.
  - unfold rename_one. rewrite Hp. reflexivity.
Qed.

Lemma downloaded_files_are_skipped_witness :
  has_prefix "003-ali-imran.json" = true /\
  endsWith ".json" "003-ali-imran.json" = true.
Proof.
  destruct (downloaded_files_are_skipped sample_join sample_contents
              (fun _ => "ENOENT") (fun _ _ _ => None)
              (chapter_value 3 "Ali 'Imran") 3 "003-ali-imran.json"
              {| shelf_files := sample_shelf; shelf_console := [];
                 shelf_renamed := 0 |}
              eq_refl ltac:(lia) eq_refl) as (Hends & Hprefix & _).
  split; assumption.
Defined.

(** X26. A file without the prefix whose document has a surah id from 1 to
    999 is renamed to the id in three digits, a hyphen and its old name;
    its content moves with it, the counter goes up by one, the new name
    has the prefix, so that the script skips it from then on, and the
    number at its start is the id. *)
Theorem renamed_file_gets_prefix join parse read_error rename_failure
  file s text content surah n :
  has_prefix file = false ->
  shelf_files s !! join dataDir file = Some text ->
  parse text = inl content ->
  get_prop content "surah" = Ok surah ->
  opt_prop surah "id" = VNum n ->
  (1 <= n <= 999)%Z ->
  rename_failure (shelf_files s) (join dataDir file)
                 (join dataDir (three_digits n +:+ "-" +:+ file)) = None ->
  rename_one join parse read_error rename_failure s file
  = {| shelf_files :=
         <[join dataDir (three_digits n +:+ "-" +:+ file) := text]>
           (delete (join dataDir file) (shelf_files s));
       shelf_console :=
         shelf_console s
         ++ ["  ✓ " +:+ file +:+ " -> " +:+ three_digits n +:+ "-" +:+ file];
       shelf_renamed := S (shelf_renamed s) |} /\
  has_prefix (three_digits n +:+ "-" +:+ file) = true /\
  parseInt (three_digits n +:+ "-" +:+ file) = Some n.
Proof.
  intros Hp Hread Hparse Hsurah Hid Hn Hrename.
  split; [|split].
  - unfold rename_one, try_rename, readFileSync. rewrite Hp, Hread.
    cbn [rbind]. rewrite Hparse. cbn [rbind]. rewrite Hsurah. cbn [rbind].
    rewrite Hid. cbn [truthy to_string].
    destruct (n =? 0)%Z eqn:Hz; [lia|]. cbn [negb rbind].
    rewrite padStart_three_digits by lia. rewrite Hrename.
    unfold moved. rewrite Hread. reflexivity.
  - apply RenameFacts.has_prefix_three. lia.
  - rewrite <- (padStart_three_digits n) by lia.
    assert (Hpretty : pretty n = pretty (Z.to_N n))
      by (destruct n; [reflexivity..|lia]).
    rewrite Hpretty, ParseIntFacts.parseInt_padded by reflexivity.
    f_equal. lia.
Qed.

Lemma renamed_file_gets_prefix_witness :
  shelf_files
    (rename_one sample_join sample_contents (fun _ => "ENOENT")
                (fun _ _ _ => None)
                {| shelf_files := sample_shelf; shelf_console := [];
                   shelf_renamed := 0 |} "al-baqarah.json")
  !! "./data/002-al-baqarah.json" = Some "two".
Proof.
  destruct (renamed_file_gets_prefix sample_join sample_contents
              (fun _ => "ENOENT") (fun _ _ _ => None) "al-baqarah.json"
              {| shelf_files := sample_shelf; shelf_console := [];
                 shelf_renamed := 0 |}
              "two" (obj [("surah", obj [("id", VNum 2)])])
              (obj [("id", VNum 2)]) 2
              eq_refl eq_refl eq_refl eq_refl eq_refl ltac:(lia) eq_refl)
    as (Hrun & _).
  rewrite Hrun. reflexivity.
Defined.

(** X27. The script only moves files.  After a run every content is the
    content of a file from before the run, there are no more files than
    before, a path that is not the path of a listed file without the
    prefix still holds a file, and the counter is at most the number of
    the listed [.json] files. *)
Theorem rename_only_moves join parse read_error rename_failure listed fs :
  let s := rename_files join parse read_error rename_failure listed fs in
  (forall path content,
     shelf_files s !! path = Some content ->
     exists path0, fs !! path0 = Some content) /\
  size (shelf_files s) <= size fs /\
  shelf_renamed s <= length (List.filter (endsWith ".json") listed) /\
  (forall path,
     is_Some (fs !! path) ->
     (forall file, In file listed -> endsWith ".json" file = true ->
                   has_prefix file = false -> join dataDir file <> path) ->
     is_Some (shelf_files s !! path)).
Proof.
  cbn zeta. unfold rename_files.
  pose proof (RenameFacts.fold_rename_invariant join parse read_error
                rename_failure (List.filter (endsWith ".json") listed)
                (say ("Found "
                      +:+ pretty (length (List.filter (endsWith ".json")
                                                      listed))
                      +:+ " JSON files to rename..." +:+ newline)
                     {| shelf_files := fs; shelf_console := [];
                        shelf_renamed := 0 |})) as H.
  cbn zeta in H. destruct H as (Hc & Hs & Hr & Hk).
  cbn [shelf_files shelf_renamed say] in *.
  repeat split; [exact Hc|exact Hs|lia|].
  intros path Hsome Hfiles. apply Hk; [exact Hsome|].
  intros file Hin. apply filter_In in Hin as [Hin Hjson].
  apply Hfiles; assumption.
Qed.

(** ** The range of the command line *)

(** On two integers the range download of [main] is [downloadAllSurahs]. *)
Lemma download_range_numbers E baseUrl outputDir startFrom endAt w :
  download_range E baseUrl outputDir (Some startFrom) (Some endAt) w
  = downloadAllSurahs E baseUrl outputDir startFrom endAt w.
Proof. reflexivity. Qed.

Lemma in_bounds_nan E startFrom endAt c :
  startFrom = None \/ endAt = None ->
  in_bounds E startFrom endAt c <> Ok true.
Proof.
  intros Hnan H. unfold in_bounds, at_least, at_most in H.
  apply rbind_ok in H as (c_id & Hid & H).
  apply rbind_ok in H as (above & Habove & H).
  apply rbind_ok in Habove as (m & Hm & Habove). injection Habove as <-.
  destruct startFrom as [a|]; [|discriminate].
  destruct Hnan as [Hnan | Hnan]; [discriminate|subst endAt].
  destruct m as [z|]; [|discriminate].
  destruct (a <=? z)%Z; [|discriminate].
  apply rbind_ok in H as (c_id' & Hid' & H).
  apply rbind_ok in H as (m' & Hm' & H). discriminate.
Qed.

(** X28. A range one of whose ends is not a number, as after [--from abc],
    holds no chapter: the range download asks for the listing, prints its
    heading with the count 0 and [NaN] for that end, and writes no
    file. *)
Theorem nan_range_downloads_nothing E baseUrl outputDir startFrom endAt
  w data w1 listing chapters :
  startFrom = None \/ endAt = None ->
  fetchChapters E baseUrl w = (Ok data, w1) ->
  get_prop data "chapters" = Ok listing ->
  js_filter listing (in_bounds E startFrom endAt) = Ok chapters ->
  chapters = [] /\
  exists w',
    download_range E baseUrl outputDir startFrom endAt w = (Ok tt, w') /\
    files w' = files w /\ requests w' = requests w + 1 /\
    console w'
    = console w1 ++ heading "Downloading 0 Surahs"
      ++ ["  From: Surah " +:+ show_number E startFrom +:+ " to Surah "
          +:+ show_number E endAt;
          "  Output: " +:+ outputDir; "";
          tinted COLORS.green (newline +:+ "✓ Download complete!")].
Proof.
  intros Hnan Hfetch Hlisting Hfilter.
  assert (Hnil : chapters = []).
  { destruct (js_filter_entries _ _ _ Hfilter) as (entries & _ & ->).
    clear Hfilter. induction entries as [|c entries IH]; [reflexivity|].
    cbn [List.filter].
    destruct (in_bounds E startFrom endAt c) as [[]|] eqn:Hc;
      [|exact IH..].
    destruct (in_bounds_nan E startFrom endAt c Hnan Hc). }
  split; [exact Hnil|]. subst chapters.
  destruct (fetchChapters_effects E baseUrl w _ w1 Hfetch) as [Hreq Hfiles].
  unfold download_range. rewrite (bind_okay _ _ _ _ _ Hfetch).
  rewrite bind_lift, Hlisting, bind_lift, Hfilter.
  rewrite bind_printHeader_exact, !bind_console_log.
  cbn [for_each]. rewrite bind_ret.
  eexists. split; [reflexivity|].
  cbn [files requests console printed logged].
  split; [exact Hfiles|]. split; [exact Hreq|].
  rewrite <- !app_assoc. reflexivity.
Qed.

Lemma nan_range_downloads_nothing_witness :
  exists w',
    download_range (sample_env listing_123_json) sample_base "data"
                   (parseInt "abc") (Some 114%Z) start = (Ok tt, w') /\
    files w' = [] /\ requests w' = 1.
Proof.
  destruct (nan_range_downloads_nothing (sample_env listing_123_json)
              sample_base "data" (parseInt "abc") (Some 114%Z) start
              listing_123
              (snd (fetchChapters (sample_env listing_123_json) sample_base
                                  start))
              _ []
              (or_introl eq_refl) eq_refl eq_refl eq_refl)
    as (_ & w' & Hrun & Hfiles & Hreq & _).
  exists w'. split; [exact Hrun|]. split; assumption.
Defined.

(** X29. From the base URL [main] takes one slash at the end, and no more:
    a URL that ends in a slash loses it, even if another slash comes before
    it, and a URL that does not end in a slash is left as it is. *)
Theorem strip_slash_spec url :
  strip_slash (url +:+ "/") = url /\
  (endsWith "/" url = false -> strip_slash url = url).
Proof.
  split.
  - induction url as [|c url IH]; [reflexivity|].
    change (String c url +:+ "/") with (String c (url +:+ "/")).
    cbn [strip_slash]. rewrite IH.
    destruct url; reflexivity.
  - induction url as [|c url IH]; [reflexivity|].
    cbn [endsWith]. intros H. apply orb_false_iff in H as [Hc Hrest].
    cbn [strip_slash]. destruct url as [|d url].
    + destruct (Ascii.eqb_spec c "/") as [->|]; [discriminate|reflexivity].
    + rewrite (IH Hrest). reflexivity.
Qed.

Lemma strip_slash_spec_witness :
  strip_slash "https://api.test/v4//" = "https://api.test/v4/" /\
  strip_slash "https://api.test/v4" = "https://api.test/v4".
Proof.
  split.
  - apply (proj1 (strip_slash_spec "https://api.test/v4/")).
  - apply (proj2 (strip_slash_spec "https://api.test/v4")). reflexivity.
Defined.

(** ** The commands, run by run *)

Lemma lift_ok {A : Type} (r : result A) a w : r = Ok a -> lift r w = (Ok a, w).
Proof. intros ->. reflexivity. Qed.

Section ConsoleFacts.

Variable E : Env.

Lemma adds_bind {A B : Type} (m : M A) (k : A -> M B) :
  adds_lines m -> (forall a, adds_lines (k a)) -> adds_lines (bind m k).
Proof.
  intros Hm Hk w. unfold bind. destruct (Hm w) as [more Hmore].
  destruct (m w) as [[a|e] w1]; cbn [snd] in *.
  - destruct (Hk a w1) as [more' Hmore']. exists (more ++ more').
    rewrite Hmore', Hmore, <- app_assoc. reflexivity.
  - exists more. exact Hmore.
Qed.

Lemma adds_nothing {A : Type} (m : M A) :
  (forall w, console (snd (m w)) = console w) -> adds_lines m.
Proof. intros H w. exists []. rewrite H, app_nil_r. reflexivity. Qed.

Lemma adds_ret {A : Type} (a : A) : adds_lines (ret a).
Proof. apply adds_nothing. reflexivity. Qed.

Lemma adds_throw {A : Type} e : adds_lines (@throw A e).
Proof. apply adds_nothing. reflexivity. Qed.

Lemma adds_lift {A : Type} (r : result A) : adds_lines (lift r).
Proof. apply adds_nothing. reflexivity. Qed.

Lemma adds_console_log line : adds_lines (console_log line).
Proof. intros w. exists [line]. reflexivity. Qed.

Lemma adds_colorLog color msg : adds_lines (colorLog color msg).
Proof. intros w. eexists [_]. reflexivity. Qed.

Lemma adds_sleep ms : adds_lines (sleep ms).
Proof. apply adds_nothing. reflexivity. Qed.

Lemma adds_now : adds_lines (now E).
Proof. apply adds_nothing. reflexivity. Qed.

Lemma adds_fetchJSON url : adds_lines (fetchJSON E url).
Proof. apply adds_nothing. reflexivity. Qed.

Lemma adds_writeFileSync path content :
  adds_lines (writeFileSync E path content).
Proof.
  apply adds_nothing. intros w. unfold writeFileSync.
  destruct (write_failure E (files w) path); reflexivity.
Qed.

Ltac adds :=
  repeat first
    [ apply adds_bind; [|intros ?]
    | apply adds_ret | apply adds_throw | apply adds_lift
    | apply adds_console_log | apply adds_colorLog | apply adds_sleep
    | apply adds_now | apply adds_fetchJSON | apply adds_writeFileSync ].

Lemma adds_fetchFragments baseUrl chapter :
  adds_lines (fetchFragments E baseUrl chapter).
Proof.
  unfold fetchFragments, fetchUthmaniText, fetchImlaeiText,
    fetchUthmaniTajweedText, fetchVersesWithWords.
  adds.
Qed.

Lemma adds_buildSurahData baseUrl chapter :
  adds_lines (buildSurahData E baseUrl chapter).
Proof.
  unfold buildSurahData.
  apply adds_bind; [apply adds_fetchFragments|intros ?]. adds.
Qed.

Lemma adds_download_chapter baseUrl outputDir c :
  adds_lines (download_chapter E baseUrl outputDir c).
Proof.
  unfold download_chapter.
  do 4 (apply adds_bind; [adds|intros ?]).
  apply adds_bind; [apply adds_buildSurahData|intros ?]. adds.
Qed.

(** The console of a batch: what was there stays, and every exception of
    the batch has its report on it. *)
Lemma batch_reports baseUrl outputDir chapters w w' saved failed :
  Batch E baseUrl outputDir chapters w w' saved failed ->
  (exists more, console w' = console w ++ more) /\
  Forall (fun e => In (report_line e) (console w')) failed.
Proof.
  induction 1 as [w|c rest w w1 w' saved failed Hd _ [[more Hmore] IH]
                  |c rest w e w1 w' saved failed Hd _ [[more Hmore] IH]].
  - split; [exists []; rewrite app_nil_r; reflexivity|constructor].
  - destruct (adds_download_chapter baseUrl outputDir c w) as [more1 H1].
    rewrite Hd in H1. cbn [snd] in H1. split; [|exact IH].
    exists (more1 ++ more). rewrite Hmore, H1, <- app_assoc. reflexivity.
  - destruct (adds_download_chapter baseUrl outputDir c w) as [more1 H1].
    rewrite Hd in H1. cbn [snd] in H1. cbn [console printed] in Hmore.
    split.
    + exists (more1 ++ report_line e :: more).
      rewrite Hmore, H1, <- !app_assoc. reflexivity.
    + constructor; [|exact IH].
      rewrite Hmore. apply in_or_app. left. apply in_or_app. right.
      left. reflexivity.
Qed.

Lemma batch_count baseUrl outputDir chapters w w' saved failed :
  Batch E baseUrl outputDir chapters w w' saved failed ->
  length saved + length failed = length chapters.
Proof. induction 1; cbn [length]; lia. Qed.

(** The statements of a chapter in a batch, once the three texts of its
    first line are there: the document is built in the world with that
    line, and the file is written when the document and its name are
    there. *)
Lemma download_chapter_run baseUrl outputDir c w c_id simple arabic :
  shown c "id" = Ok c_id ->
  shown c "name_simple" = Ok simple ->
  shown c "name_arabic" = Ok arabic ->
  download_chapter E baseUrl outputDir c w
  = match buildSurahData E baseUrl c
            (printed (turn_line c_id simple arabic) w) with
    | (Throw e, w1) => (Throw e, w1)
    | (Ok doc, w1) =>
        match output_filename c with
        | Throw e => (Throw e, w1)
        | Ok name =>
            match write_failure E (files w1) (path_join E outputDir name) with
            | Some e => (Throw e, w1)
            | None =>
                (Ok tt,
                 slept 500
                   (printed (tinted COLORS.green
                               ("  ✓ " +:+ name +:+ " ("
                                +:+ pretty (total_ayahs (stats doc))
                                +:+ " ayahs)"))
                      (written (path_join E outputDir name)
                               (JSON_stringify E doc) w1)))
            end
        end
    end.
Proof.
  intros Hid Hsimple Harabic. unfold download_chapter.
  rewrite (bind_okay _ _ _ _ _ (lift_ok _ _ w Hid)).
  rewrite (bind_okay _ _ _ _ _ (lift_ok _ _ w Hsimple)).
  rewrite (bind_okay _ _ _ _ _ (lift_ok _ _ w Harabic)).
  rewrite bind_colorLog. unfold bind at 1.
  change (printed (COLORS.code COLORS.blue
                   +:+ (newline +:+ "[" +:+ c_id +:+ "/114] " +:+ simple
                        +:+ " (" +:+ arabic +:+ ")")
                   +:+ COLORS.code COLORS.reset) w)
    with (printed (turn_line c_id simple arabic) w).
  destruct (buildSurahData E baseUrl c (printed (turn_line c_id simple arabic) w))
    as [[doc|e] w1]; [|reflexivity].
  rewrite bind_lift. destruct (output_filename c) as [name|e]; [|reflexivity].
  unfold bind at 1, writeFileSync.
  destruct (write_failure E (files w1) (path_join E outputDir name));
    reflexivity.
Qed.

(** The single download, once the chapter is found and the texts of its
    heading are there. *)
Lemma downloadSurah_run baseUrl outputDir surahId w data w1 listing c
  simple arabic c_id c_count c_place :
  fetchChapters E baseUrl w = (Ok data, w1) ->
  get_prop data "chapters" = Ok listing ->
  js_find listing (fun c => let! c_id := get_prop c "id" in
                            Ok (is_number surahId c_id)) = Ok c ->
  truthy c = true ->
  shown c "name_simple" = Ok simple ->
  shown c "name_arabic" = Ok arabic ->
  shown c "id" = Ok c_id ->
  shown c "verses_count" = Ok c_count ->
  shown c "revelation_place" = Ok c_place ->
  downloadSurah E baseUrl outputDir surahId w
  = match buildSurahData E baseUrl c
            (single_start simple arabic c_id c_count c_place w1) with
    | (Throw e, w2) => (Throw e, w2)
    | (Ok doc, w2) =>
        match output_filename c with
        | Throw e => (Throw e, w2)
        | Ok name =>
            match write_failure E (files w2) (path_join E outputDir name) with
            | Some e => (Throw e, w2)
            | None =>
                (Ok doc,
                 logged [tinted COLORS.green
                           ("  ✓ Saved to: " +:+ path_join E outputDir name);
                         "    → " +:+ pretty (total_ayahs (stats doc))
                         +:+ " ayahs";
                         "    → " +:+ pretty (total_words_en (stats doc))
                         +:+ " words (EN)";
                         "    → " +:+ pretty (total_words_id (stats doc))
                         +:+ " words (ID)"]
                        (written (path_join E outputDir name)
                                 (JSON_stringify E doc) w2))
            end
        end
    end.
Proof.
  intros Hfetch Hlisting Hfind Htruthy Hsimple Harabic Hid Hcount Hplace.
  unfold downloadSurah.
  rewrite (bind_okay _ _ _ _ _ Hfetch).
  rewrite (bind_okay _ _ _ _ _ (lift_ok _ _ w1 Hlisting)).
  rewrite (bind_okay _ _ _ _ _ (lift_ok _ _ w1 Hfind)).
  rewrite Htruthy. cbn [negb].
  rewrite (bind_okay _ _ _ _ _ (lift_ok _ _ w1 Hsimple)).
  rewrite (bind_okay _ _ _ _ _ (lift_ok _ _ w1 Harabic)).
  rewrite bind_printHeader_exact.
  rewrite (bind_okay _ _ _ _ _ (lift_ok _ _ _ Hid)).
  rewrite (bind_okay _ _ _ _ _ (lift_ok _ _ _ Hcount)).
  rewrite (bind_okay _ _ _ _ _ (lift_ok _ _ _ Hplace)).
  rewrite !bind_console_log. unfold bind at 1.
  fold (single_start simple arabic c_id c_count c_place w1).
  destruct (buildSurahData E baseUrl c
              (single_start simple arabic c_id c_count c_place w1))
    as [[doc|e] w2]; [|reflexivity].
  rewrite bind_lift. destruct (output_filename c) as [name|e]; [|reflexivity].
  unfold bind at 1, writeFileSync.
  destruct (write_failure E (files w2) (path_join E outputDir name));
    [reflexivity|].
  rewrite bind_colorLog, !bind_console_log. unfold ret. f_equal.
  unfold logged, printed, tinted. cbn [requests elapsed files console].
  rewrite <- !app_assoc. reflexivity.
Qed.

Lemma bind_result {A B : Type} (m : M A) (k : A -> M B) w r w1 :
  m w = (r, w1) ->
  bind m k w = match r with Ok a => k a w1 | Throw e => (Throw e, w1) end.
Proof. intros H. unfold bind. rewrite H. reflexivity. Qed.

Lemma fetchUthmaniText_answer baseUrl cid n w :
  to_string cid = Ok n ->
  fetchUthmaniText E baseUrl cid w
  = (answer E (requests w) (uthmani_url baseUrl n), sent w).
Proof.
  intros Hn. unfold fetchUthmaniText. rewrite bind_lift, Hn. reflexivity.
Qed.

Lemma fetchImlaeiText_answer baseUrl cid n w :
  to_string cid = Ok n ->
  fetchImlaeiText E baseUrl cid w
  = (answer E (requests w) (imlaei_url baseUrl n), sent w).
Proof.
  intros Hn. unfold fetchImlaeiText. rewrite bind_lift, Hn. reflexivity.
Qed.

Lemma fetchUthmaniTajweedText_answer baseUrl cid n w :
  to_string cid = Ok n ->
  fetchUthmaniTajweedText E baseUrl cid w
  = (answer E (requests w) (tajweed_url baseUrl n), sent w).
Proof.
  intros Hn. unfold fetchUthmaniTajweedText. rewrite bind_lift, Hn.
  reflexivity.
Qed.

Lemma fetchVersesWithWords_answer baseUrl cid n lang w :
  to_string cid = Ok n ->
  fetchVersesWithWords E baseUrl cid lang
    [TRANSLATION_IDS.english; TRANSLATION_IDS.indonesian] w
  = (answer E (requests w) (verses_url baseUrl n lang), sent w).
Proof.
  intros Hn. unfold fetchVersesWithWords. rewrite bind_lift, Hn.
  reflexivity.
Qed.

(** The five requests end with the exception of the first of them that
    fails; none is made after it. *)
Lemma fetchFragments_answers baseUrl c w cid n :
  get_prop c "id" = Ok cid ->
  to_string cid = Ok n ->
  fst (fetchFragments E baseUrl c w)
  = fragments_of_answers E baseUrl n (requests w).
Proof.
  intros Hid Hn. unfold fetchFragments, fragments_of_answers.
  replace (requests w + 1) with (S (requests w)) by lia.
  replace (requests w + 2) with (S (S (requests w))) by lia.
  replace (requests w + 3) with (S (S (S (requests w)))) by lia.
  replace (requests w + 4) with (S (S (S (S (requests w))))) by lia.
  rewrite (bind_okay _ _ _ _ _ (lift_ok _ _ w Hid)), bind_colorLog.
  rewrite (bind_result _ _ _ _ _ (fetchUthmaniText_answer baseUrl cid n _ Hn)).
  cbn [requests printed sent slept].
  destruct (answer E (requests w) (uthmani_url baseUrl n)) as [v0|e];
    [|reflexivity].
  cbn [rbind]. rewrite bind_sleep, bind_colorLog.
  rewrite (bind_result _ _ _ _ _ (fetchImlaeiText_answer baseUrl cid n _ Hn)).
  cbn [requests printed sent slept].
  destruct (answer E (S (requests w)) (imlaei_url baseUrl n)) as [v1|e];
    [|reflexivity].
  cbn [rbind]. rewrite bind_sleep, bind_colorLog.
  rewrite (bind_result _ _ _ _ _
             (fetchUthmaniTajweedText_answer baseUrl cid n _ Hn)).
  cbn [requests printed sent slept].
  destruct (answer E (S (S (requests w))) (tajweed_url baseUrl n)) as [v2|e];
    [|reflexivity].
  cbn [rbind]. rewrite bind_sleep, bind_colorLog.
  rewrite (bind_result _ _ _ _ _
             (fetchVersesWithWords_answer baseUrl cid n "en" _ Hn)).
  cbn [requests printed sent slept].
  destruct (answer E (S (S (S (requests w)))) (verses_url baseUrl n "en"))
    as [v3|e]; [|reflexivity].
  cbn [rbind]. rewrite bind_sleep, bind_colorLog.
  rewrite (bind_result _ _ _ _ _
             (fetchVersesWithWords_answer baseUrl cid n "id" _ Hn)).
  cbn [requests printed sent slept].
  destruct (answer E (S (S (S (S (requests w))))) (verses_url baseUrl n "id"))
    as [v4|e]; reflexivity.
Qed.

End ConsoleFacts.

(** C8, as the code has it.  A ranged download throws only before any
    chapter has its turn: when the listing cannot be fetched, or the
    chapters of the closed interval cannot be selected from it; nothing has
    been written then.  Once they are selected it cannot end with an
    exception.  The batch starts in the world of this run after the heading
    and ends in the world before the closing line of this run: every
    chapter of the selection has its turn in it, in the order of the
    listing; an exception raised in a chapter's turn, by a request, by the
    merge or by the write, is caught and reported on the console, and the
    next chapter has its turn.  Every chapter is saved or has failed, the
    report of every failure is on the console at the end, and the files the
    run adds are those of the chapters whose turn ran to the end, one each
    and in the order of the listing; they are in ascending order of the ids
    when the listing is. *)
Theorem batch_isolates_failures E baseUrl outputDir startFrom endAt w :
  (forall data w1 listing chapters,
     fetchChapters E baseUrl w = (Ok data, w1) ->
     get_prop data "chapters" = Ok listing ->
     js_filter listing (in_interval E startFrom endAt) = Ok chapters ->
     exists w3 w' saved failed outs entries,
       downloadAllSurahs E baseUrl outputDir startFrom endAt w = (Ok tt, w') /\
       w' = printed closing_line w3 /\
       Batch E baseUrl outputDir chapters
             (batch_start E outputDir startFrom endAt chapters w1) w3
             saved failed /\
       length saved + length failed = length chapters /\
       Forall (fun e => In (report_line e) (console w')) failed /\
       files w' = files w ++ outs /\
       Forall2 (file_of E baseUrl outputDir) saved outs /\
       sublist saved chapters /\
       listing = VArr entries /\
       sublist chapters entries /\
       (forall c n,
          In c entries -> member c "id" = Some (VNum n) ->
          (In c chapters <-> (startFrom <= n <= endAt)%Z)) /\
       (StronglySorted id_before entries -> StronglySorted id_before saved)) /\
  (forall e w',
     downloadAllSurahs E baseUrl outputDir startFrom endAt w = (Throw e, w') ->
     w' = snd (fetchChapters E baseUrl w) /\
     files w' = files w /\
     (fst (fetchChapters E baseUrl w) = Throw e \/
      exists data,
        fst (fetchChapters E baseUrl w) = Ok data /\
        (get_prop data "chapters" = Throw e \/
         exists listing,
           get_prop data "chapters" = Ok listing /\
           js_filter listing (in_interval E startFrom endAt) = Throw e))).
Proof.
  assert (Hmain : forall data w1 listing chapters,
     fetchChapters E baseUrl w = (Ok data, w1) ->
     get_prop data "chapters" = Ok listing ->
     js_filter listing (in_interval E startFrom endAt) = Ok chapters ->
     exists w3 w' saved failed outs entries,
       downloadAllSurahs E baseUrl outputDir startFrom endAt w = (Ok tt, w') /\
       w' = printed closing_line w3 /\
       Batch E baseUrl outputDir chapters
             (batch_start E outputDir startFrom endAt chapters w1) w3
             saved failed /\
       length saved + length failed = length chapters /\
       Forall (fun e => In (report_line e) (console w')) failed /\
       files w' = files w ++ outs /\
       Forall2 (file_of E baseUrl outputDir) saved outs /\
       sublist saved chapters /\
       listing = VArr entries /\
       sublist chapters entries /\
       (forall c n,
          In c entries -> member c "id" = Some (VNum n) ->
          (In c chapters <-> (startFrom <= n <= endAt)%Z)) /\
       (StronglySorted id_before entries -> StronglySorted id_before saved)).
  { intros data w1 listing chapters Hfetch Hlisting Hfilter.
    pose proof (keeps_fetchChapters E baseUrl w) as Hk. rewrite Hfetch in Hk.
    cbn [snd] in Hk.
    destruct (js_filter_entries _ _ _ Hfilter) as (entries & -> & Hch).
    destruct (batch_runs E baseUrl outputDir chapters
                (batch_start E outputDir startFrom endAt chapters w1))
      as (w3 & saved & failed & Hrun & Hbatch).
    destruct (batch_files E _ _ _ _ _ _ _ Hbatch) as (outs & Hfiles & Hall).
    destruct (batch_reports E _ _ _ _ _ _ _ Hbatch) as [_ Hreports].
    pose proof (batch_sublist E _ _ _ _ _ _ _ Hbatch) as Hsub.
    assert (Hsub' : sublist chapters entries)
      by (rewrite Hch; apply filter_sublist).
    exists w3, (printed closing_line w3), saved, failed, outs, entries.
    split; [|split; [reflexivity|]].
    { unfold downloadAllSurahs.
      rewrite (bind_okay _ _ _ _ _ Hfetch).
      rewrite (bind_okay _ _ _ _ _ (lift_ok _ _ w1 Hlisting)).
      rewrite (bind_okay _ _ _ _ _ (lift_ok _ _ w1 Hfilter)).
      rewrite bind_printHeader_exact, !bind_console_log.
      fold (batch_start E outputDir startFrom endAt chapters w1).
      rewrite (bind_okay _ _ _ _ _ Hrun). reflexivity. }
    split; [exact Hbatch|].
    split; [eapply batch_count, Hbatch|].
    split.
    { eapply Forall_impl; [exact Hreports|]. cbn beta. intros e He.
      cbn [console printed]. apply in_or_app. left. exact He. }
    split.
    { cbn [files printed]. rewrite Hfiles. unfold batch_start.
      cbn [files printed logged]. rewrite Hk. reflexivity. }
    split; [exact Hall|]. split; [exact Hsub|]. split; [reflexivity|].
    split; [exact Hsub'|]. split.
    - intros c n Hin Hid. rewrite Hch, filter_In.
      rewrite (in_interval_number E startFrom endAt c n Hid).
      rewrite andb_true_iff, !Z.leb_le. tauto.
    - intros Hsorted.
      eapply sublist_sorted; [exact Hsub|].
      eapply sublist_sorted; [exact Hsub'|exact Hsorted]. }
  split; [exact Hmain|].
  intros e w' Hthrow.
  pose proof (keeps_fetchChapters E baseUrl w) as Hk.
  destruct (fetchChapters E baseUrl w) as [[data|e0] w1] eqn:Hfetch;
    cbn [fst snd] in *.
  - destruct (get_prop data "chapters") as [listing|e1] eqn:Hlisting.
    + destruct (js_filter listing (in_interval E startFrom endAt))
        as [chapters|e2] eqn:Hfilter.
      * destruct (Hmain _ _ _ _ eq_refl Hlisting Hfilter)
          as (w3 & w4 & saved & failed & outs & entries & Hrun & _).
        rewrite Hrun in Hthrow. discriminate.
      * unfold downloadAllSurahs in Hthrow.
        rewrite (bind_okay _ _ _ _ _ Hfetch) in Hthrow.
        rewrite (bind_okay _ _ _ _ _ (lift_ok _ _ w1 Hlisting)) in Hthrow.
        rewrite bind_lift, Hfilter in Hthrow. injection Hthrow as <- <-.
        split; [reflexivity|]. split; [exact Hk|].
        right. exists data. split; [reflexivity|]. right. exists listing.
        split; [exact Hlisting|exact Hfilter].
    + unfold downloadAllSurahs in Hthrow.
      rewrite (bind_okay _ _ _ _ _ Hfetch) in Hthrow.
      rewrite bind_lift, Hlisting in Hthrow. injection Hthrow as <- <-.
      split; [reflexivity|]. split; [exact Hk|].
      right. exists data. split; [reflexivity|]. left. exact Hlisting.
  - unfold downloadAllSurahs in Hthrow.
    rewrite (bind_thrown _ _ _ _ _ Hfetch) in Hthrow.
    injection Hthrow as <- <-.
    split; [reflexivity|]. split; [exact Hk|]. left. reflexivity.
Qed.

Lemma batch_isolates_failures_witness :
  exists w',
    downloadAllSurahs (sample_env listing_123_json) sample_base "data" 1 114
                      start = (Ok tt, w') /\
    map fst (files w') = ["data/001-al-fatihah.json"%string;
                          "data/003-ali-imran.json"%string] /\
    In (report_line (Error ("Failed to parse JSON from " +:+ words_url "2" "en"
                            +:+ ": Unexpected token in JSON")))
       (console w').
Proof.
  destruct (proj1 (batch_isolates_failures
                     (sample_env listing_123_json) sample_base "data" 1 114
                     start)
              listing_123
              (snd (fetchChapters (sample_env listing_123_json) sample_base
                                  start))
              (VArr [chapter_value 1 "Al-Fatihah";
                     chapter_value 2 "Al-Baqarah";
                     chapter_value 3 "Ali 'Imran"])
              [chapter_value 1 "Al-Fatihah"; chapter_value 2 "Al-Baqarah";
               chapter_value 3 "Ali 'Imran"]
              eq_refl eq_refl eq_refl)
    as (w3 & w' & saved & failed & outs & entries & Hrun & _).
  exists w'. split; [exact Hrun|].
  assert (Hw' : w' = snd (downloadAllSurahs (sample_env listing_123_json)
                            sample_base "data" 1 114 start))
    by (rewrite Hrun; reflexivity).
  rewrite Hw'. split; [vm_compute; reflexivity|].
  vm_compute. do 20 right. left. reflexivity.
Defined.

(** The claim C8 fails as it is stated: with a listing that gives chapter 3
    before chapter 1, the batch over the interval [1, 3] writes the file of
    chapter 3 first. *)
Lemma batch_follows_listing_not_ids :
  exists w',
    downloadAllSurahs (sample_env listing_31_json) sample_base "data" 1 3 start
    = (Ok tt, w') /\
    map fst (files w') = ["data/003-ali-imran.json"%string;
                          "data/001-al-fatihah.json"%string] /\
    map fst (files w') <> ["data/001-al-fatihah.json"%string;
                           "data/003-ali-imran.json"%string].
Proof.
  eexists. split; [vm_compute; reflexivity|].
  split; [vm_compute; reflexivity|]. vm_compute. discriminate.
Qed.

(** The build ends with the exception of the requests, or with that of
    the merge, in the world the requests left. *)
Lemma build_fails E baseUrl c w e :
  fst (fetchFragments E baseUrl c w) = Throw e \/
  (exists f,
     fst (fetchFragments E baseUrl c w) = Ok f /\
     buildAyahs (string_to_number E) f = Throw e) ->
  buildSurahData E baseUrl c w
  = (Throw e, snd (fetchFragments E baseUrl c w)).
Proof.
  destruct (fetchFragments E baseUrl c w) as [r w1] eqn:Hf. cbn [fst snd].
  intros [->|(f & -> & Hmerge)].
  - exact (buildSurahData_fetch_fails E _ _ _ _ _ Hf).
  - exact (buildSurahData_merge_fails E _ _ _ _ _ _ Hf Hmerge).
Qed.

(** C9. A chapter's file is written only once its whole document has been
    built, in the batch and in the single download alike.  In a run, the
    document of the chapter is built in the world this run has reached when
    the first line of the chapter (in the batch) or its heading (in the
    single download) is on the console.  When that build ends with an
    exception, the statements of the chapter end with the same exception in
    the same world and no file has been added; in a batch the exception is
    then reported and the turn ends.  When it returns a document, the
    statements add either no file, when they throw after it, or exactly one
    file, whose content is that document.  In particular, when one of the
    five requests of this run fails, or the merge of their answers throws,
    the statements of the chapter end with that exception and the run has
    added no file.  The build ends with the exception of the first of the
    five requests that fails, and with the exception of the merge when the
    merge throws.  However the statements of a chapter end, a run that
    throws has added no file. *)
Theorem no_partial_document_writes E baseUrl outputDir :
  (forall c w c_id simple arabic,
     shown c "id" = Ok c_id ->
     shown c "name_simple" = Ok simple ->
     shown c "name_arabic" = Ok arabic ->
     match buildSurahData E baseUrl c
             (printed (turn_line c_id simple arabic) w) with
     | (Throw e, w1) =>
         download_chapter E baseUrl outputDir c w = (Throw e, w1) /\
         files w1 = files w /\
         turn E baseUrl outputDir c w = (Ok tt, printed (report_line e) w1)
     | (Ok doc, w1) =>
         files w1 = files w /\
         match download_chapter E baseUrl outputDir c w with
         | (Ok _, w') =>
             exists name,
               output_filename c = Ok name /\
               files w' = files w ++ [(path_join E outputDir name,
                                       JSON_stringify E doc)]
         | (Throw _, w') => files w' = files w
         end
     end) /\
  (forall surahId w data w1 listing c simple arabic c_id c_count c_place,
     fetchChapters E baseUrl w = (Ok data, w1) ->
     get_prop data "chapters" = Ok listing ->
     js_find listing (fun c => let! c_id := get_prop c "id" in
                               Ok (is_number surahId c_id)) = Ok c ->
     truthy c = true ->
     shown c "name_simple" = Ok simple ->
     shown c "name_arabic" = Ok arabic ->
     shown c "id" = Ok c_id ->
     shown c "verses_count" = Ok c_count ->
     shown c "revelation_place" = Ok c_place ->
     match buildSurahData E baseUrl c
             (single_start simple arabic c_id c_count c_place w1) with
     | (Throw e, w2) =>
         downloadSurah E baseUrl outputDir surahId w = (Throw e, w2) /\
         files w2 = files w
     | (Ok doc, w2) =>
         files w2 = files w /\
         match downloadSurah E baseUrl outputDir surahId w with
         | (Ok doc', w') =>
             doc' = doc /\
             exists name,
               output_filename c = Ok name /\
               files w' = files w ++ [(path_join E outputDir name,
                                       JSON_stringify E doc)]
         | (Throw _, w') => files w' = files w
         end
     end) /\
  (forall c w c_id simple arabic e,
     shown c "id" = Ok c_id ->
     shown c "name_simple" = Ok simple ->
     shown c "name_arabic" = Ok arabic ->
     fst (fetchFragments E baseUrl c
            (printed (turn_line c_id simple arabic) w)) = Throw e \/
     (exists f,
        fst (fetchFragments E baseUrl c
               (printed (turn_line c_id simple arabic) w)) = Ok f /\
        buildAyahs (string_to_number E) f = Throw e) ->
     fst (download_chapter E baseUrl outputDir c w) = Throw e /\
     files (snd (download_chapter E baseUrl outputDir c w)) = files w) /\
  (forall surahId w data w1 listing c simple arabic c_id c_count c_place e,
     fetchChapters E baseUrl w = (Ok data, w1) ->
     get_prop data "chapters" = Ok listing ->
     js_find listing (fun c => let! c_id := get_prop c "id" in
                               Ok (is_number surahId c_id)) = Ok c ->
     truthy c = true ->
     shown c "name_simple" = Ok simple ->
     shown c "name_arabic" = Ok arabic ->
     shown c "id" = Ok c_id ->
     shown c "verses_count" = Ok c_count ->
     shown c "revelation_place" = Ok c_place ->
     fst (fetchFragments E baseUrl c
            (single_start simple arabic c_id c_count c_place w1)) = Throw e \/
     (exists f,
        fst (fetchFragments E baseUrl c
               (single_start simple arabic c_id c_count c_place w1)) = Ok f /\
        buildAyahs (string_to_number E) f = Throw e) ->
     fst (downloadSurah E baseUrl outputDir surahId w) = Throw e /\
     files (snd (downloadSurah E baseUrl outputDir surahId w)) = files w) /\
  (forall c w cid n,
     get_prop c "id" = Ok cid ->
     to_string cid = Ok n ->
     fst (fetchFragments E baseUrl c w)
     = fragments_of_answers E baseUrl n (requests w)) /\
  (forall c w e w',
     fetchFragments E baseUrl c w = (Throw e, w') ->
     buildSurahData E baseUrl c w = (Throw e, w')) /\
  (forall c w f w' e,
     fetchFragments E baseUrl c w = (Ok f, w') ->
     buildAyahs (string_to_number E) f = Throw e ->
     buildSurahData E baseUrl c w = (Throw e, w')) /\
  (forall c w e w',
     download_chapter E baseUrl outputDir c w = (Throw e, w') ->
     files w' = files w /\
     files (snd (turn E baseUrl outputDir c w)) = files w) /\
  (forall c w w',
     download_chapter E baseUrl outputDir c w = (Ok tt, w') ->
     exists file,
       file_of E baseUrl outputDir c file /\ files w' = files w ++ [file]) /\
  (forall surahId w e w',
     downloadSurah E baseUrl outputDir surahId w = (Throw e, w') ->
     files w' = files w) /\
  (forall surahId w doc w',
     downloadSurah E baseUrl outputDir surahId w = (Ok doc, w') ->
     exists c name w0 w1,
       buildSurahData E baseUrl c w0 = (Ok doc, w1) /\
       output_filename c = Ok name /\
       files w' = files w ++ [(path_join E outputDir name,
                               JSON_stringify E doc)]).
Proof.
  repeat apply conj.
  - intros c w c_id simple arabic Hid Hsimple Harabic.
    pose proof (download_chapter_run E baseUrl outputDir c w c_id simple
                  arabic Hid Hsimple Harabic) as Hrun.
    pose proof (keeps_buildSurahData E baseUrl c
                  (printed (turn_line c_id simple arabic) w)) as Hk.
    destruct (buildSurahData E baseUrl c
                (printed (turn_line c_id simple arabic) w))
      as [[doc|e] w1]; cbn [snd files printed] in Hk.
    + split; [exact Hk|]. rewrite Hrun.
      destruct (output_filename c) as [name|e]; [|exact Hk].
      destruct (write_failure E (files w1) (path_join E outputDir name));
        [exact Hk|].
      exists name. split; [reflexivity|].
      cbn [files slept printed written]. rewrite Hk. reflexivity.
    + split; [exact Hrun|]. split; [exact Hk|].
      unfold turn, try_catch. rewrite Hrun. reflexivity.
  - intros surahId w data w1 listing c simple arabic c_id c_count c_place
      Hfetch Hlisting Hfind Htruthy Hsimple Harabic Hid Hcount Hplace.
    pose proof (downloadSurah_run E baseUrl outputDir surahId w data w1
                  listing c simple arabic c_id c_count c_place Hfetch
                  Hlisting Hfind Htruthy Hsimple Harabic Hid Hcount Hplace)
      as Hrun.
    pose proof (keeps_fetchChapters E baseUrl w) as Hk1.
    rewrite Hfetch in Hk1. cbn [snd] in Hk1.
    pose proof (keeps_buildSurahData E baseUrl c
                  (single_start simple arabic c_id c_count c_place w1)) as Hk.
    destruct (buildSurahData E baseUrl c
                (single_start simple arabic c_id c_count c_place w1))
      as [[doc|e] w2]; cbn [snd files printed logged single_start] in Hk;
      rewrite Hk1 in Hk.
    + split; [exact Hk|]. rewrite Hrun.
      destruct (output_filename c) as [name|e]; [|exact Hk].
      destruct (write_failure E (files w2) (path_join E outputDir name));
        [exact Hk|].
      split; [reflexivity|]. exists name. split; [reflexivity|].
      cbn [files logged written]. rewrite Hk. reflexivity.
    + split; [exact Hrun|exact Hk].
  - intros c w c_id simple arabic e Hid Hsimple Harabic Hfail.
    pose proof (download_chapter_run E baseUrl outputDir c w c_id simple
                  arabic Hid Hsimple Harabic) as Hrun.
    pose proof (keeps_buildSurahData E baseUrl c
                  (printed (turn_line c_id simple arabic) w)) as Hk.
    rewrite (build_fails E baseUrl c _ e Hfail) in Hrun, Hk.
    rewrite Hrun. split; [reflexivity|exact Hk].
  - intros surahId w data w1 listing c simple arabic c_id c_count c_place e
      Hfetch Hlisting Hfind Htruthy Hsimple Harabic Hid Hcount Hplace Hfail.
    pose proof (downloadSurah_run E baseUrl outputDir surahId w data w1
                  listing c simple arabic c_id c_count c_place Hfetch
                  Hlisting Hfind Htruthy Hsimple Harabic Hid Hcount Hplace)
      as Hrun.
    pose proof (keeps_fetchChapters E baseUrl w) as Hk1.
    rewrite Hfetch in Hk1. cbn [snd] in Hk1.
    pose proof (keeps_buildSurahData E baseUrl c
                  (single_start simple arabic c_id c_count c_place w1)) as Hk.
    rewrite (build_fails E baseUrl c _ e Hfail) in Hrun, Hk.
    rewrite Hrun. split; [reflexivity|].
    cbn [snd files printed logged single_start] in Hk |- *.
    rewrite Hk. exact Hk1.
  - intros c w cid n. apply fetchFragments_answers.
  - intros c w e w'. apply buildSurahData_fetch_fails.
  - intros c w f w' e. apply buildSurahData_merge_fails.
  - intros c w e w' H. pose proof (download_chapter_files E _ _ _ _ _ _ H) as Hf.
    split; [exact Hf|].
    destruct (turn_cases E baseUrl outputDir c w)
      as [(w1 & Hd & _)|(e1 & w1 & Hd & ->)]; [congruence|].
    rewrite H in Hd. injection Hd as <- <-. exact Hf.
  - intros c w w' H. exact (download_chapter_files E _ _ _ _ _ _ H).
  - intros surahId w e w' H. exact (downloadSurah_files E _ _ _ _ _ _ H).
  - intros surahId w doc w' H. exact (downloadSurah_files E _ _ _ _ _ _ H).
Qed.

Lemma no_partial_document_writes_witness :
  exists w1,
    download_chapter (sample_env listing_123_json) sample_base "data"
                     (chapter_value 2 "Al-Baqarah") start
    = (Throw (Error ("Failed to parse JSON from " +:+ words_url "2" "en"
                     +:+ ": Unexpected token in JSON")), w1) /\
    files w1 = [] /\
    files (snd (turn (sample_env listing_123_json) sample_base "data"
                     (chapter_value 2 "Al-Baqarah") start)) = [].
Proof.
  pose proof (proj1 (no_partial_document_writes
                       (sample_env listing_123_json) sample_base "data")
                (chapter_value 2 "Al-Baqarah") start "2" "Al-Baqarah"
                "undefined" eq_refl eq_refl eq_refl) as H.
  assert (Hb :
    buildSurahData (sample_env listing_123_json) sample_base
                   (chapter_value 2 "Al-Baqarah")
                   (printed (turn_line "2" "Al-Baqarah" "undefined") start)
    = (Throw (Error ("Failed to parse JSON from " +:+ words_url "2" "en"
                     +:+ ": Unexpected token in JSON")),
       snd (buildSurahData (sample_env listing_123_json) sample_base
                           (chapter_value 2 "Al-Baqarah")
                           (printed (turn_line "2" "Al-Baqarah" "undefined")
                                    start))))
    by (vm_compute; reflexivity).
  rewrite Hb in H. destruct H as (Hrun & Hfiles & Hturn).
  eexists. split; [exact Hrun|]. split; [exact Hfiles|].
  rewrite Hturn. cbn [snd files printed]. exact Hfiles.
Defined.

(** C10.  The claim fails on the code for a URL that the chosen module
    refuses: [get] then throws inside the executor, and the promise is
    rejected with that TypeError as it is, which is neither of the two
    errors of the claim and whose message is the module's, without the
    prefix of [fetchJSON] and without the URL.  The address
    [HTTPS://api.quran.com/api/v4/chapters] is one: it does not start with
    [https] in lower case, so the module is [http], which refuses the
    scheme. *)
Theorem fetchJSON_refusal_is_not_wrapped E url w msg :
  http_get E (requests w) (protocol_of url) url = Refused msg ->
  fetchJSON E url w = (Throw (TypeError msg), sent w) /\
  (forall text,
     TypeError msg
     <> Error ("HTTP request failed for " +:+ url +:+ ": " +:+ text)) /\
  (forall text,
     TypeError msg
     <> Error ("Failed to parse JSON from " +:+ url +:+ ": " +:+ text)) /\
  message (TypeError msg) = msg.
Proof.
  intros H. unfold fetchJSON, settle. rewrite H.
  repeat split; discriminate.
Qed.

Lemma fetchJSON_refusal_is_not_wrapped_witness :
  protocol_of "HTTPS://api.quran.com/api/v4/chapters" = Http /\
  fetchJSON (sample_env listing_123_json)
            "HTTPS://api.quran.com/api/v4/chapters" start
  = (Throw (TypeError ("Protocol " +:+ quoted "https:"
                       +:+ " not supported. Expected " +:+ quoted "http:")),
     sent start).
Proof.
  split; [reflexivity|].
  apply (fetchJSON_refusal_is_not_wrapped (sample_env listing_123_json)
           "HTTPS://api.quran.com/api/v4/chapters" start).
  reflexivity.
Defined.

(** X30. [fetchJSON] never looks at the status code: whenever a response
    arrives and its accumulated body parses as JSON, the promise resolves
    with the parsed value, whatever the status, and two responses with the
    same body but different status codes settle the promise in the same
    way.  A rejection is one of three: the exception of [get] itself, as it
    is, when the module refuses the URL; an error whose message names the
    URL when the request emits an error; an error whose message names the
    URL and carries the parser's diagnostic when the body does not
    parse. *)
Theorem fetchJSON_never_reads_status E url w :
  (forall status chunks json,
     http_get E (requests w) (protocol_of url) url = Response status chunks ->
     JSON_parse E (accumulate chunks) = inl json ->
     fetchJSON E url w = (Ok json, sent w)) /\
  (forall e w',
     fetchJSON E url w = (Throw e, w') ->
     (exists msg,
        http_get E (requests w) (protocol_of url) url = Refused msg /\
        e = TypeError msg) \/
     (exists msg,
        http_get E (requests w) (protocol_of url) url = RequestError msg /\
        e = Error ("HTTP request failed for " +:+ url +:+ ": " +:+ msg)) \/
     (exists status chunks msg,
        http_get E (requests w) (protocol_of url) url = Response status chunks /\
        JSON_parse E (accumulate chunks) = inr msg /\
        e = Error ("Failed to parse JSON from " +:+ url +:+ ": " +:+ msg))) /\
  (forall status1 status2 chunks,
     settle E url (Response status1 chunks)
     = settle E url (Response status2 chunks)).
Proof.
  split; [|split].
  - intros status chunks json Hx Hjson. unfold fetchJSON, settle.
    rewrite Hx, Hjson. reflexivity.
  - intros e w'. unfold fetchJSON, settle.
    destruct (http_get E (requests w) (protocol_of url) url)
      as [msg|msg|status chunks].
    + intros [= <- _]. left. eauto.
    + intros [= <- _]. right. left. eauto.
    + destruct (JSON_parse E (accumulate chunks)) as [json|msg] eqn:Hp;
        [discriminate|].
      intros [= <- _]. right. right. exists status, chunks, msg. auto.
  - reflexivity.
Qed.

Lemma fetchJSON_never_reads_status_witness :
  http_get (sample_env listing_123_json) 0 Https
           (sample_base +:+ "/quran/verses/uthmani?chapter_number=1")
  = Response 404 ["{}"%string] /\
  fetchJSON (sample_env listing_123_json)
            (sample_base +:+ "/quran/verses/uthmani?chapter_number=1") start
  = (Ok (VObj ∅), sent start).
Proof.
  split; [reflexivity|].
  exact (proj1 (fetchJSON_never_reads_status (sample_env listing_123_json)
                  (sample_base +:+ "/quran/verses/uthmani?chapter_number=1")
                  start)
               404%Z ["{}"%string] (VObj ∅) eq_refl eq_refl).
Defined.
